(** * TradingAgents: LLM backend utilities and the mock router

    A shallow embedding of the Python modules

    - [tradingagents/llm_clients/mock_client.py]   (modules [MockClient],
      [MockRuntime] and [MockChat]),
    - [tradingagents/graph/log_utils.py]           (modules [LogUtils] and
      [LogExport]),
    - [tradingagents/llm_clients/local_utils.py]   (modules [LocalUtils] and
      [LocalModels]),
    - [tradingagents/llm_clients/llamacpp_client.py] (module [LlamaCpp]),

    together with the properties their specification states about them.
    Python dictionaries are finite maps ([gmap]), raised exceptions are
    values of an error monad ([Py.comp]), [float] is IEEE binary64
    ([SpecFloat] at precision 53), and [str] is Unicode text in its
    UTF-8 encoding, with the case mappings of [str.lower] and
    [str.upper] ([Unicode]). *)

From Stdlib Require Import ZArith NArith List Ascii String Bool Lia.
From Stdlib Require Import DecimalString SpecFloat.
From stdpp Require Import base gmap strings.

Local Open Scope Z_scope.


(** ** Text

    A Python [str] is a sequence of Unicode code points.  It is kept
    here as a [string] of bytes, its UTF-8 encoding (the encoding of the
    string literals of this file); a surrogate code point, which a [str]
    may hold, is encoded on three bytes like its neighbours.  Operations
    that look at bytes only --- comparison, concatenation, searching
    for a substring --- act on the encoding as they act on the code
    points.  The case operations decode first. *)

Module Unicode.
Local Open Scope N_scope.

(** What decoding finds in a byte string: code points, and the bytes
    that belong to no encoded code point, kept as they are. *)
Inductive char :=
| Point (c : N)
| Stray (b : ascii).

Definition byte (b : ascii) : N := N_of_ascii b.

Definition is_ascii (b : ascii) : bool := byte b <? 0x80.

Definition is_continuation (b : ascii) : bool :=
  (0x80 <=? byte b) && (byte b <=? 0xBF).

(** The length of the sequence a lead byte announces; 0 for a byte
    that leads no sequence. *)
Definition announced (b : ascii) : nat :=
  if (0xC2 <=? byte b) && (byte b <=? 0xDF) then 2
  else if (0xE0 <=? byte b) && (byte b <=? 0xEF) then 3
  else if (0xF0 <=? byte b) && (byte b <=? 0xF4) then 4
  else 0.

(** The second byte of a sequence: a continuation byte that makes
    neither an overlong form nor a value above 0x10FFFF. *)
Definition second_ok (b0 b1 : ascii) : bool :=
  is_continuation b1
  && (if byte b0 =? 0xE0 then 0xA0 <=? byte b1
      else if byte b0 =? 0xF0 then 0x90 <=? byte b1
      else if byte b0 =? 0xF4 then byte b1 <=? 0x8F
      else true).

Definition payload (b : ascii) : N := byte b mod 0x40.

Definition point2 (b0 b1 : ascii) : N :=
  (byte b0 - 0xC0) * 0x40 + payload b1.

Definition point3 (b0 b1 b2 : ascii) : N :=
  ((byte b0 - 0xE0) * 0x40 + payload b1) * 0x40 + payload b2.

Definition point4 (b0 b1 b2 b3 : ascii) : N :=
  (((byte b0 - 0xF0) * 0x40 + payload b1) * 0x40 + payload b2) * 0x40 + payload b3.

(** A byte met with no sequence under way. *)
Definition start (b : ascii) : list char * list ascii :=
  if is_ascii b then ([Point (byte b)], [])
  else if (2 <=? announced b)%nat then ([], [b])
  else ([Stray b], []).

(** One step of the decoder: [pending] holds the bytes of a sequence
    under way.  The step gives the characters now known and the bytes
    still pending.  A byte that does not continue the sequence leaves
    the pending bytes stray and is looked at afresh. *)
Definition step (pending : list ascii) (b : ascii) : list char * list ascii :=
  let restart := (map Stray pending ++ fst (start b), snd (start b)) in
  match pending with
  | [] => start b
  | [b0] =>
      if second_ok b0 b then
        if (announced b0 =? 2)%nat then ([Point (point2 b0 b)], [])
        else ([], [b0; b])
      else restart
  | [b0; b1] =>
      if is_continuation b then
        if (announced b0 =? 3)%nat then ([Point (point3 b0 b1 b)], [])
        else ([], [b0; b1; b])
      else restart
  | [b0; b1; b2] =>
      if is_continuation b then ([Point (point4 b0 b1 b2 b)], [])
      else restart
  | _ => restart
  end.

Fixpoint decode_from (pending : list ascii) (s : string) : list char :=
  match s with
  | EmptyString => map Stray pending
  | String b s' => fst (step pending b) ++ decode_from (snd (step pending b)) s'
  end.

Definition decode (s : string) : list char := decode_from [] s.

Definition chr (n : N) : string := String (ascii_of_N n) EmptyString.

Definition encode_point (c : N) : string :=
  if c <? 0x80 then chr c
  else if c <? 0x800 then chr (0xC0 + c / 0x40) +:+ chr (0x80 + c mod 0x40)
  else if c <? 0x10000 then
    chr (0xE0 + c / 0x1000) +:+ chr (0x80 + (c / 0x40) mod 0x40)
      +:+ chr (0x80 + c mod 0x40)
  else
    chr (0xF0 + c / 0x40000) +:+ chr (0x80 + (c / 0x1000) mod 0x40)
      +:+ chr (0x80 + (c / 0x40) mod 0x40) +:+ chr (0x80 + c mod 0x40).

Fixpoint encode (s : list char) : string :=
  match s with
  | [] => EmptyString
  | Point c :: rest => encode_point c +:+ encode rest
  | Stray b :: rest => String b (encode rest)
  end.

(** *** Case tables (Unicode 14.0, the tables of CPython 3.11)

    A run [(first, last, stride, image)] maps the code points [first],
    [first + stride], ..., [last] to [image], [image + stride], ...; a
    special entry gives a mapping to several code points.  The ranges
    are inclusive. *)

Definition LOWER_RUNS : list (N * N * N * N) :=
  [(0x41, 0x5A, 1, 0x61); (0xC0, 0xD6, 1, 0xE0); (0xD8, 0xDE, 1, 0xF8); (0x100, 0x12E, 2, 0x101);
   (0x132, 0x136, 2, 0x133); (0x139, 0x147, 2, 0x13A); (0x14A, 0x176, 2, 0x14B);
   (0x178, 0x178, 1, 0xFF); (0x179, 0x17D, 2, 0x17A); (0x181, 0x181, 1, 0x253);
   (0x182, 0x184, 2, 0x183); (0x186, 0x186, 1, 0x254); (0x187, 0x187, 1, 0x188);
   (0x189, 0x18A, 1, 0x256); (0x18B, 0x18B, 1, 0x18C); (0x18E, 0x18E, 1, 0x1DD);
   (0x18F, 0x18F, 1, 0x259); (0x190, 0x190, 1, 0x25B); (0x191, 0x191, 1, 0x192);
   (0x193, 0x193, 1, 0x260); (0x194, 0x194, 1, 0x263); (0x196, 0x196, 1, 0x269);
   (0x197, 0x197, 1, 0x268); (0x198, 0x198, 1, 0x199); (0x19C, 0x19C, 1, 0x26F);
   (0x19D, 0x19D, 1, 0x272); (0x19F, 0x19F, 1, 0x275); (0x1A0, 0x1A4, 2, 0x1A1);
   (0x1A6, 0x1A6, 1, 0x280); (0x1A7, 0x1A7, 1, 0x1A8); (0x1A9, 0x1A9, 1, 0x283);
   (0x1AC, 0x1AC, 1, 0x1AD); (0x1AE, 0x1AE, 1, 0x288); (0x1AF, 0x1AF, 1, 0x1B0);
   (0x1B1, 0x1B2, 1, 0x28A); (0x1B3, 0x1B5, 2, 0x1B4); (0x1B7, 0x1B7, 1, 0x292);
   (0x1B8, 0x1B8, 1, 0x1B9); (0x1BC, 0x1BC, 1, 0x1BD); (0x1C4, 0x1C4, 1, 0x1C6);
   (0x1C5, 0x1C5, 1, 0x1C6); (0x1C7, 0x1C7, 1, 0x1C9); (0x1C8, 0x1C8, 1, 0x1C9);
   (0x1CA, 0x1CA, 1, 0x1CC); (0x1CB, 0x1DB, 2, 0x1CC); (0x1DE, 0x1EE, 2, 0x1DF);
   (0x1F1, 0x1F1, 1, 0x1F3); (0x1F2, 0x1F4, 2, 0x1F3); (0x1F6, 0x1F6, 1, 0x195);
   (0x1F7, 0x1F7, 1, 0x1BF); (0x1F8, 0x21E, 2, 0x1F9); (0x220, 0x220, 1, 0x19E);
   (0x222, 0x232, 2, 0x223); (0x23A, 0x23A, 1, 0x2C65); (0x23B, 0x23B, 1, 0x23C);
   (0x23D, 0x23D, 1, 0x19A); (0x23E, 0x23E, 1, 0x2C66); (0x241, 0x241, 1, 0x242);
   (0x243, 0x243, 1, 0x180); (0x244, 0x244, 1, 0x289); (0x245, 0x245, 1, 0x28C);
   (0x246, 0x24E, 2, 0x247); (0x370, 0x372, 2, 0x371); (0x376, 0x376, 1, 0x377);
   (0x37F, 0x37F, 1, 0x3F3); (0x386, 0x386, 1, 0x3AC); (0x388, 0x38A, 1, 0x3AD);
   (0x38C, 0x38C, 1, 0x3CC); (0x38E, 0x38F, 1, 0x3CD); (0x391, 0x3A1, 1, 0x3B1);
   (0x3A3, 0x3AB, 1, 0x3C3); (0x3CF, 0x3CF, 1, 0x3D7); (0x3D8, 0x3EE, 2, 0x3D9);
   (0x3F4, 0x3F4, 1, 0x3B8); (0x3F7, 0x3F7, 1, 0x3F8); (0x3F9, 0x3F9, 1, 0x3F2);
   (0x3FA, 0x3FA, 1, 0x3FB); (0x3FD, 0x3FF, 1, 0x37B); (0x400, 0x40F, 1, 0x450);
   (0x410, 0x42F, 1, 0x430); (0x460, 0x480, 2, 0x461); (0x48A, 0x4BE, 2, 0x48B);
   (0x4C0, 0x4C0, 1, 0x4CF); (0x4C1, 0x4CD, 2, 0x4C2); (0x4D0, 0x52E, 2, 0x4D1);
   (0x531, 0x556, 1, 0x561); (0x10A0, 0x10C5, 1, 0x2D00); (0x10C7, 0x10C7, 1, 0x2D27);
   (0x10CD, 0x10CD, 1, 0x2D2D); (0x13A0, 0x13EF, 1, 0xAB70); (0x13F0, 0x13F5, 1, 0x13F8);
   (0x1C90, 0x1CBA, 1, 0x10D0); (0x1CBD, 0x1CBF, 1, 0x10FD); (0x1E00, 0x1E94, 2, 0x1E01);
   (0x1E9E, 0x1E9E, 1, 0xDF); (0x1EA0, 0x1EFE, 2, 0x1EA1); (0x1F08, 0x1F0F, 1, 0x1F00);
   (0x1F18, 0x1F1D, 1, 0x1F10); (0x1F28, 0x1F2F, 1, 0x1F20); (0x1F38, 0x1F3F, 1, 0x1F30);
   (0x1F48, 0x1F4D, 1, 0x1F40); (0x1F59, 0x1F5F, 2, 0x1F51); (0x1F68, 0x1F6F, 1, 0x1F60);
   (0x1F88, 0x1F8F, 1, 0x1F80); (0x1F98, 0x1F9F, 1, 0x1F90); (0x1FA8, 0x1FAF, 1, 0x1FA0);
   (0x1FB8, 0x1FB9, 1, 0x1FB0); (0x1FBA, 0x1FBB, 1, 0x1F70); (0x1FBC, 0x1FBC, 1, 0x1FB3);
   (0x1FC8, 0x1FCB, 1, 0x1F72); (0x1FCC, 0x1FCC, 1, 0x1FC3); (0x1FD8, 0x1FD9, 1, 0x1FD0);
   (0x1FDA, 0x1FDB, 1, 0x1F76); (0x1FE8, 0x1FE9, 1, 0x1FE0); (0x1FEA, 0x1FEB, 1, 0x1F7A);
   (0x1FEC, 0x1FEC, 1, 0x1FE5); (0x1FF8, 0x1FF9, 1, 0x1F78); (0x1FFA, 0x1FFB, 1, 0x1F7C);
   (0x1FFC, 0x1FFC, 1, 0x1FF3); (0x2126, 0x2126, 1, 0x3C9); (0x212A, 0x212A, 1, 0x6B);
   (0x212B, 0x212B, 1, 0xE5); (0x2132, 0x2132, 1, 0x214E); (0x2160, 0x216F, 1, 0x2170);
   (0x2183, 0x2183, 1, 0x2184); (0x24B6, 0x24CF, 1, 0x24D0); (0x2C00, 0x2C2F, 1, 0x2C30);
   (0x2C60, 0x2C60, 1, 0x2C61); (0x2C62, 0x2C62, 1, 0x26B); (0x2C63, 0x2C63, 1, 0x1D7D);
   (0x2C64, 0x2C64, 1, 0x27D); (0x2C67, 0x2C6B, 2, 0x2C68); (0x2C6D, 0x2C6D, 1, 0x251);
   (0x2C6E, 0x2C6E, 1, 0x271); (0x2C6F, 0x2C6F, 1, 0x250); (0x2C70, 0x2C70, 1, 0x252);
   (0x2C72, 0x2C72, 1, 0x2C73); (0x2C75, 0x2C75, 1, 0x2C76); (0x2C7E, 0x2C7F, 1, 0x23F);
   (0x2C80, 0x2CE2, 2, 0x2C81); (0x2CEB, 0x2CED, 2, 0x2CEC); (0x2CF2, 0x2CF2, 1, 0x2CF3);
   (0xA640, 0xA66C, 2, 0xA641); (0xA680, 0xA69A, 2, 0xA681); (0xA722, 0xA72E, 2, 0xA723);
   (0xA732, 0xA76E, 2, 0xA733); (0xA779, 0xA77B, 2, 0xA77A); (0xA77D, 0xA77D, 1, 0x1D79);
   (0xA77E, 0xA786, 2, 0xA77F); (0xA78B, 0xA78B, 1, 0xA78C); (0xA78D, 0xA78D, 1, 0x265);
   (0xA790, 0xA792, 2, 0xA791); (0xA796, 0xA7A8, 2, 0xA797); (0xA7AA, 0xA7AA, 1, 0x266);
   (0xA7AB, 0xA7AB, 1, 0x25C); (0xA7AC, 0xA7AC, 1, 0x261); (0xA7AD, 0xA7AD, 1, 0x26C);
   (0xA7AE, 0xA7AE, 1, 0x26A); (0xA7B0, 0xA7B0, 1, 0x29E); (0xA7B1, 0xA7B1, 1, 0x287);
   (0xA7B2, 0xA7B2, 1, 0x29D); (0xA7B3, 0xA7B3, 1, 0xAB53); (0xA7B4, 0xA7C2, 2, 0xA7B5);
   (0xA7C4, 0xA7C4, 1, 0xA794); (0xA7C5, 0xA7C5, 1, 0x282); (0xA7C6, 0xA7C6, 1, 0x1D8E);
   (0xA7C7, 0xA7C9, 2, 0xA7C8); (0xA7D0, 0xA7D0, 1, 0xA7D1); (0xA7D6, 0xA7D8, 2, 0xA7D7);
   (0xA7F5, 0xA7F5, 1, 0xA7F6); (0xFF21, 0xFF3A, 1, 0xFF41); (0x10400, 0x10427, 1, 0x10428);
   (0x104B0, 0x104D3, 1, 0x104D8); (0x10570, 0x10594, 2, 0x10597);
   (0x10571, 0x10579, 2, 0x10598); (0x1057D, 0x10589, 2, 0x105A4);
   (0x1058D, 0x10591, 2, 0x105B4); (0x10595, 0x10595, 1, 0x105BC);
   (0x10C80, 0x10CB2, 1, 0x10CC0); (0x118A0, 0x118BF, 1, 0x118C0);
   (0x16E40, 0x16E5F, 1, 0x16E60); (0x1E900, 0x1E921, 1, 0x1E922)].

Definition LOWER_SPECIAL : list (N * list N) :=
  [(0x130, [0x69; 0x307])].

Definition UPPER_RUNS : list (N * N * N * N) :=
  [(0x61, 0x7A, 1, 0x41); (0xB5, 0xB5, 1, 0x39C); (0xE0, 0xF6, 1, 0xC0); (0xF8, 0xFE, 1, 0xD8);
   (0xFF, 0xFF, 1, 0x178); (0x101, 0x12F, 2, 0x100); (0x131, 0x131, 1, 0x49);
   (0x133, 0x137, 2, 0x132); (0x13A, 0x148, 2, 0x139); (0x14B, 0x177, 2, 0x14A);
   (0x17A, 0x17E, 2, 0x179); (0x17F, 0x17F, 1, 0x53); (0x180, 0x180, 1, 0x243);
   (0x183, 0x185, 2, 0x182); (0x188, 0x188, 1, 0x187); (0x18C, 0x18C, 1, 0x18B);
   (0x192, 0x192, 1, 0x191); (0x195, 0x195, 1, 0x1F6); (0x199, 0x199, 1, 0x198);
   (0x19A, 0x19A, 1, 0x23D); (0x19E, 0x19E, 1, 0x220); (0x1A1, 0x1A5, 2, 0x1A0);
   (0x1A8, 0x1A8, 1, 0x1A7); (0x1AD, 0x1AD, 1, 0x1AC); (0x1B0, 0x1B0, 1, 0x1AF);
   (0x1B4, 0x1B6, 2, 0x1B3); (0x1B9, 0x1B9, 1, 0x1B8); (0x1BD, 0x1BD, 1, 0x1BC);
   (0x1BF, 0x1BF, 1, 0x1F7); (0x1C5, 0x1C5, 1, 0x1C4); (0x1C6, 0x1C6, 1, 0x1C4);
   (0x1C8, 0x1C8, 1, 0x1C7); (0x1C9, 0x1C9, 1, 0x1C7); (0x1CB, 0x1CB, 1, 0x1CA);
   (0x1CC, 0x1CC, 1, 0x1CA); (0x1CE, 0x1DC, 2, 0x1CD); (0x1DD, 0x1DD, 1, 0x18E);
   (0x1DF, 0x1EF, 2, 0x1DE); (0x1F2, 0x1F2, 1, 0x1F1); (0x1F3, 0x1F3, 1, 0x1F1);
   (0x1F5, 0x1F5, 1, 0x1F4); (0x1F9, 0x21F, 2, 0x1F8); (0x223, 0x233, 2, 0x222);
   (0x23C, 0x23C, 1, 0x23B); (0x23F, 0x240, 1, 0x2C7E); (0x242, 0x242, 1, 0x241);
   (0x247, 0x24F, 2, 0x246); (0x250, 0x250, 1, 0x2C6F); (0x251, 0x251, 1, 0x2C6D);
   (0x252, 0x252, 1, 0x2C70); (0x253, 0x253, 1, 0x181); (0x254, 0x254, 1, 0x186);
   (0x256, 0x257, 1, 0x189); (0x259, 0x259, 1, 0x18F); (0x25B, 0x25B, 1, 0x190);
   (0x25C, 0x25C, 1, 0xA7AB); (0x260, 0x260, 1, 0x193); (0x261, 0x261, 1, 0xA7AC);
   (0x263, 0x263, 1, 0x194); (0x265, 0x265, 1, 0xA78D); (0x266, 0x266, 1, 0xA7AA);
   (0x268, 0x268, 1, 0x197); (0x269, 0x269, 1, 0x196); (0x26A, 0x26A, 1, 0xA7AE);
   (0x26B, 0x26B, 1, 0x2C62); (0x26C, 0x26C, 1, 0xA7AD); (0x26F, 0x26F, 1, 0x19C);
   (0x271, 0x271, 1, 0x2C6E); (0x272, 0x272, 1, 0x19D); (0x275, 0x275, 1, 0x19F);
   (0x27D, 0x27D, 1, 0x2C64); (0x280, 0x280, 1, 0x1A6); (0x282, 0x282, 1, 0xA7C5);
   (0x283, 0x283, 1, 0x1A9); (0x287, 0x287, 1, 0xA7B1); (0x288, 0x288, 1, 0x1AE);
   (0x289, 0x289, 1, 0x244); (0x28A, 0x28B, 1, 0x1B1); (0x28C, 0x28C, 1, 0x245);
   (0x292, 0x292, 1, 0x1B7); (0x29D, 0x29D, 1, 0xA7B2); (0x29E, 0x29E, 1, 0xA7B0);
   (0x345, 0x345, 1, 0x399); (0x371, 0x373, 2, 0x370); (0x377, 0x377, 1, 0x376);
   (0x37B, 0x37D, 1, 0x3FD); (0x3AC, 0x3AC, 1, 0x386); (0x3AD, 0x3AF, 1, 0x388);
   (0x3B1, 0x3C1, 1, 0x391); (0x3C2, 0x3C2, 1, 0x3A3); (0x3C3, 0x3CB, 1, 0x3A3);
   (0x3CC, 0x3CC, 1, 0x38C); (0x3CD, 0x3CE, 1, 0x38E); (0x3D0, 0x3D0, 1, 0x392);
   (0x3D1, 0x3D1, 1, 0x398); (0x3D5, 0x3D5, 1, 0x3A6); (0x3D6, 0x3D6, 1, 0x3A0);
   (0x3D7, 0x3D7, 1, 0x3CF); (0x3D9, 0x3EF, 2, 0x3D8); (0x3F0, 0x3F0, 1, 0x39A);
   (0x3F1, 0x3F1, 1, 0x3A1); (0x3F2, 0x3F2, 1, 0x3F9); (0x3F3, 0x3F3, 1, 0x37F);
   (0x3F5, 0x3F5, 1, 0x395); (0x3F8, 0x3F8, 1, 0x3F7); (0x3FB, 0x3FB, 1, 0x3FA);
   (0x430, 0x44F, 1, 0x410); (0x450, 0x45F, 1, 0x400); (0x461, 0x481, 2, 0x460);
   (0x48B, 0x4BF, 2, 0x48A); (0x4C2, 0x4CE, 2, 0x4C1); (0x4CF, 0x4CF, 1, 0x4C0);
   (0x4D1, 0x52F, 2, 0x4D0); (0x561, 0x586, 1, 0x531); (0x10D0, 0x10FA, 1, 0x1C90);
   (0x10FD, 0x10FF, 1, 0x1CBD); (0x13F8, 0x13FD, 1, 0x13F0); (0x1C80, 0x1C80, 1, 0x412);
   (0x1C81, 0x1C81, 1, 0x414); (0x1C82, 0x1C82, 1, 0x41E); (0x1C83, 0x1C84, 1, 0x421);
   (0x1C85, 0x1C85, 1, 0x422); (0x1C86, 0x1C86, 1, 0x42A); (0x1C87, 0x1C87, 1, 0x462);
   (0x1C88, 0x1C88, 1, 0xA64A); (0x1D79, 0x1D79, 1, 0xA77D); (0x1D7D, 0x1D7D, 1, 0x2C63);
   (0x1D8E, 0x1D8E, 1, 0xA7C6); (0x1E01, 0x1E95, 2, 0x1E00); (0x1E9B, 0x1E9B, 1, 0x1E60);
   (0x1EA1, 0x1EFF, 2, 0x1EA0); (0x1F00, 0x1F07, 1, 0x1F08); (0x1F10, 0x1F15, 1, 0x1F18);
   (0x1F20, 0x1F27, 1, 0x1F28); (0x1F30, 0x1F37, 1, 0x1F38); (0x1F40, 0x1F45, 1, 0x1F48);
   (0x1F51, 0x1F57, 2, 0x1F59); (0x1F60, 0x1F67, 1, 0x1F68); (0x1F70, 0x1F71, 1, 0x1FBA);
   (0x1F72, 0x1F75, 1, 0x1FC8); (0x1F76, 0x1F77, 1, 0x1FDA); (0x1F78, 0x1F79, 1, 0x1FF8);
   (0x1F7A, 0x1F7B, 1, 0x1FEA); (0x1F7C, 0x1F7D, 1, 0x1FFA); (0x1FB0, 0x1FB1, 1, 0x1FB8);
   (0x1FBE, 0x1FBE, 1, 0x399); (0x1FD0, 0x1FD1, 1, 0x1FD8); (0x1FE0, 0x1FE1, 1, 0x1FE8);
   (0x1FE5, 0x1FE5, 1, 0x1FEC); (0x214E, 0x214E, 1, 0x2132); (0x2170, 0x217F, 1, 0x2160);
   (0x2184, 0x2184, 1, 0x2183); (0x24D0, 0x24E9, 1, 0x24B6); (0x2C30, 0x2C5F, 1, 0x2C00);
   (0x2C61, 0x2C61, 1, 0x2C60); (0x2C65, 0x2C65, 1, 0x23A); (0x2C66, 0x2C66, 1, 0x23E);
   (0x2C68, 0x2C6C, 2, 0x2C67); (0x2C73, 0x2C73, 1, 0x2C72); (0x2C76, 0x2C76, 1, 0x2C75);
   (0x2C81, 0x2CE3, 2, 0x2C80); (0x2CEC, 0x2CEE, 2, 0x2CEB); (0x2CF3, 0x2CF3, 1, 0x2CF2);
   (0x2D00, 0x2D25, 1, 0x10A0); (0x2D27, 0x2D27, 1, 0x10C7); (0x2D2D, 0x2D2D, 1, 0x10CD);
   (0xA641, 0xA66D, 2, 0xA640); (0xA681, 0xA69B, 2, 0xA680); (0xA723, 0xA72F, 2, 0xA722);
   (0xA733, 0xA76F, 2, 0xA732); (0xA77A, 0xA77C, 2, 0xA779); (0xA77F, 0xA787, 2, 0xA77E);
   (0xA78C, 0xA78C, 1, 0xA78B); (0xA791, 0xA793, 2, 0xA790); (0xA794, 0xA794, 1, 0xA7C4);
   (0xA797, 0xA7A9, 2, 0xA796); (0xA7B5, 0xA7C3, 2, 0xA7B4); (0xA7C8, 0xA7CA, 2, 0xA7C7);
   (0xA7D1, 0xA7D1, 1, 0xA7D0); (0xA7D7, 0xA7D9, 2, 0xA7D6); (0xA7F6, 0xA7F6, 1, 0xA7F5);
   (0xAB53, 0xAB53, 1, 0xA7B3); (0xAB70, 0xABBF, 1, 0x13A0); (0xFF41, 0xFF5A, 1, 0xFF21);
   (0x10428, 0x1044F, 1, 0x10400); (0x104D8, 0x104FB, 1, 0x104B0);
   (0x10597, 0x105BB, 2, 0x10570); (0x10598, 0x105A0, 2, 0x10571);
   (0x105A4, 0x105B0, 2, 0x1057D); (0x105B4, 0x105B8, 2, 0x1058D);
   (0x105BC, 0x105BC, 1, 0x10595); (0x10CC0, 0x10CF2, 1, 0x10C80);
   (0x118C0, 0x118DF, 1, 0x118A0); (0x16E60, 0x16E7F, 1, 0x16E40);
   (0x1E922, 0x1E943, 1, 0x1E900)].

Definition UPPER_SPECIAL : list (N * list N) :=
  [(0xDF, [0x53; 0x53]); (0x149, [0x2BC; 0x4E]); (0x1F0, [0x4A; 0x30C]);
   (0x390, [0x399; 0x308; 0x301]); (0x3B0, [0x3A5; 0x308; 0x301]); (0x587, [0x535; 0x552]);
   (0x1E96, [0x48; 0x331]); (0x1E97, [0x54; 0x308]); (0x1E98, [0x57; 0x30A]);
   (0x1E99, [0x59; 0x30A]); (0x1E9A, [0x41; 0x2BE]); (0x1F50, [0x3A5; 0x313]);
   (0x1F52, [0x3A5; 0x313; 0x300]); (0x1F54, [0x3A5; 0x313; 0x301]);
   (0x1F56, [0x3A5; 0x313; 0x342]); (0x1F80, [0x1F08; 0x399]); (0x1F81, [0x1F09; 0x399]);
   (0x1F82, [0x1F0A; 0x399]); (0x1F83, [0x1F0B; 0x399]); (0x1F84, [0x1F0C; 0x399]);
   (0x1F85, [0x1F0D; 0x399]); (0x1F86, [0x1F0E; 0x399]); (0x1F87, [0x1F0F; 0x399]);
   (0x1F88, [0x1F08; 0x399]); (0x1F89, [0x1F09; 0x399]); (0x1F8A, [0x1F0A; 0x399]);
   (0x1F8B, [0x1F0B; 0x399]); (0x1F8C, [0x1F0C; 0x399]); (0x1F8D, [0x1F0D; 0x399]);
   (0x1F8E, [0x1F0E; 0x399]); (0x1F8F, [0x1F0F; 0x399]); (0x1F90, [0x1F28; 0x399]);
   (0x1F91, [0x1F29; 0x399]); (0x1F92, [0x1F2A; 0x399]); (0x1F93, [0x1F2B; 0x399]);
   (0x1F94, [0x1F2C; 0x399]); (0x1F95, [0x1F2D; 0x399]); (0x1F96, [0x1F2E; 0x399]);
   (0x1F97, [0x1F2F; 0x399]); (0x1F98, [0x1F28; 0x399]); (0x1F99, [0x1F29; 0x399]);
   (0x1F9A, [0x1F2A; 0x399]); (0x1F9B, [0x1F2B; 0x399]); (0x1F9C, [0x1F2C; 0x399]);
   (0x1F9D, [0x1F2D; 0x399]); (0x1F9E, [0x1F2E; 0x399]); (0x1F9F, [0x1F2F; 0x399]);
   (0x1FA0, [0x1F68; 0x399]); (0x1FA1, [0x1F69; 0x399]); (0x1FA2, [0x1F6A; 0x399]);
   (0x1FA3, [0x1F6B; 0x399]); (0x1FA4, [0x1F6C; 0x399]); (0x1FA5, [0x1F6D; 0x399]);
   (0x1FA6, [0x1F6E; 0x399]); (0x1FA7, [0x1F6F; 0x399]); (0x1FA8, [0x1F68; 0x399]);
   (0x1FA9, [0x1F69; 0x399]); (0x1FAA, [0x1F6A; 0x399]); (0x1FAB, [0x1F6B; 0x399]);
   (0x1FAC, [0x1F6C; 0x399]); (0x1FAD, [0x1F6D; 0x399]); (0x1FAE, [0x1F6E; 0x399]);
   (0x1FAF, [0x1F6F; 0x399]); (0x1FB2, [0x1FBA; 0x399]); (0x1FB3, [0x391; 0x399]);
   (0x1FB4, [0x386; 0x399]); (0x1FB6, [0x391; 0x342]); (0x1FB7, [0x391; 0x342; 0x399]);
   (0x1FBC, [0x391; 0x399]); (0x1FC2, [0x1FCA; 0x399]); (0x1FC3, [0x397; 0x399]);
   (0x1FC4, [0x389; 0x399]); (0x1FC6, [0x397; 0x342]); (0x1FC7, [0x397; 0x342; 0x399]);
   (0x1FCC, [0x397; 0x399]); (0x1FD2, [0x399; 0x308; 0x300]); (0x1FD3, [0x399; 0x308; 0x301]);
   (0x1FD6, [0x399; 0x342]); (0x1FD7, [0x399; 0x308; 0x342]); (0x1FE2, [0x3A5; 0x308; 0x300]);
   (0x1FE3, [0x3A5; 0x308; 0x301]); (0x1FE4, [0x3A1; 0x313]); (0x1FE6, [0x3A5; 0x342]);
   (0x1FE7, [0x3A5; 0x308; 0x342]); (0x1FF2, [0x1FFA; 0x399]); (0x1FF3, [0x3A9; 0x399]);
   (0x1FF4, [0x38F; 0x399]); (0x1FF6, [0x3A9; 0x342]); (0x1FF7, [0x3A9; 0x342; 0x399]);
   (0x1FFC, [0x3A9; 0x399]); (0xFB00, [0x46; 0x46]); (0xFB01, [0x46; 0x49]);
   (0xFB02, [0x46; 0x4C]); (0xFB03, [0x46; 0x46; 0x49]); (0xFB04, [0x46; 0x46; 0x4C]);
   (0xFB05, [0x53; 0x54]); (0xFB06, [0x53; 0x54]); (0xFB13, [0x544; 0x546]);
   (0xFB14, [0x544; 0x535]); (0xFB15, [0x544; 0x53B]); (0xFB16, [0x54E; 0x546]);
   (0xFB17, [0x544; 0x53D])].

Definition CASED : list (N * N) :=
  [(0x41, 0x5A); (0x61, 0x7A); (0xAA, 0xAA); (0xB5, 0xB5); (0xBA, 0xBA); (0xC0, 0xD6);
   (0xD8, 0xF6); (0xF8, 0x1BA); (0x1BC, 0x1BF); (0x1C4, 0x293); (0x295, 0x2B8); (0x2C0, 0x2C1);
   (0x2E0, 0x2E4); (0x345, 0x345); (0x370, 0x373); (0x376, 0x377); (0x37A, 0x37D);
   (0x37F, 0x37F); (0x386, 0x386); (0x388, 0x38A); (0x38C, 0x38C); (0x38E, 0x3A1);
   (0x3A3, 0x3F5); (0x3F7, 0x481); (0x48A, 0x52F); (0x531, 0x556); (0x560, 0x588);
   (0x10A0, 0x10C5); (0x10C7, 0x10C7); (0x10CD, 0x10CD); (0x10D0, 0x10FA); (0x10FD, 0x10FF);
   (0x13A0, 0x13F5); (0x13F8, 0x13FD); (0x1C80, 0x1C88); (0x1C90, 0x1CBA); (0x1CBD, 0x1CBF);
   (0x1D00, 0x1DBF); (0x1E00, 0x1F15); (0x1F18, 0x1F1D); (0x1F20, 0x1F45); (0x1F48, 0x1F4D);
   (0x1F50, 0x1F57); (0x1F59, 0x1F59); (0x1F5B, 0x1F5B); (0x1F5D, 0x1F5D); (0x1F5F, 0x1F7D);
   (0x1F80, 0x1FB4); (0x1FB6, 0x1FBC); (0x1FBE, 0x1FBE); (0x1FC2, 0x1FC4); (0x1FC6, 0x1FCC);
   (0x1FD0, 0x1FD3); (0x1FD6, 0x1FDB); (0x1FE0, 0x1FEC); (0x1FF2, 0x1FF4); (0x1FF6, 0x1FFC);
   (0x2071, 0x2071); (0x207F, 0x207F); (0x2090, 0x209C); (0x2102, 0x2102); (0x2107, 0x2107);
   (0x210A, 0x2113); (0x2115, 0x2115); (0x2119, 0x211D); (0x2124, 0x2124); (0x2126, 0x2126);
   (0x2128, 0x2128); (0x212A, 0x212D); (0x212F, 0x2134); (0x2139, 0x2139); (0x213C, 0x213F);
   (0x2145, 0x2149); (0x214E, 0x214E); (0x2160, 0x217F); (0x2183, 0x2184); (0x24B6, 0x24E9);
   (0x2C00, 0x2CE4); (0x2CEB, 0x2CEE); (0x2CF2, 0x2CF3); (0x2D00, 0x2D25); (0x2D27, 0x2D27);
   (0x2D2D, 0x2D2D); (0xA640, 0xA66D); (0xA680, 0xA69D); (0xA722, 0xA787); (0xA78B, 0xA78E);
   (0xA790, 0xA7CA); (0xA7D0, 0xA7D1); (0xA7D3, 0xA7D3); (0xA7D5, 0xA7D9); (0xA7F5, 0xA7F6);
   (0xA7F8, 0xA7FA); (0xAB30, 0xAB5A); (0xAB5C, 0xAB68); (0xAB70, 0xABBF); (0xFB00, 0xFB06);
   (0xFB13, 0xFB17); (0xFF21, 0xFF3A); (0xFF41, 0xFF5A); (0x10400, 0x1044F); (0x104B0, 0x104D3);
   (0x104D8, 0x104FB); (0x10570, 0x1057A); (0x1057C, 0x1058A); (0x1058C, 0x10592);
   (0x10594, 0x10595); (0x10597, 0x105A1); (0x105A3, 0x105B1); (0x105B3, 0x105B9);
   (0x105BB, 0x105BC); (0x10780, 0x10780); (0x10783, 0x10785); (0x10787, 0x107B0);
   (0x107B2, 0x107BA); (0x10C80, 0x10CB2); (0x10CC0, 0x10CF2); (0x118A0, 0x118DF);
   (0x16E40, 0x16E7F); (0x1D400, 0x1D454); (0x1D456, 0x1D49C); (0x1D49E, 0x1D49F);
   (0x1D4A2, 0x1D4A2); (0x1D4A5, 0x1D4A6); (0x1D4A9, 0x1D4AC); (0x1D4AE, 0x1D4B9);
   (0x1D4BB, 0x1D4BB); (0x1D4BD, 0x1D4C3); (0x1D4C5, 0x1D505); (0x1D507, 0x1D50A);
   (0x1D50D, 0x1D514); (0x1D516, 0x1D51C); (0x1D51E, 0x1D539); (0x1D53B, 0x1D53E);
   (0x1D540, 0x1D544); (0x1D546, 0x1D546); (0x1D54A, 0x1D550); (0x1D552, 0x1D6A5);
   (0x1D6A8, 0x1D6C0); (0x1D6C2, 0x1D6DA); (0x1D6DC, 0x1D6FA); (0x1D6FC, 0x1D714);
   (0x1D716, 0x1D734); (0x1D736, 0x1D74E); (0x1D750, 0x1D76E); (0x1D770, 0x1D788);
   (0x1D78A, 0x1D7A8); (0x1D7AA, 0x1D7C2); (0x1D7C4, 0x1D7CB); (0x1DF00, 0x1DF09);
   (0x1DF0B, 0x1DF1E); (0x1E900, 0x1E943); (0x1F130, 0x1F149); (0x1F150, 0x1F169);
   (0x1F170, 0x1F189)].

Definition CASE_IGNORABLE : list (N * N) :=
  [(0x27, 0x27); (0x2E, 0x2E); (0x3A, 0x3A); (0x5E, 0x5E); (0x60, 0x60); (0xA8, 0xA8);
   (0xAD, 0xAD); (0xAF, 0xAF); (0xB4, 0xB4); (0xB7, 0xB8); (0x2B0, 0x36F); (0x374, 0x375);
   (0x37A, 0x37A); (0x384, 0x385); (0x387, 0x387); (0x483, 0x489); (0x559, 0x559);
   (0x55F, 0x55F); (0x591, 0x5BD); (0x5BF, 0x5BF); (0x5C1, 0x5C2); (0x5C4, 0x5C5);
   (0x5C7, 0x5C7); (0x5F4, 0x5F4); (0x600, 0x605); (0x610, 0x61A); (0x61C, 0x61C);
   (0x640, 0x640); (0x64B, 0x65F); (0x670, 0x670); (0x6D6, 0x6DD); (0x6DF, 0x6E8);
   (0x6EA, 0x6ED); (0x70F, 0x70F); (0x711, 0x711); (0x730, 0x74A); (0x7A6, 0x7B0);
   (0x7EB, 0x7F5); (0x7FA, 0x7FA); (0x7FD, 0x7FD); (0x816, 0x82D); (0x859, 0x85B);
   (0x888, 0x888); (0x890, 0x891); (0x898, 0x89F); (0x8C9, 0x902); (0x93A, 0x93A);
   (0x93C, 0x93C); (0x941, 0x948); (0x94D, 0x94D); (0x951, 0x957); (0x962, 0x963);
   (0x971, 0x971); (0x981, 0x981); (0x9BC, 0x9BC); (0x9C1, 0x9C4); (0x9CD, 0x9CD);
   (0x9E2, 0x9E3); (0x9FE, 0x9FE); (0xA01, 0xA02); (0xA3C, 0xA3C); (0xA41, 0xA42);
   (0xA47, 0xA48); (0xA4B, 0xA4D); (0xA51, 0xA51); (0xA70, 0xA71); (0xA75, 0xA75);
   (0xA81, 0xA82); (0xABC, 0xABC); (0xAC1, 0xAC5); (0xAC7, 0xAC8); (0xACD, 0xACD);
   (0xAE2, 0xAE3); (0xAFA, 0xAFF); (0xB01, 0xB01); (0xB3C, 0xB3C); (0xB3F, 0xB3F);
   (0xB41, 0xB44); (0xB4D, 0xB4D); (0xB55, 0xB56); (0xB62, 0xB63); (0xB82, 0xB82);
   (0xBC0, 0xBC0); (0xBCD, 0xBCD); (0xC00, 0xC00); (0xC04, 0xC04); (0xC3C, 0xC3C);
   (0xC3E, 0xC40); (0xC46, 0xC48); (0xC4A, 0xC4D); (0xC55, 0xC56); (0xC62, 0xC63);
   (0xC81, 0xC81); (0xCBC, 0xCBC); (0xCBF, 0xCBF); (0xCC6, 0xCC6); (0xCCC, 0xCCD);
   (0xCE2, 0xCE3); (0xD00, 0xD01); (0xD3B, 0xD3C); (0xD41, 0xD44); (0xD4D, 0xD4D);
   (0xD62, 0xD63); (0xD81, 0xD81); (0xDCA, 0xDCA); (0xDD2, 0xDD4); (0xDD6, 0xDD6);
   (0xE31, 0xE31); (0xE34, 0xE3A); (0xE46, 0xE4E); (0xEB1, 0xEB1); (0xEB4, 0xEBC);
   (0xEC6, 0xEC6); (0xEC8, 0xECD); (0xF18, 0xF19); (0xF35, 0xF35); (0xF37, 0xF37);
   (0xF39, 0xF39); (0xF71, 0xF7E); (0xF80, 0xF84); (0xF86, 0xF87); (0xF8D, 0xF97);
   (0xF99, 0xFBC); (0xFC6, 0xFC6); (0x102D, 0x1030); (0x1032, 0x1037); (0x1039, 0x103A);
   (0x103D, 0x103E); (0x1058, 0x1059); (0x105E, 0x1060); (0x1071, 0x1074); (0x1082, 0x1082);
   (0x1085, 0x1086); (0x108D, 0x108D); (0x109D, 0x109D); (0x10FC, 0x10FC); (0x135D, 0x135F);
   (0x1712, 0x1714); (0x1732, 0x1733); (0x1752, 0x1753); (0x1772, 0x1773); (0x17B4, 0x17B5);
   (0x17B7, 0x17BD); (0x17C6, 0x17C6); (0x17C9, 0x17D3); (0x17D7, 0x17D7); (0x17DD, 0x17DD);
   (0x180B, 0x180F); (0x1843, 0x1843); (0x1885, 0x1886); (0x18A9, 0x18A9); (0x1920, 0x1922);
   (0x1927, 0x1928); (0x1932, 0x1932); (0x1939, 0x193B); (0x1A17, 0x1A18); (0x1A1B, 0x1A1B);
   (0x1A56, 0x1A56); (0x1A58, 0x1A5E); (0x1A60, 0x1A60); (0x1A62, 0x1A62); (0x1A65, 0x1A6C);
   (0x1A73, 0x1A7C); (0x1A7F, 0x1A7F); (0x1AA7, 0x1AA7); (0x1AB0, 0x1ACE); (0x1B00, 0x1B03);
   (0x1B34, 0x1B34); (0x1B36, 0x1B3A); (0x1B3C, 0x1B3C); (0x1B42, 0x1B42); (0x1B6B, 0x1B73);
   (0x1B80, 0x1B81); (0x1BA2, 0x1BA5); (0x1BA8, 0x1BA9); (0x1BAB, 0x1BAD); (0x1BE6, 0x1BE6);
   (0x1BE8, 0x1BE9); (0x1BED, 0x1BED); (0x1BEF, 0x1BF1); (0x1C2C, 0x1C33); (0x1C36, 0x1C37);
   (0x1C78, 0x1C7D); (0x1CD0, 0x1CD2); (0x1CD4, 0x1CE0); (0x1CE2, 0x1CE8); (0x1CED, 0x1CED);
   (0x1CF4, 0x1CF4); (0x1CF8, 0x1CF9); (0x1D2C, 0x1D6A); (0x1D78, 0x1D78); (0x1D9B, 0x1DFF);
   (0x1FBD, 0x1FBD); (0x1FBF, 0x1FC1); (0x1FCD, 0x1FCF); (0x1FDD, 0x1FDF); (0x1FED, 0x1FEF);
   (0x1FFD, 0x1FFE); (0x200B, 0x200F); (0x2018, 0x2019); (0x2024, 0x2024); (0x2027, 0x2027);
   (0x202A, 0x202E); (0x2060, 0x2064); (0x2066, 0x206F); (0x2071, 0x2071); (0x207F, 0x207F);
   (0x2090, 0x209C); (0x20D0, 0x20F0); (0x2C7C, 0x2C7D); (0x2CEF, 0x2CF1); (0x2D6F, 0x2D6F);
   (0x2D7F, 0x2D7F); (0x2DE0, 0x2DFF); (0x2E2F, 0x2E2F); (0x3005, 0x3005); (0x302A, 0x302D);
   (0x3031, 0x3035); (0x303B, 0x303B); (0x3099, 0x309E); (0x30FC, 0x30FE); (0xA015, 0xA015);
   (0xA4F8, 0xA4FD); (0xA60C, 0xA60C); (0xA66F, 0xA672); (0xA674, 0xA67D); (0xA67F, 0xA67F);
   (0xA69C, 0xA69F); (0xA6F0, 0xA6F1); (0xA700, 0xA721); (0xA770, 0xA770); (0xA788, 0xA78A);
   (0xA7F2, 0xA7F4); (0xA7F8, 0xA7F9); (0xA802, 0xA802); (0xA806, 0xA806); (0xA80B, 0xA80B);
   (0xA825, 0xA826); (0xA82C, 0xA82C); (0xA8C4, 0xA8C5); (0xA8E0, 0xA8F1); (0xA8FF, 0xA8FF);
   (0xA926, 0xA92D); (0xA947, 0xA951); (0xA980, 0xA982); (0xA9B3, 0xA9B3); (0xA9B6, 0xA9B9);
   (0xA9BC, 0xA9BD); (0xA9CF, 0xA9CF); (0xA9E5, 0xA9E6); (0xAA29, 0xAA2E); (0xAA31, 0xAA32);
   (0xAA35, 0xAA36); (0xAA43, 0xAA43); (0xAA4C, 0xAA4C); (0xAA70, 0xAA70); (0xAA7C, 0xAA7C);
   (0xAAB0, 0xAAB0); (0xAAB2, 0xAAB4); (0xAAB7, 0xAAB8); (0xAABE, 0xAABF); (0xAAC1, 0xAAC1);
   (0xAADD, 0xAADD); (0xAAEC, 0xAAED); (0xAAF3, 0xAAF4); (0xAAF6, 0xAAF6); (0xAB5B, 0xAB5F);
   (0xAB69, 0xAB6B); (0xABE5, 0xABE5); (0xABE8, 0xABE8); (0xABED, 0xABED); (0xFB1E, 0xFB1E);
   (0xFBB2, 0xFBC2); (0xFE00, 0xFE0F); (0xFE13, 0xFE13); (0xFE20, 0xFE2F); (0xFE52, 0xFE52);
   (0xFE55, 0xFE55); (0xFEFF, 0xFEFF); (0xFF07, 0xFF07); (0xFF0E, 0xFF0E); (0xFF1A, 0xFF1A);
   (0xFF3E, 0xFF3E); (0xFF40, 0xFF40); (0xFF70, 0xFF70); (0xFF9E, 0xFF9F); (0xFFE3, 0xFFE3);
   (0xFFF9, 0xFFFB); (0x101FD, 0x101FD); (0x102E0, 0x102E0); (0x10376, 0x1037A);
   (0x10780, 0x10785); (0x10787, 0x107B0); (0x107B2, 0x107BA); (0x10A01, 0x10A03);
   (0x10A05, 0x10A06); (0x10A0C, 0x10A0F); (0x10A38, 0x10A3A); (0x10A3F, 0x10A3F);
   (0x10AE5, 0x10AE6); (0x10D24, 0x10D27); (0x10EAB, 0x10EAC); (0x10F46, 0x10F50);
   (0x10F82, 0x10F85); (0x11001, 0x11001); (0x11038, 0x11046); (0x11070, 0x11070);
   (0x11073, 0x11074); (0x1107F, 0x11081); (0x110B3, 0x110B6); (0x110B9, 0x110BA);
   (0x110BD, 0x110BD); (0x110C2, 0x110C2); (0x110CD, 0x110CD); (0x11100, 0x11102);
   (0x11127, 0x1112B); (0x1112D, 0x11134); (0x11173, 0x11173); (0x11180, 0x11181);
   (0x111B6, 0x111BE); (0x111C9, 0x111CC); (0x111CF, 0x111CF); (0x1122F, 0x11231);
   (0x11234, 0x11234); (0x11236, 0x11237); (0x1123E, 0x1123E); (0x112DF, 0x112DF);
   (0x112E3, 0x112EA); (0x11300, 0x11301); (0x1133B, 0x1133C); (0x11340, 0x11340);
   (0x11366, 0x1136C); (0x11370, 0x11374); (0x11438, 0x1143F); (0x11442, 0x11444);
   (0x11446, 0x11446); (0x1145E, 0x1145E); (0x114B3, 0x114B8); (0x114BA, 0x114BA);
   (0x114BF, 0x114C0); (0x114C2, 0x114C3); (0x115B2, 0x115B5); (0x115BC, 0x115BD);
   (0x115BF, 0x115C0); (0x115DC, 0x115DD); (0x11633, 0x1163A); (0x1163D, 0x1163D);
   (0x1163F, 0x11640); (0x116AB, 0x116AB); (0x116AD, 0x116AD); (0x116B0, 0x116B5);
   (0x116B7, 0x116B7); (0x1171D, 0x1171F); (0x11722, 0x11725); (0x11727, 0x1172B);
   (0x1182F, 0x11837); (0x11839, 0x1183A); (0x1193B, 0x1193C); (0x1193E, 0x1193E);
   (0x11943, 0x11943); (0x119D4, 0x119D7); (0x119DA, 0x119DB); (0x119E0, 0x119E0);
   (0x11A01, 0x11A0A); (0x11A33, 0x11A38); (0x11A3B, 0x11A3E); (0x11A47, 0x11A47);
   (0x11A51, 0x11A56); (0x11A59, 0x11A5B); (0x11A8A, 0x11A96); (0x11A98, 0x11A99);
   (0x11C30, 0x11C36); (0x11C38, 0x11C3D); (0x11C3F, 0x11C3F); (0x11C92, 0x11CA7);
   (0x11CAA, 0x11CB0); (0x11CB2, 0x11CB3); (0x11CB5, 0x11CB6); (0x11D31, 0x11D36);
   (0x11D3A, 0x11D3A); (0x11D3C, 0x11D3D); (0x11D3F, 0x11D45); (0x11D47, 0x11D47);
   (0x11D90, 0x11D91); (0x11D95, 0x11D95); (0x11D97, 0x11D97); (0x11EF3, 0x11EF4);
   (0x13430, 0x13438); (0x16AF0, 0x16AF4); (0x16B30, 0x16B36); (0x16B40, 0x16B43);
   (0x16F4F, 0x16F4F); (0x16F8F, 0x16F9F); (0x16FE0, 0x16FE1); (0x16FE3, 0x16FE4);
   (0x1AFF0, 0x1AFF3); (0x1AFF5, 0x1AFFB); (0x1AFFD, 0x1AFFE); (0x1BC9D, 0x1BC9E);
   (0x1BCA0, 0x1BCA3); (0x1CF00, 0x1CF2D); (0x1CF30, 0x1CF46); (0x1D167, 0x1D169);
   (0x1D173, 0x1D182); (0x1D185, 0x1D18B); (0x1D1AA, 0x1D1AD); (0x1D242, 0x1D244);
   (0x1DA00, 0x1DA36); (0x1DA3B, 0x1DA6C); (0x1DA75, 0x1DA75); (0x1DA84, 0x1DA84);
   (0x1DA9B, 0x1DA9F); (0x1DAA1, 0x1DAAF); (0x1E000, 0x1E006); (0x1E008, 0x1E018);
   (0x1E01B, 0x1E021); (0x1E023, 0x1E024); (0x1E026, 0x1E02A); (0x1E130, 0x1E13D);
   (0x1E2AE, 0x1E2AE); (0x1E2EC, 0x1E2EF); (0x1E8D0, 0x1E8D6); (0x1E944, 0x1E94B);
   (0x1F3FB, 0x1F3FF); (0xE0001, 0xE0001); (0xE0020, 0xE007F); (0xE0100, 0xE01EF)].

Definition in_run (c : N) (run : N * N * N * N) : bool :=
  let '(first, last, stride, _) := run in
  (first <=? c) && (c <=? last) && ((c - first) mod stride =? 0).

Definition mapped (runs : list (N * N * N * N)) (special : list (N * list N)) (c : N)
  : list N :=
  match find (fun entry => fst entry =? c) special with
  | Some (_, image) => image
  | None =>
      match find (in_run c) runs with
      | Some (first, _, _, image) => [image + (c - first)]
      | None => [c]
      end
  end.

(** The full lowercase and uppercase mappings of one code point. *)
Definition to_lower_full (c : N) : list N := mapped LOWER_RUNS LOWER_SPECIAL c.
Definition to_upper_full (c : N) : list N := mapped UPPER_RUNS UPPER_SPECIAL c.

Definition in_ranges (c : N) (ranges : list (N * N)) : bool :=
  existsb (fun range => (fst range <=? c) && (c <=? snd range)) ranges.

(** The properties Cased and Case_Ignorable. *)
Definition cased (c : N) : bool := in_ranges c CASED.
Definition case_ignorable (c : N) : bool := in_ranges c CASE_IGNORABLE.

Definition CAPITAL_SIGMA : N := 0x3A3.
Definition SMALL_SIGMA : N := 0x3C3.
Definition FINAL_SIGMA : N := 0x3C2.

End Unicode.
(** ** Python built-ins used by the modules *)

Module Py.
Import Unicode.

(** *** [str]

    A [str] is a [string] holding its UTF-8 encoding (see [Unicode]). *)

Definition NL : string := String "010"%char EmptyString.

Definition is_upper (c : ascii) : bool :=
  let n := nat_of_ascii c in (65 <=? n)%nat && (n <=? 90)%nat.

Definition is_lower (c : ascii) : bool :=
  let n := nat_of_ascii c in (97 <=? n)%nat && (n <=? 122)%nat.

Definition lower_char (c : ascii) : ascii :=
  if is_upper c then ascii_of_nat (nat_of_ascii c + 32) else c.

Definition upper_char (c : ascii) : ascii :=
  if is_lower c then ascii_of_nat (nat_of_ascii c - 32) else c.

(** The test of [str.lower] at a capital sigma: the nearest character
    after it that is not case-ignorable exists and is cased. *)
Fixpoint cased_follows (s : list char) : bool :=
  match s with
  | [] => false
  | Point c :: rest => if case_ignorable c then cased_follows rest else cased c
  | Stray _ :: _ => false
  end.

(** [str.lower] on decoded text.  Every code point is replaced by its
    full lowercase mapping, but for the capital sigma: it becomes the
    final small sigma when it closes a word --- the nearest character
    before it that is not case-ignorable is cased ([after_cased]) and
    the nearest one after it is not --- and the small sigma otherwise. *)
Fixpoint lower_chars (after_cased : bool) (s : list char) : list char :=
  match s with
  | [] => []
  | Stray b :: rest => Stray b :: lower_chars false rest
  | Point c :: rest =>
      (if (c =? CAPITAL_SIGMA)%N then
         [Point (if after_cased && negb (cased_follows rest)
                 then FINAL_SIGMA else SMALL_SIGMA)]
       else map Point (to_lower_full c))
      ++ lower_chars (if case_ignorable c then after_cased else cased c) rest
  end.

(** [str.upper] on decoded text: the full uppercase mapping of every
    code point. *)
Definition upper_chars (s : list char) : list char :=
  flat_map (fun ch => match ch with
                      | Point c => map Point (to_upper_full c)
                      | Stray b => [Stray b]
                      end) s.

(** [s.lower()] *)
Definition lower (s : string) : string := encode (lower_chars false (decode s)).

(** [s.upper()] *)
Definition upper (s : string) : string := encode (upper_chars (decode s)).

(** [s.startswith(p)] *)
Fixpoint startswith (p s : string) : bool :=
  match p, s with
  | EmptyString, _ => true
  | String _ _, EmptyString => false
  | String a p', String b s' => Ascii.eqb a b && startswith p' s'
  end.

(** [sub in s] *)
Fixpoint contains (sub s : string) : bool :=
  startswith sub s ||
  match s with
  | EmptyString => false
  | String _ s' => contains sub s'
  end.

(** [s.endswith(suf)] *)
Fixpoint endswith (suf s : string) : bool :=
  String.eqb suf s ||
  match s with
  | EmptyString => false
  | String _ s' => endswith suf s'
  end.

(** [s.replace(old, new)] for one-character [old] and [new]. *)
Fixpoint replace (old new : ascii) (s : string) : string :=
  match s with
  | EmptyString => EmptyString
  | String c s' => String (if Ascii.eqb c old then new else c) (replace old new s')
  end.

(** [s.title()] of ASCII text (the field names of [log_utils.py]): a
    letter is upper-cased when the character before it is no letter,
    and lower-cased otherwise. *)
Fixpoint title_from (previous_is_cased : bool) (s : string) : string :=
  match s with
  | EmptyString => EmptyString
  | String c s' =>
      if is_lower c then
        String (if previous_is_cased then c else upper_char c) (title_from true s')
      else if is_upper c then
        String (if previous_is_cased then lower_char c else c) (title_from true s')
      else String c (title_from false s')
  end.

Definition title (s : string) : string := title_from false s.

(** [sep.join(parts)] *)
Fixpoint join (sep : string) (parts : list string) : string :=
  match parts with
  | [] => EmptyString
  | [p] => p
  | p :: rest => p +:+ sep +:+ join sep rest
  end.

(** [str(n)] for an [int]. *)
Definition str_int (z : Z) : string := NilZero.string_of_int (Z.to_int z).

(** Truth value of a [str]: the empty string is falsy. *)
Definition truthy_str (s : string) : bool := negb (String.eqb s EmptyString).

(** *** Exceptions

    An exception is a class and the text [str(e)].  The classes are the
    ones the [except] clauses of the modules tell apart; all of them
    derive from [Exception]. *)

Inductive exn_class :=
| ConnectionError | Timeout | ConnectTimeout
| FileNotFoundError | TimeoutExpired
| ImportError | ModuleNotFoundError
| ValueError | TypeError | KeyError
| OtherException (name : string).

#[global] Instance exn_class_eq_dec : EqDecision exn_class.
Proof. solve_decision. Defined.

Record exn := Exn { exn_cls : exn_class; exn_str : string }.

(** [requests.ConnectTimeout] derives from both [ConnectionError] and
    [Timeout]; [ModuleNotFoundError] derives from [ImportError]. *)
Definition issubclass (c base : exn_class) : bool :=
  match c, base with
  | ConnectTimeout, ConnectionError => true
  | ConnectTimeout, Timeout => true
  | ModuleNotFoundError, ImportError => true
  | _, _ => bool_decide (c = base)
  end.

Definition isinstance (e : exn) (base : exn_class) : bool :=
  issubclass (exn_cls e) base.

(** A computation returns a value or raises. *)
Inductive comp (A : Type) : Type :=
| Ret (a : A)
| Raise (e : exn).
Arguments Ret {A} a.
Arguments Raise {A} e.

Definition bind {A B : Type} (c : comp A) (k : A -> comp B) : comp B :=
  match c with
  | Ret a => k a
  | Raise e => Raise e
  end.

(** [try: body  except ...: handler(e)] *)
Definition try_except {A : Type} (body : comp A) (handler : exn -> comp A) : comp A :=
  match body with
  | Ret a => Ret a
  | Raise e => handler e
  end.

Definition returns {A : Type} (c : comp A) : Prop := exists a, c = Ret a.

(** *** [float]

    IEEE 754 binary64, rounding to nearest even. *)

Definition float := spec_float.
Definition fmul : float -> float -> float := SFmul 53 1024.
Definition fdiv : float -> float -> float := SFdiv 53 1024.

(** [float(n)] for an [int] (below the overflow threshold [2**1024]). *)
Definition float_of_int (z : Z) : float := binary_normalize 53 1024 z 0 false.

(** A decimal literal [num / 10**digits], correctly rounded. *)
Definition float_literal (num : positive) (digits : nat) : float :=
  fdiv (S754_finite false num 0)
       (S754_finite false (Pos.pow 10 (Pos.of_nat digits)) 0).

(** The integer nearest to [10 * m * 2**e], ties going to the even one:
    the correctly rounded count of tenths in a finite float. *)
Definition nearest_tenths (m : positive) (e : Z) : Z :=
  let num := 10 * Z.pos m in
  match e with
  | Zneg p =>
      let den := Z.pow 2 (Z.pos p) in
      let q := num / den in
      let r := num mod den in
      match Z.compare (2 * r) den with
      | Lt => q
      | Gt => q + 1
      | Eq => if Z.even q then q else q + 1
      end
  | _ => num * Z.pow 2 e
  end.

(** [round(x, 1)]: the decimal with one fractional digit nearest to the
    exact value of [x], converted back to the nearest float. *)
Definition round1 (x : float) : float :=
  match x with
  | S754_finite s m e =>
      match nearest_tenths m e with
      | Zpos k => fdiv (S754_finite s k 0) (S754_finite false 10 0)
      | _ => S754_zero s
      end
  | _ => x
  end.

(** [format(x, ".1f")] *)
Definition format_1f (x : float) : string :=
  let sign (s : bool) : string := if s then "-" else "" in
  match x with
  | S754_zero s => sign s +:+ "0.0"
  | S754_infinity s => sign s +:+ "inf"
  | S754_nan => "nan"
  | S754_finite s m e =>
      let k := nearest_tenths m e in
      sign s +:+ str_int (k / 10) +:+ "." +:+ str_int (k mod 10)
  end.

End Py.

(** ** [mock_client.py] *)

Module MockClient.
Import Py.

Definition MOCK_MARKET_REPORT : string :=
  "## Market Analysis Report

**Trend Overview**: The stock shows a moderate uptrend over the past 30 days with increasing volume. The 50-day SMA is above the 200-day SMA, confirming a bullish golden cross pattern.

**Key Technical Indicators**:
- RSI: 62 (neutral-bullish, not overbought)
- MACD: Positive crossover observed, histogram expanding
- Bollinger Bands: Price trading in upper half, bandwidth expanding
- ATR: Volatility increasing slightly, suggesting momentum building

**Volume Analysis**: Volume has been 15% above the 20-day average, supporting the current uptrend.

| Indicator | Value | Signal |
|-----------|-------|--------|
| RSI (14) | 62.3 | Neutral-Bullish |
| MACD | +1.24 | Bullish Crossover |
| 50 SMA | Above 200 SMA | Golden Cross |
| ATR (14) | 2.8% | Moderate Volatility |

FINAL TRANSACTION PROPOSAL: **BUY**".

Definition MOCK_SENTIMENT_REPORT : string :=
  "## Social Sentiment Analysis

**Overall Sentiment**: Moderately positive across major social platforms.

**Key Findings**:
- Twitter/X mentions up 23% week-over-week with 68% positive sentiment
- Reddit discussion volume elevated; bullish posts outnumber bearish 3:1
- Institutional investor commentary skews cautiously optimistic
- No significant negative viral content detected

| Platform | Sentiment | Volume Change |
|----------|-----------|---------------|
| Twitter/X | 68% Positive | +23% WoW |
| Reddit | 75% Positive | +18% WoW |
| StockTwits | 61% Positive | +12% WoW |

FINAL TRANSACTION PROPOSAL: **BUY**".

Definition MOCK_NEWS_REPORT : string :=
  "## News Analysis Report

**Key Developments**:
1. Company reported Q1 earnings beating consensus estimates by 8%
2. New product launch received positive industry coverage
3. Sector-wide tailwinds from favorable regulatory developments
4. No significant insider selling detected in recent filings

**Macro Environment**: Stable interest rate outlook supports growth-oriented investments. Recent economic data indicates resilient consumer spending.

| Factor | Impact | Confidence |
|--------|--------|------------|
| Earnings Beat | Positive | High |
| Product Launch | Positive | Medium |
| Regulatory | Positive | Medium |
| Macro Outlook | Neutral-Positive | Medium |

FINAL TRANSACTION PROPOSAL: **BUY**".

Definition MOCK_FUNDAMENTALS_REPORT : string :=
  "## Fundamentals Analysis

**Financial Health**: Strong balance sheet with healthy cash reserves and manageable debt levels.

**Key Metrics**:
- Revenue growth: 12% YoY
- Gross margin: 65% (expanding)
- Operating margin: 28% (stable)
- Free cash flow positive and growing
- Debt-to-equity: 0.45 (conservative)
- Current ratio: 2.1 (strong liquidity)

**Valuation**: Trading at a reasonable P/E relative to growth rate (PEG ~1.2).

| Metric | Value | Trend |
|--------|-------|-------|
| Revenue Growth | 12% YoY | Improving |
| Gross Margin | 65% | Expanding |
| FCF Yield | 3.8% | Stable |
| P/E Ratio | 28x | Fair |
| Debt/Equity | 0.45 | Conservative |

FINAL TRANSACTION PROPOSAL: **BUY**".

Definition MOCK_BULL_ARGUMENT : string :=
  "The investment case here is compelling. Revenue growth of 12% YoY with expanding margins demonstrates operational leverage. The golden cross on the technical chart aligns with improving fundamentals, and positive social sentiment suggests the market is beginning to recognize the value proposition. The recent earnings beat provides a catalyst, and the PEG ratio of 1.2 suggests the stock is reasonably priced relative to its growth trajectory. I strongly advocate for a BUY position.".

Definition MOCK_BEAR_ARGUMENT : string :=
  "While the fundamentals appear solid on the surface, the RSI at 62 suggests we are approaching overbought territory. The elevated social media activity could indicate speculative froth rather than fundamental conviction. Additionally, the sector tailwinds may already be priced in. However, I acknowledge the earnings beat is a genuine positive signal. My concern is primarily around timing and valuation stretch rather than fundamental deterioration.".

Definition MOCK_RESEARCH_MANAGER_DECISION : string :=
  "After carefully evaluating both perspectives, I side with the bull analyst. The convergence of strong earnings, positive technical momentum, and improving fundamentals creates a favorable risk-reward profile.

**Recommendation: BUY**

**Strategic Actions**:
1. Initiate a position at current levels
2. Set a stop-loss at 5% below entry
3. Target a 15% upside over the next quarter
4. Monitor upcoming earnings and sector developments for position adjustment

FINAL TRANSACTION PROPOSAL: **BUY**".

Definition MOCK_TRADER_DECISION : string :=
  "Based on the comprehensive analysis from the research team, I am executing a BUY recommendation.

**Trade Plan**:
- Action: BUY
- Position Size: Moderate (not full allocation due to elevated RSI)
- Entry: At current market price
- Stop-Loss: 5% below entry
- Take-Profit Target: 15% above entry
- Time Horizon: 1-3 months

The research team's bullish consensus, supported by strong earnings, positive technicals, and favorable sentiment, provides sufficient conviction for this trade.

FINAL TRANSACTION PROPOSAL: **BUY**".

Definition MOCK_AGGRESSIVE_RISK : string :=
  "The upside potential here significantly outweighs the downside risk. With 12% revenue growth, expanding margins, and a technical golden cross, we should be taking a larger position than suggested. The 5% stop-loss is too tight for the volatility profile; I would advocate for an 8% stop to avoid being shaken out. The conservative concern about RSI is overblown -- in strong uptrends, RSI can remain elevated for extended periods. We should be aggressive here.".

Definition MOCK_CONSERVATIVE_RISK : string :=
  "While I acknowledge the positive signals, prudent risk management demands caution. The position size should be limited, and the stop-loss should remain tight. The market has been running hot, and mean reversion is always a risk. I recommend a smaller initial position with plans to add on any pullback, rather than going all-in at these levels.".

Definition MOCK_NEUTRAL_RISK : string :=
  "Both the aggressive and conservative viewpoints have merit. A balanced approach would be to initiate a moderate position as the trader suggests, with the 5% stop-loss as a reasonable compromise. The risk-reward is favorable but not extraordinary. I support the BUY recommendation with the proposed position sizing.".

Definition MOCK_RISK_JUDGE_DECISION : string :=
  "After evaluating all three risk perspectives, I recommend proceeding with the BUY.

**Final Risk-Adjusted Plan**:
- Action: BUY
- Position Size: Moderate allocation
- Stop-Loss: 6% below entry (compromise between aggressive and conservative)
- Take-Profit: 15% target with trailing stop
- Risk Rating: Moderate

The aggressive analyst makes a valid point about the strong trend, while the conservative analyst's caution about position sizing is prudent. The neutral analyst's balanced view aligns closest with optimal risk management. Proceeding with a moderate position at current levels.

FINAL TRANSACTION PROPOSAL: **BUY**".

(** [_route_response(text)]: the first matching test on the lowercased
    prompt selects the canned response. *)
Definition _route_response (text : string) : string :=
  let t := lower text in
  if contains "extract the investment decision" t then "BUY"
  else if contains "analyzing financial markets" t || contains "technical indicator" t
  then MOCK_MARKET_REPORT
  else if contains "social media" t && contains "sentiment" t && negb (contains "analyst" t)
  then MOCK_SENTIMENT_REPORT
  else if contains "news" t && contains "researcher" t && contains "world affairs" t
  then MOCK_NEWS_REPORT
  else if contains "fundamental information" t || contains "financial documents" t
  then MOCK_FUNDAMENTALS_REPORT
  else if contains "bull analyst" t then MOCK_BULL_ARGUMENT
  else if contains "bear analyst" t then MOCK_BEAR_ARGUMENT
  else if contains "portfolio manager and debate facilitator" t
  then MOCK_RESEARCH_MANAGER_DECISION
  else if contains "risk management judge" t then MOCK_RISK_JUDGE_DECISION
  else if contains "trading agent" t && contains "investment decision" t
  then MOCK_TRADER_DECISION
  else if contains "aggressive risk analyst" t then MOCK_AGGRESSIVE_RISK
  else if contains "conservative risk analyst" t then MOCK_CONSERVATIVE_RISK
  else if contains "neutral risk analyst" t then MOCK_NEUTRAL_RISK
  else if contains "expert financial analyst" t && contains "reviewing trading" t
  then "Reflection: The analysis was thorough and well-supported by data."
  else "Analysis complete. FINAL TRANSACTION PROPOSAL: **BUY**".

(** *** Vocabulary of the specification *)

Definition SIGNALS : list string := ["BUY"; "SELL"; "HOLD"].

(** The sentinel phrase carrying a signal. *)
Definition sentinel (signal : string) : string :=
  "FINAL TRANSACTION PROPOSAL: **" +:+ signal +:+ "**".

Definition ends_with_sentinel (response : string) : bool :=
  existsb (fun signal => endswith (sentinel signal) response) SIGNALS.

Definition contains_sentinel (response : string) : bool :=
  existsb (fun signal => contains (sentinel signal) response) SIGNALS.

(** The pipeline roles that have a canned response of their own. *)
Inductive role :=
| MarketAnalyst | SentimentAnalyst | NewsAnalyst | FundamentalsAnalyst
| BullResearcher | BearResearcher
| ResearchManager | RiskJudge | Trader
| AggressiveRisk | ConservativeRisk | NeutralRisk.

Inductive role_kind := Analyst | Debate | Decision | Risk.

Definition kind_of (r : role) : role_kind :=
  match r with
  | MarketAnalyst | SentimentAnalyst | NewsAnalyst | FundamentalsAnalyst => Analyst
  | BullResearcher | BearResearcher => Debate
  | ResearchManager | RiskJudge | Trader => Decision
  | AggressiveRisk | ConservativeRisk | NeutralRisk => Risk
  end.

Definition canned (r : role) : string :=
  match r with
  | MarketAnalyst => MOCK_MARKET_REPORT
  | SentimentAnalyst => MOCK_SENTIMENT_REPORT
  | NewsAnalyst => MOCK_NEWS_REPORT
  | FundamentalsAnalyst => MOCK_FUNDAMENTALS_REPORT
  | BullResearcher => MOCK_BULL_ARGUMENT
  | BearResearcher => MOCK_BEAR_ARGUMENT
  | ResearchManager => MOCK_RESEARCH_MANAGER_DECISION
  | RiskJudge => MOCK_RISK_JUDGE_DECISION
  | Trader => MOCK_TRADER_DECISION
  | AggressiveRisk => MOCK_AGGRESSIVE_RISK
  | ConservativeRisk => MOCK_CONSERVATIVE_RISK
  | NeutralRisk => MOCK_NEUTRAL_RISK
  end.

(** The router as the specification describes it: an ordered table of
    (predicate over the lowercased text, response) rules, the first
    match winning, and a fallback when none matches. *)
Definition FALLBACK : string :=
  "Analysis complete. FINAL TRANSACTION PROPOSAL: **BUY**".

Definition RULES : list ((string -> bool) * string) :=
  [ (fun t => contains "extract the investment decision" t, "BUY");
    (fun t => contains "analyzing financial markets" t || contains "technical indicator" t,
     MOCK_MARKET_REPORT);
    (fun t => contains "social media" t && contains "sentiment" t
              && negb (contains "analyst" t),
     MOCK_SENTIMENT_REPORT);
    (fun t => contains "news" t && contains "researcher" t && contains "world affairs" t,
     MOCK_NEWS_REPORT);
    (fun t => contains "fundamental information" t || contains "financial documents" t,
     MOCK_FUNDAMENTALS_REPORT);
    (fun t => contains "bull analyst" t, MOCK_BULL_ARGUMENT);
    (fun t => contains "bear analyst" t, MOCK_BEAR_ARGUMENT);
    (fun t => contains "portfolio manager and debate facilitator" t,
     MOCK_RESEARCH_MANAGER_DECISION);
    (fun t => contains "risk management judge" t, MOCK_RISK_JUDGE_DECISION);
    (fun t => contains "trading agent" t && contains "investment decision" t,
     MOCK_TRADER_DECISION);
    (fun t => contains "aggressive risk analyst" t, MOCK_AGGRESSIVE_RISK);
    (fun t => contains "conservative risk analyst" t, MOCK_CONSERVATIVE_RISK);
    (fun t => contains "neutral risk analyst" t, MOCK_NEUTRAL_RISK);
    (fun t => contains "expert financial analyst" t && contains "reviewing trading" t,
     "Reflection: The analysis was thorough and well-supported by data.") ].

Fixpoint first_match (rules : list ((string -> bool) * string)) (t : string) : string :=
  match rules with
  | [] => FALLBACK
  | (predicate, response) :: rest =>
      if predicate t then response else first_match rest t
  end.

Definition route (prompt_text : string) : string :=
  first_match RULES (lower prompt_text).

Definition no_rule_matches (text : string) : bool :=
  forallb (fun rule => negb (fst rule (lower text))) RULES.

End MockClient.

(** ** [mock_client.py]: the router among the state of the interpreter *)

Module MockRuntime.
Import Py.

(** An object bound to a name: a [str], or anything else. *)
Inductive object :=
| Str (s : string)
| Opaque (id : N).

(** The state a call can reach: the namespace of the module, where the
    names [MOCK_...] are looked up each time the function runs, and the
    state of the random generator. *)
Record world := {
  globals : gmap string object;
  random_state : N
}.

(** A call runs in a world: it returns or raises, and leaves a world. *)
Definition run (A : Type) : Type := world -> comp A * world.

Definition ret {A : Type} (a : A) : run A := fun w => (Ret a, w).

(** The value of a global name; [NameError] when the name is unbound. *)
Definition load_global (name : string) : run object :=
  fun w =>
    match globals w !! name with
    | Some v => (Ret v, w)
    | None =>
        (Raise (Exn (OtherException "NameError")
                    ("name '" +:+ name +:+ "' is not defined")), w)
    end.

(** [_route_response(text)] *)
Definition _route_response (text : string) : run object :=
  let t := lower text in
  if contains "extract the investment decision" t then ret (Str "BUY")
  else if contains "analyzing financial markets" t || contains "technical indicator" t
  then load_global "MOCK_MARKET_REPORT"
  else if contains "social media" t && contains "sentiment" t && negb (contains "analyst" t)
  then load_global "MOCK_SENTIMENT_REPORT"
  else if contains "news" t && contains "researcher" t && contains "world affairs" t
  then load_global "MOCK_NEWS_REPORT"
  else if contains "fundamental information" t || contains "financial documents" t
  then load_global "MOCK_FUNDAMENTALS_REPORT"
  else if contains "bull analyst" t then load_global "MOCK_BULL_ARGUMENT"
  else if contains "bear analyst" t then load_global "MOCK_BEAR_ARGUMENT"
  else if contains "portfolio manager and debate facilitator" t
  then load_global "MOCK_RESEARCH_MANAGER_DECISION"
  else if contains "risk management judge" t then load_global "MOCK_RISK_JUDGE_DECISION"
  else if contains "trading agent" t && contains "investment decision" t
  then load_global "MOCK_TRADER_DECISION"
  else if contains "aggressive risk analyst" t then load_global "MOCK_AGGRESSIVE_RISK"
  else if contains "conservative risk analyst" t then load_global "MOCK_CONSERVATIVE_RISK"
  else if contains "neutral risk analyst" t then load_global "MOCK_NEUTRAL_RISK"
  else if contains "expert financial analyst" t && contains "reviewing trading" t
  then ret (Str "Reflection: The analysis was thorough and well-supported by data.")
  else ret (Str "Analysis complete. FINAL TRANSACTION PROPOSAL: **BUY**").

(** The module as its top-level assignments leave it. *)
Definition MODULE_CONSTANTS : list (string * string) :=
  [ ("MOCK_MARKET_REPORT", MockClient.MOCK_MARKET_REPORT);
    ("MOCK_SENTIMENT_REPORT", MockClient.MOCK_SENTIMENT_REPORT);
    ("MOCK_NEWS_REPORT", MockClient.MOCK_NEWS_REPORT);
    ("MOCK_FUNDAMENTALS_REPORT", MockClient.MOCK_FUNDAMENTALS_REPORT);
    ("MOCK_BULL_ARGUMENT", MockClient.MOCK_BULL_ARGUMENT);
    ("MOCK_BEAR_ARGUMENT", MockClient.MOCK_BEAR_ARGUMENT);
    ("MOCK_RESEARCH_MANAGER_DECISION", MockClient.MOCK_RESEARCH_MANAGER_DECISION);
    ("MOCK_TRADER_DECISION", MockClient.MOCK_TRADER_DECISION);
    ("MOCK_AGGRESSIVE_RISK", MockClient.MOCK_AGGRESSIVE_RISK);
    ("MOCK_CONSERVATIVE_RISK", MockClient.MOCK_CONSERVATIVE_RISK);
    ("MOCK_NEUTRAL_RISK", MockClient.MOCK_NEUTRAL_RISK);
    ("MOCK_RISK_JUDGE_DECISION", MockClient.MOCK_RISK_JUDGE_DECISION) ].

(** A world in which the module has been loaded and none of its
    constants rebound; the rest of the world is arbitrary. *)
Definition module_loaded (w : world) : Prop :=
  forall name value, In (name, value) MODULE_CONSTANTS ->
                     globals w !! name = Some (Str value).

(** A sequence of calls, each run in the world the one before it left:
    the responses in call order, up to the first call that raises. *)
Fixpoint serve (calls : list string) : run (list object) :=
  match calls with
  | [] => ret []
  | text :: rest =>
      fun w =>
        match _route_response text w with
        | (Ret response, w') =>
            match serve rest w' with
            | (Ret responses, w'') => (Ret (response :: responses), w'')
            | (Raise e, w'') => (Raise e, w'')
            end
        | (Raise e, w') => (Raise e, w')
        end
  end.

(** The world a freshly imported module runs in. *)
Definition fresh (random_state : N) : world :=
  {| globals := list_to_map (map (fun entry => (fst entry, Str (snd entry)))
                                 MODULE_CONSTANTS);
     random_state := random_state |}.

End MockRuntime.

(** ** [log_utils.py] *)

Module LogUtils.
Import Py.

(** A decoded JSON document, as [json.load] returns it. *)
#[warnings="-register-all"]
Inductive json :=
| JNull
| JBool (b : bool)
| JInt (z : Z)
| JFloat (x : float)
| JStr (s : string)
| JArr (items : list json)
| JObj (fields : gmap string json).

(** Truth value of a Python object. *)
Definition truthy (v : json) : bool :=
  match v with
  | JNull => false
  | JBool b => b
  | JInt z => negb (z =? 0)
  | JFloat x => match x with S754_zero _ => false | _ => true end
  | JStr s => truthy_str s
  | JArr items => match items with [] => false | _ :: _ => true end
  | JObj fields => negb (bool_decide (fields = ∅))
  end.

Definition type_name (v : json) : string :=
  match v with
  | JNull => "NoneType"
  | JBool _ => "bool"
  | JInt _ => "int"
  | JFloat _ => "float"
  | JStr _ => "str"
  | JArr _ => "list"
  | JObj _ => "dict"
  end.

(** [key in container], for a [str] key. *)
Definition py_in (key : string) (container : json) : comp bool :=
  match container with
  | JObj fields => Ret (bool_decide (is_Some (fields !! key)))
  | JStr s => Ret (contains key s)
  | JArr items =>
      Ret (existsb (fun item => match item with
                                | JStr s => String.eqb key s
                                | _ => false
                                end) items)
  | _ => Raise (Exn TypeError
                  ("argument of type '" +:+ type_name container +:+ "' is not iterable"))
  end.

(** [container[key]], for a [str] key. *)
Definition getitem (container : json) (key : string) : comp json :=
  match container with
  | JObj fields =>
      match fields !! key with
      | Some v => Ret v
      | None => Raise (Exn KeyError ("'" +:+ key +:+ "'"))
      end
  | JStr _ => Raise (Exn TypeError "string indices must be integers, not 'str'")
  | JArr _ => Raise (Exn TypeError "list indices must be integers or slices, not str")
  | _ => Raise (Exn TypeError ("'" +:+ type_name container +:+ "' object is not subscriptable"))
  end.

Definition REPORT_KEYS : list string :=
  ["market_report"; "sentiment_report"; "news_report"; "fundamentals_report"].

Definition INVESTMENT_SUBKEYS : list string :=
  ["bull_history"; "bear_history"; "current_response"; "judge_decision";
   "trader_investment_decision"].

Definition RISK_SUBKEYS : list string :=
  ["aggressive_history"; "conservative_history"; "neutral_history"; "judge_decision"].

Definition PLAN_KEYS : list string := ["investment_plan"; "final_trade_decision"].

Section Render.

(** [str(v)] of a value that is not a [str], as an f-string field
    formats it (a built-in of the interpreter). *)
Variable repr : json -> string.

Definition format_value (v : json) : string :=
  match v with
  | JStr s => s
  | _ => repr v
  end.

(** [state.get(key, 'N/A')], formatted *)
Definition get_or_na (state : gmap string json) (key : string) : string :=
  match state !! key with
  | Some v => format_value v
  | None => "N/A"
  end.

(** [f"\n---\n## {title}\n\n{state[key]}\n"] with
    [title = key.replace("_", " ").title()] *)
Definition section (key : string) (v : json) : string :=
  NL +:+ "---" +:+ NL +:+ "## " +:+ title (replace "_" " " key)
     +:+ NL +:+ NL +:+ format_value v +:+ NL.

(** [for key in keys: if key in state and state[key]: parts.append(...)] *)
Definition sections (keys : list string) (state : gmap string json) : list string :=
  flat_map (fun key =>
              match state !! key with
              | Some v => if truthy v then [section key v] else []
              | None => []
              end) keys.

(** [f"### {title}\n\n{ids[subkey]}\n\n"] *)
Definition subsection (subkey : string) (v : json) : string :=
  "### " +:+ title (replace "_" " " subkey) +:+ NL +:+ NL +:+ format_value v +:+ NL +:+ NL.

(** [for subkey in subkeys: if subkey in ids and ids[subkey]: parts.append(...)] *)
Fixpoint subsections (subkeys : list string) (ids : json) : comp (list string) :=
  match subkeys with
  | [] => Ret []
  | subkey :: rest =>
      bind (py_in subkey ids) (fun present =>
      bind (if present
            then bind (getitem ids subkey) (fun v =>
                 Ret (if truthy v then [subsection subkey v] else []))
            else Ret []) (fun part =>
      bind (subsections rest ids) (fun parts =>
      Ret (part ++ parts))))
  end.

(** [if key in state: ids = state[key]; parts.append(heading); ...] *)
Definition debate (key heading : string) (subkeys : list string)
    (state : gmap string json) : comp (list string) :=
  match state !! key with
  | Some ids =>
      bind (subsections subkeys ids) (fun parts =>
      Ret ((NL +:+ "---" +:+ NL +:+ "## " +:+ heading +:+ NL +:+ NL) :: parts))
  | None => Ret []
  end.

Definition _state_to_md (state : gmap string json) : comp (list string) :=
  let header :=
    "**Company:** " +:+ get_or_na state "company_of_interest"
      +:+ " | **Trade Date:** " +:+ get_or_na state "trade_date" +:+ NL in
  bind (debate "investment_debate_state" "Investment Debate" INVESTMENT_SUBKEYS state)
    (fun investment =>
  bind (debate "risk_debate_state" "Risk Debate" RISK_SUBKEYS state)
    (fun risk =>
  Ret (header :: sections REPORT_KEYS state ++ investment ++ risk
              ++ sections PLAN_KEYS state))).

End Render.

(** *** Vocabulary of the specification *)

(** The optional fields that have a section of their own. *)
Definition DEBATE_KEYS : list string := ["investment_debate_state"; "risk_debate_state"].
Definition OPTIONAL_KEYS : list string := REPORT_KEYS ++ DEBATE_KEYS ++ PLAN_KEYS.

Definition section_title (key : string) : string :=
  if String.eqb key "investment_debate_state" then "Investment Debate"
  else if String.eqb key "risk_debate_state" then "Risk Debate"
  else title (replace "_" " " key).

(** A part opens the section [t] when it starts with that section's
    rule and heading line. *)
Definition opens_section (t part : string) : bool :=
  startswith (NL +:+ "---" +:+ NL +:+ "## " +:+ t +:+ NL) part.

Definition has_section (t : string) (parts : list string) : bool :=
  existsb (opens_section t) parts.

Definition opens_subsection (t part : string) : bool :=
  startswith ("### " +:+ t +:+ NL) part.

Definition absent (state : gmap string json) (key : string) : bool :=
  match state !! key with
  | None => true
  | Some _ => false
  end.

Definition absent_or_empty (state : gmap string json) (key : string) : bool :=
  match state !! key with
  | None => true
  | Some v => negb (truthy v)
  end.

(** A text field (a report or a plan) is left out when it is absent or
    empty; a debate state when it is absent. *)
Definition left_out (state : gmap string json) (key : string) : bool :=
  if existsb (String.eqb key) DEBATE_KEYS then absent state key
  else absent_or_empty state key.

Definition subsection_title (subkey : string) : string :=
  title (replace "_" " " subkey).

Definition has_subsection (t : string) (parts : list string) : bool :=
  existsb (opens_subsection t) parts.

Definition INVESTMENT_HEADING : string :=
  NL +:+ "---" +:+ NL +:+ "## Investment Debate" +:+ NL +:+ NL.

Definition RISK_HEADING : string :=
  NL +:+ "---" +:+ NL +:+ "## Risk Debate" +:+ NL +:+ NL.

(** The debate states of a pipeline snapshot are nested maps. *)
Definition is_object (v : json) : bool :=
  match v with
  | JObj _ => true
  | _ => false
  end.

Definition debates_are_objects (state : gmap string json) : bool :=
  forallb (fun key => match state !! key with
                      | Some v => is_object v
                      | None => true
                      end) DEBATE_KEYS.

(** The debate states, each with the sub-fields rendered under it. *)
Definition DEBATES : list (string * list string) :=
  [ ("investment_debate_state", INVESTMENT_SUBKEYS);
    ("risk_debate_state", RISK_SUBKEYS) ].

(** A part opens a section, whichever it is, when it starts with the
    rule and the mark of a heading. *)
Definition opens_a_section (part : string) : bool :=
  startswith (NL +:+ "---" +:+ NL +:+ "## ") part.

(** The parts up to the next one that opens a section. *)
Fixpoint until_next_section (parts : list string) : list string :=
  match parts with
  | [] => []
  | part :: rest =>
      if opens_a_section part then [] else part :: until_next_section rest
  end.

(** The body of the section [t] of a rendering: the parts that follow
    the part opening it, up to the next section. *)
Fixpoint section_body (t : string) (parts : list string) : list string :=
  match parts with
  | [] => []
  | part :: rest =>
      if opens_section t part then until_next_section rest
      else section_body t rest
  end.

(** The sub-sections of the sub-fields of a debate state that are
    present and not empty, in the order of the sub-keys. *)
Definition rendered_subfields (repr : json -> string) (subkeys : list string)
    (fields : gmap string json) : list string :=
  flat_map (fun subkey =>
              match fields !! subkey with
              | Some v => if truthy v then [subsection repr subkey v] else []
              | None => []
              end) subkeys.

End LogUtils.

(** ** [local_utils.py] *)

Module LocalUtils.
Import Py.

(** *** The Ollama server and command line *)

(** What [requests.get] hands back: the status code, and the outcome of
    reading the model list off the body --- [resp.json().get("models", [])]
    followed by [m["name"]] for each entry --- which is the list of names
    or the exception a body of another shape raises on the way. *)
Record Response := {
  status_code : Z;
  model_names : comp (list string)
}.

(** [requests.get(url, timeout=seconds)] *)
Definition http_get := string -> Z -> comp Response.

Definition DEFAULT_BASE_URL : string := "http://localhost:11434".

Definition check_ollama_health (get : http_get) (base_url : string)
  : comp (bool * string) :=
  try_except
    (bind (get (base_url +:+ "/api/tags") 5) (fun resp =>
     if status_code resp =? 200 then
       bind (model_names resp) (fun names =>
       let listed := join ", " names in
       Ret (true,
            "Ollama running with " +:+ str_int (Z.of_nat (length names))
              +:+ " model(s): " +:+ (if truthy_str listed then listed else "none")))
     else
       Ret (false, "Ollama returned status " +:+ str_int (status_code resp))))
    (fun e =>
       if isinstance e ConnectionError then
         Ret (false, "Ollama server not reachable. Start with: ollama serve")
       else if isinstance e Timeout then
         Ret (false, "Ollama server timed out")
       else
         Ret (false, "Ollama health check failed: " +:+ exn_str e)).

(** The [CompletedProcess] of [subprocess.run(..., capture_output=True, text=True)]. *)
Record CompletedProcess := {
  returncode : Z;
  stderr : string
}.

(** [subprocess.run(args, capture_output=True, text=True, timeout=seconds)] *)
Definition subprocess_run := list string -> Z -> comp CompletedProcess.

Definition pull_ollama_model (run : subprocess_run) (model_name : string)
  : comp (bool * string) :=
  try_except
    (bind (run ["ollama"; "pull"; model_name] 600) (fun result =>
     if returncode result =? 0 then
       Ret (true, "Successfully pulled " +:+ model_name)
     else
       Ret (false, "Failed to pull " +:+ model_name +:+ ": " +:+ stderr result)))
    (fun e =>
       if isinstance e FileNotFoundError then
         Ret (false, "ollama CLI not found. Install from: https://ollama.com")
       else if isinstance e TimeoutExpired then
         Ret (false, "Timed out pulling " +:+ model_name +:+ " (>10 min)")
       else
         Ret (false, "Error pulling model: " +:+ exn_str e)).

(** *** Model files *)

(** The file system as the three [os] calls see it. *)
Record filesystem := {
  isfile : string -> bool;      (* os.path.isfile(path) *)
  readable : string -> bool;    (* os.access(path, os.R_OK) *)
  getsize : string -> N         (* os.path.getsize(path) *)
}.

Definition GIB : Z := 1024 ^ 3.

Definition validate_gguf_path (fs : filesystem) (path : string) : bool * string :=
  if negb (truthy_str path) then
    (false, "No model path provided")
  else if negb (isfile fs path) then
    (false, "File not found: " +:+ path)
  else if negb (endswith ".gguf" (lower path)) then
    (false, "File does not have .gguf extension: " +:+ path)
  else if negb (readable fs path) then
    (false, "File not readable: " +:+ path)
  else
    let size_bytes := Z.of_N (getsize fs path) in
    let size_gb := fdiv (float_of_int size_bytes) (float_of_int GIB) in
    (true, "Valid GGUF file (" +:+ format_1f size_gb +:+ " GB)").

Definition estimate_memory_usage (fs : filesystem) (model_path : string)
  : option float :=
  if negb (isfile fs model_path) then None
  else
    let size_bytes := Z.of_N (getsize fs model_path) in
    Some (round1 (fdiv (fmul (float_of_int size_bytes) (float_literal 115 2))
                       (float_of_int GIB))).

(** *** Vocabulary of the specification *)

(** The binary64 number the literal [1.15] denotes:
    5179139571476070 * 2**-52, just below 1.15. *)
Definition ONE_POINT_FIFTEEN : float := S754_finite false 5179139571476070 (-52).

(** [1024 ** 3] as a float: 2**52 * 2**-22. *)
Definition TWO_POW_30 : float := S754_finite false 4503599627370496 (-22).

(** [x] is a binary64 number nearest to the fraction [num / den] (for a
    positive [den]): a positive number [m * 2**e] with 53 significant
    bits, at most half a unit in the last place away from it. *)
Definition nearest_binary64 (num den : Z) (x : float) : Prop :=
  match x with
  | S754_finite false m e =>
      2 ^ 52 <= Z.pos m < 2 ^ 53
      /\ 2 * Z.abs (num * 2 ^ Z.max 0 (- e) - Z.pos m * 2 ^ Z.max 0 e * den)
         <= 2 ^ Z.max 0 e * den
  | _ => False
  end.

(** The binary64 numbers written 1.1, 5.8 and 20.7. *)
Definition ONE_POINT_ONE : float := S754_finite false 4953959590107546 (-52).
Definition FIVE_POINT_EIGHT : float := S754_finite false 6530219459687219 (-50).
Definition TWENTY_POINT_SEVEN : float := S754_finite false 5826532017910579 (-48).

End LocalUtils.

(** ** [llamacpp_client.py] *)

Module LlamaCpp.
Import Py.

(** An option value.  [VOther] stands for any object of another type
    (a float temperature, a list of callbacks), known by its truth value
    and its [str()]. *)
Inductive value :=
| VNone
| VBool (b : bool)
| VInt (z : Z)
| VStr (s : string)
| VOther (truth : bool) (text : string).

Definition truthy (v : value) : bool :=
  match v with
  | VNone => false
  | VBool b => b
  | VInt z => negb (z =? 0)
  | VStr s => truthy_str s
  | VOther truth _ => truth
  end.

Definition str (v : value) : string :=
  match v with
  | VNone => "None"
  | VBool b => if b then "True" else "False"
  | VInt z => str_int z
  | VStr s => s
  | VOther _ text => text
  end.

(** What the client sees of the machine it runs on. *)
Record environment := {
  llama_cpp_installed : bool;
  langchain_community_installed : bool;
  os_path_isfile : value -> comp bool
}.

(** [import name] *)
Definition import_module (installed : bool) (name : string) : comp unit :=
  if installed then Ret tt
  else Raise (Exn ModuleNotFoundError ("No module named '" +:+ name +:+ "'")).

Record LlamaCppClient := {
  model : string;
  base_url : option string;
  kwargs : gmap string value
}.




(** The call of [ChatLlamaCpp] on the keyword arguments [llm_kwargs],
    which [get_llm] ends with. *)
Inductive handle := ChatLlamaCpp (llm_kwargs : gmap string value).

(** [d.get(key, default)] *)
Definition get_default (d : gmap string value) (key : string) (default : value) : value :=
  match d !! key with
  | Some v => v
  | None => default
  end.

(** [if key in src: dst[key] = src[key]] *)
Definition copy_if_present (key : string) (src dst : gmap string value)
  : gmap string value :=
  match src !! key with
  | Some v => <[key := v]> dst
  | None => dst
  end.

Definition get_llm (env : environment) (self : LlamaCppClient) : comp handle :=
  bind (import_module (langchain_community_installed env)
                      "langchain_community") (fun _ =>
  let model_path := get_default (kwargs self) "model_path" VNone in
  if negb (truthy model_path) then
    Raise (Exn ValueError
             ("model_path is required for llamacpp provider. "
              +:+ "Set local_model_path_deep / local_model_path_quick in config."))
  else
    bind (os_path_isfile env model_path) (fun found =>
    if negb found then
      Raise (Exn FileNotFoundError ("GGUF model file not found: " +:+ str model_path))
    else
      let llm_kwargs : gmap string value :=
        <["verbose" := VBool false]>
        (<["n_batch" := get_default (kwargs self) "n_batch" (VInt 512)]>
        (<["n_ctx" := get_default (kwargs self) "n_ctx" (VInt 4096)]>
        (<["n_gpu_layers" := get_default (kwargs self) "n_gpu_layers" (VInt (-1))]>
        (<["model_path" := model_path]> ∅)))) in
      let llm_kwargs := copy_if_present "temperature" (kwargs self) llm_kwargs in
      let llm_kwargs := copy_if_present "callbacks" (kwargs self) llm_kwargs in
      Ret (ChatLlamaCpp llm_kwargs))).

(** *** Vocabulary of the specification *)

(** The configuration error: no model path. *)
Definition MODEL_PATH_REQUIRED : exn :=
  Exn ValueError
      ("model_path is required for llamacpp provider. "
       +:+ "Set local_model_path_deep / local_model_path_quick in config.").


End LlamaCpp.

(** ** [mock_client.py]: the chat model around the router *)

Module MockChat.
Import Py MockClient LogUtils.

(** A message as [_extract_text] reads it: the attribute [content],
    when the object has one. *)
Record BaseMessage := {
  content : option json
}.

(** The parts one message appends: its content when it is a [str]; for
    a list, the entry [text] of each [dict] item (the empty string when
    there is none) and each [str] item; nothing otherwise. *)
Definition message_parts (m : BaseMessage) : list json :=
  match default (JStr EmptyString) (content m) with
  | JStr s => [JStr s]
  | JArr items =>
      flat_map (fun item =>
                  match item with
                  | JObj fields => [default (JStr EmptyString) (fields !! "text")]
                  | JStr s => [JStr s]
                  | _ => []
                  end) items
  | _ => []
  end.

(** The items of [sep.join(parts)] from index [i] on: [join] raises
    [TypeError] at the first item that is not a [str]. *)
Fixpoint str_items (i : nat) (parts : list json) : comp (list string) :=
  match parts with
  | [] => Ret []
  | JStr s :: rest => bind (str_items (S i) rest) (fun tail => Ret (s :: tail))
  | v :: _ =>
      Raise (Exn TypeError
               ("sequence item " +:+ str_int (Z.of_nat i)
                  +:+ ": expected str instance, " +:+ type_name v +:+ " found"))
  end.

Definition _extract_text (messages : list BaseMessage) : comp string :=
  let parts := flat_map message_parts messages in
  bind (str_items 0 parts) (fun items => Ret (join " " items)).

Record AIMessage := { ai_content : string }.
Record ChatGeneration := { message : AIMessage }.
Record ChatResult := { generations : list ChatGeneration }.

(** [MockChatModel._generate(messages)] *)
Definition _generate (messages : list BaseMessage) : comp ChatResult :=
  bind (_extract_text messages) (fun prompt_text =>
  let content := _route_response prompt_text in
  let message := {| ai_content := content |} in
  Ret {| generations := [ {| message := message |} ] |}).

(** A message whose content is the given text. *)
Definition text_message (s : string) : BaseMessage :=
  {| content := Some (JStr s) |}.

Definition is_str (v : json) : bool :=
  match v with
  | JStr _ => true
  | _ => false
  end.

(** The text of the reply, when there is exactly one generation. *)
Definition reply (result : comp ChatResult) : option string :=
  match result with
  | Ret {| generations := [ g ] |} => Some (ai_content (message g))
  | _ => None
  end.

End MockChat.

(** ** [local_utils.py]: model look-up and recommendations *)

Module LocalModels.
Import Py LocalUtils.

(** What [check_ollama_model] reads of the answer of [requests.get]:
    the status code, and [resp.json()], the decoded body or the
    exception the decoder raises. *)
Record TagsResponse := {
  tags_status : Z;
  tags_json : comp LogUtils.json
}.

Definition tags_get := string -> Z -> comp TagsResponse.

(** [body.get("models", [])]: only a [dict] has the method. *)
Definition get_models (body : LogUtils.json) : comp LogUtils.json :=
  match body with
  | LogUtils.JObj fields => Ret (default (LogUtils.JArr []) (fields !! "models"))
  | _ => Raise (Exn (OtherException "AttributeError")
                    ("'" +:+ LogUtils.type_name body
                         +:+ "' object has no attribute 'get'"))
  end.

(** The items a [for] takes from a value: the elements of a list, the
    keys of a [dict] (their order plays no part below: subscripting a
    key with ["name"] raises), the one-character strings of a [str]. *)
Definition iterate (v : LogUtils.json) : comp (list LogUtils.json) :=
  match v with
  | LogUtils.JArr items => Ret items
  | LogUtils.JObj fields =>
      Ret (map (fun entry => LogUtils.JStr (fst entry)) (map_to_list fields))
  | LogUtils.JStr s =>
      Ret (map (fun ch => LogUtils.JStr (Unicode.encode [ch])) (Unicode.decode s))
  | _ => Raise (Exn TypeError
                    ("'" +:+ LogUtils.type_name v +:+ "' object is not iterable"))
  end.

(** [[m["name"] for m in models]] *)
Fixpoint names_of (models : list LogUtils.json) : comp (list LogUtils.json) :=
  match models with
  | [] => Ret []
  | m :: rest =>
      bind (LogUtils.getitem m "name") (fun name =>
      bind (names_of rest) (fun tail =>
      Ret (name :: tail)))
  end.

(** [any(model_name in name for name in available)]: the tests are made
    in order, up to the first that holds. *)
Fixpoint any_in (model_name : string) (available : list LogUtils.json) : comp bool :=
  match available with
  | [] => Ret false
  | name :: rest =>
      bind (LogUtils.py_in model_name name) (fun found =>
      if found then Ret true else any_in model_name rest)
  end.

(** [check_ollama_model(model_name, base_url)]: the [return] inside the
    [try] hands back a verdict; any exception, and a status other than
    200, fall through to [return False]. *)
Definition check_ollama_model (get : tags_get) (model_name base_url : string)
  : comp bool :=
  bind (try_except
          (bind (get (base_url +:+ "/api/tags") 5) (fun resp =>
           if tags_status resp =? 200 then
             bind (tags_json resp) (fun body =>
             bind (get_models body) (fun models =>
             bind (iterate models) (fun items =>
             bind (names_of items) (fun available =>
             bind (any_in model_name available) (fun found =>
             Ret (Some found))))))
           else Ret None))
          (fun _ => Ret None))
       (fun verdict =>
          match verdict with
          | Some found => Ret found
          | None => Ret false
          end).

(** The name is found in a listed name, and the search raised on none
    of the names before it. *)
Definition first_found (model_name : string) (available : list LogUtils.json) : Prop :=
  exists (i : nat) (name : LogUtils.json),
    available !! i = Some name
    /\ LogUtils.py_in model_name name = Ret true
    /\ forall (j : nat) (other : LogUtils.json),
         (j < i)%nat -> available !! j = Some other ->
         LogUtils.py_in model_name other = Ret false.

(** The body of a well-formed answer: an object whose [models] is a
    list of objects, each with a [str] under [name]. *)
Definition lists_models (body : LogUtils.json) (names : list string) : Prop :=
  exists fields items,
    body = LogUtils.JObj fields
    /\ fields !! "models" = Some (LogUtils.JArr items)
    /\ Forall2 (fun item name =>
                  exists card, item = LogUtils.JObj card
                               /\ card !! "name" = Some (LogUtils.JStr name))
               items names.

(** [d[key]] on a dictionary. *)
Definition dict_getitem {V : Type} (d : gmap string V) (key : string) : comp V :=
  match d !! key with
  | Some v => Ret v
  | None => Raise (Exn KeyError ("'" +:+ key +:+ "'"))
  end.

Definition model_card (name ollama gguf size description : string)
  : gmap string string :=
  <["description" := description]>
  (<["size" := size]>
  (<["gguf" := gguf]>
  (<["ollama" := ollama]>
  (<["name" := name]> ∅)))).

Definition QWEN3_8B : gmap string string :=
  model_card "Qwen3-8B-Q4_K_M" "qwen3:8b" "Qwen3-8B-Q4_K_M.gguf" "~5 GB"
    "Fast 8B model, strong tool-calling, ideal for analyst agents".

Definition QWEN3_4B : gmap string string :=
  model_card "Qwen3-4B-Q4_K_M" "qwen3:4b" "Qwen3-4B-Q4_K_M.gguf" "~3 GB"
    "Ultra-light 4B model for budget setups".

Definition QWEN3_30B_A3B : gmap string string :=
  model_card "Qwen3-30B-A3B-Q4_K_M" "qwen3:30b-a3b" "Qwen3-30B-A3B-Q4_K_M.gguf" "~18 GB"
    "MoE 30B model (only 3B active), excellent reasoning at low memory cost".

Definition QWEN3_14B : gmap string string :=
  model_card "Qwen3-14B-Q4_K_M" "qwen3:14b" "Qwen3-14B-Q4_K_M.gguf" "~9 GB"
    "Dense 14B model, strong reasoning for mid-range setups".

Definition RECOMMENDED_MODELS_32GB : gmap string (list (gmap string string)) :=
  <["deep_think" := [QWEN3_30B_A3B; QWEN3_14B]]>
  (<["quick_think" := [QWEN3_8B; QWEN3_4B]]> ∅).

Definition SIZE_MAP : gmap string float :=
  <["~18 GB" := float_of_int 18]>
  (<["~9 GB" := float_of_int 9]>
  (<["~5 GB" := float_of_int 5]>
  (<["~3 GB" := float_of_int 3]> ∅))).

(** [SIZE_MAP.get(model["size"], 99.0)] *)
Definition model_size (model : gmap string string) : comp float :=
  bind (dict_getitem model "size") (fun label =>
  Ret (default (float_of_int 99) (SIZE_MAP !! label))).

(** The inner loop: the models of one tier whose size is at most
    [budget], in table order. *)
Fixpoint fitting (models : list (gmap string string)) (budget : float)
  : comp (list (gmap string string)) :=
  match models with
  | [] => Ret []
  | model :: rest =>
      bind (model_size model) (fun size =>
      bind (fitting rest budget) (fun tail =>
      Ret (if SFleb size budget then model :: tail else tail)))
  end.

(** The outer loop over the tiers, appending to [result[tier]]. *)
Fixpoint fill_tiers (tiers : list string) (budget : float)
    (result : gmap string (list (gmap string string)))
  : comp (gmap string (list (gmap string string))) :=
  match tiers with
  | [] => Ret result
  | tier :: rest =>
      bind (dict_getitem RECOMMENDED_MODELS_32GB tier) (fun models =>
      bind (fitting models budget) (fun fit =>
      bind (dict_getitem result tier) (fun current =>
      fill_tiers rest budget (<[tier := current ++ fit]> result))))
  end.

Definition DEFAULT_RAM_GB : float := float_of_int 32.

Definition get_model_recommendations (available_ram_gb : float)
  : comp (gmap string (list (gmap string string))) :=
  let result : gmap string (list (gmap string string)) :=
    <["deep_think" := []]> (<["quick_think" := []]> ∅) in
  fill_tiers ["quick_think"; "deep_think"]
             (fmul available_ram_gb (float_literal 8 1)) result.

(** *** Vocabulary *)

(** The size of a model card, when it has one. *)
Definition size_of (model : gmap string string) : option float :=
  match model_size model with
  | Ret size => Some size
  | Raise _ => None
  end.

(** Every model of the table, whatever its tier. *)
Definition ALL_MODELS : list (gmap string string) :=
  default [] (RECOMMENDED_MODELS_32GB !! "quick_think")
  ++ default [] (RECOMMENDED_MODELS_32GB !! "deep_think").

Definition tier_models (tier : string) : list (gmap string string) :=
  default [] (RECOMMENDED_MODELS_32GB !! tier).

(** The model fits the budget: its size is known and at most the
    budget. *)
Definition fits (budget : float) (model : gmap string string) : bool :=
  match size_of model with
  | Some size => SFleb size budget
  | None => false
  end.

(** The model is listed under some tier of a recommendation. *)
Definition recommended (result : gmap string (list (gmap string string)))
    (model : gmap string string) : Prop :=
  exists tier models, result !! tier = Some models /\ In model models.

(** A float that is a positive number or plus infinity. *)
Definition is_positive (x : float) : bool :=
  match x with
  | S754_finite false _ _ => true
  | S754_infinity false => true
  | _ => false
  end.

End LocalModels.

(** ** [log_utils.py]: the exported document *)

Module LogExport.
Import Py LogUtils.

Section Document.
Variable repr : json -> string.

(** The loop of [full_states_json_to_md] over the decoded log, its
    entries in file order: an entry whose value is not a [dict] is
    skipped; the others give a title line, the parts of the state and a
    closing newline. *)
Fixpoint md_parts (data : list (string * json)) : comp (list string) :=
  match data with
  | [] => Ret []
  | (date_key, state) :: rest =>
      match state with
      | JObj fields =>
          bind (_state_to_md repr fields) (fun parts =>
          bind (md_parts rest) (fun tail =>
          Ret ((("# Full State Log — " +:+ date_key +:+ NL) :: parts ++ [NL]) ++ tail)))
      | _ => md_parts rest
      end
  end.

(** The text handed to [f.write]: the parts joined by newlines. *)
Definition md_document (data : list (string * json)) : comp string :=
  bind (md_parts data) (fun parts => Ret (join NL parts)).

(** What [full_states_json_to_md] asks of [pathlib], [json] and the
    file system.  [json.load] hands back a [dict], its entries in file
    order, or a value of another type. *)
Record file_system := {
  path_str : string -> string;                  (* str(Path(p)) *)
  with_suffix : string -> string -> comp string; (* Path.with_suffix *)
  parent : string -> string;                    (* Path.parent *)
  path_exists : string -> comp bool;            (* Path.exists *)
  json_load : string -> comp (list (string * json) + json);
  mkdir : string -> comp unit;   (* Path.mkdir(parents=True, exist_ok=True) *)
  open_w : string -> comp unit;  (* open(path, "w") *)
  write : string -> string -> comp unit  (* f.write(text), and closing f *)
}.

(** The calls that change the file system. *)
Inductive action :=
| Mkdir (directory : string)
| OpenForWriting (path : string)
| WriteText (path text : string).

(** A computation together with the calls it has made, in order. *)
Definition io (A : Type) : Type := comp A * list action.

Definition io_bind {A B : Type} (m : io A) (k : A -> io B) : io B :=
  match m with
  | (Ret a, calls) => (fst (k a), calls ++ snd (k a))
  | (Raise e, calls) => (Raise e, calls)
  end.

Definition pure {A : Type} (c : comp A) : io A := (c, []).

Definition call {A : Type} (a : action) (c : comp A) : io A := (c, [a]).

(** [data.items()] *)
Definition items (data : list (string * json) + json) : comp (list (string * json)) :=
  match data with
  | inl entries => Ret entries
  | inr v =>
      Raise (Exn (OtherException "AttributeError")
                 ("'" +:+ type_name v +:+ "' object has no attribute 'items'"))
  end.

Definition full_states_json_to_md (fs : file_system) (json_path : string)
    (md_path : option string) : io string :=
  let json_path := path_str fs json_path in
  io_bind (pure (path_exists fs json_path)) (fun found =>
  if negb found then
    pure (Raise (Exn FileNotFoundError ("JSON file not found: " +:+ json_path)))
  else
    io_bind (pure (json_load fs json_path)) (fun data =>
    io_bind (pure (match md_path with
                   | None => with_suffix fs json_path ".md"
                   | Some p => Ret (path_str fs p)
                   end)) (fun md_path =>
    io_bind (call (Mkdir (parent fs md_path)) (mkdir fs (parent fs md_path))) (fun _ =>
    io_bind (pure (items data)) (fun entries =>
    io_bind (pure (md_document entries)) (fun text =>
    io_bind (call (OpenForWriting md_path) (open_w fs md_path)) (fun _ =>
    io_bind (call (WriteText md_path text) (write fs md_path text)) (fun _ =>
    pure (Ret md_path))))))))).

End Document.

(** The entries of a log that hold a snapshot. *)
Definition snapshots (data : list (string * json)) : list (string * json) :=
  filter (fun entry => is_object (snd entry) = true) data.

End LogExport.

(** ** Vocabulary for the further properties *)

Module Vocabulary.
Import Py LogUtils.

(** The keys [ChatLlamaCpp] may receive from [get_llm]. *)
Definition LLM_KEYS : list string :=
  ["model_path"; "n_gpu_layers"; "n_ctx"; "n_batch"; "verbose"; "temperature";
   "callbacks"].

(** The keys of a snapshot that [_state_to_md] reads. *)
Definition KNOWN_KEYS : list string :=
  ["company_of_interest"; "trade_date"] ++ OPTIONAL_KEYS.

(** The section titles, in the order of the document. *)
Definition SECTION_ORDER : list string :=
  ["Market Report"; "Sentiment Report"; "News Report"; "Fundamentals Report";
   "Investment Debate"; "Risk Debate"; "Investment Plan"; "Final Trade Decision"].

(** The place in [SECTION_ORDER] of the section a part opens, if it
    opens one. *)
Fixpoint rank_from (i : nat) (titles : list string) (part : string) : option nat :=
  match titles with
  | [] => None
  | t :: rest => if opens_section t part then Some i else rank_from (S i) rest part
  end.

Definition rank (part : string) : option nat := rank_from 0 SECTION_ORDER part.

(** The parts open their sections in the order of [SECTION_ORDER],
    none of them twice: the ranks met from [lo] on go strictly up. *)
Fixpoint in_order (lo : nat) (parts : list string) : bool :=
  match parts with
  | [] => true
  | part :: rest =>
      match rank part with
      | Some r => (lo <=? r)%nat && in_order (S r) rest
      | None => in_order lo rest
      end
  end.

(** Every part that opens a section opens one that stands before
    place [hi] in the order. *)
Definition below (hi : nat) (parts : list string) : Prop :=
  forall part r, In part parts -> rank part = Some r -> (r < hi)%nat.

(** A scalar: a value that is neither text nor a container. *)
Definition is_scalar (v : json) : bool :=
  match v with
  | JNull | JBool _ | JInt _ | JFloat _ => true
  | _ => false
  end.

End Vocabulary.
Module TextVocabulary.
Import Unicode Py.

(** The decoder run over a whole text: the characters known at its
    end, and the bytes still pending there. *)
Fixpoint run (pending : list ascii) (s : string) : list char * list ascii :=
  match s with
  | EmptyString => ([], pending)
  | String b s' =>
      (fst (step pending b) ++ fst (run (snd (step pending b)) s'),
       snd (run (snd (step pending b)) s'))
  end.

(** A text at whose start no sequence can be under way: it is empty, or
    its first byte is no continuation byte. *)
Definition boundary (s : string) : bool :=
  match s with
  | EmptyString => true
  | String b _ => negb (is_continuation b)
  end.

(** [cased_follows], for a text that goes on after [s]: [otherwise]
    tells whether a cased character follows there. *)
Fixpoint cased_follows_then (s : list char) (otherwise : bool) : bool :=
  match s with
  | [] => otherwise
  | Point c :: rest =>
      if case_ignorable c then cased_follows_then rest otherwise else cased c
  | Stray _ :: _ => false
  end.

(** [lower_chars], for a part [s] of a longer text. *)
Fixpoint lower_in (after_cased : bool) (s : list char) (otherwise : bool) : list char :=
  match s with
  | [] => []
  | Stray b :: rest => Stray b :: lower_in false rest otherwise
  | Point c :: rest =>
      (if (c =? CAPITAL_SIGMA)%N then
         [Point (if after_cased && negb (cased_follows_then rest otherwise)
                 then FINAL_SIGMA else SMALL_SIGMA)]
       else map Point (to_lower_full c))
      ++ lower_in (if case_ignorable c then after_cased else cased c) rest otherwise
  end.

(** Whether, at the end of [s], the nearest character that is not
    case-ignorable is cased. *)
Fixpoint cased_at_end (after_cased : bool) (s : list char) : bool :=
  match s with
  | [] => after_cased
  | Stray _ :: rest => cased_at_end false rest
  | Point c :: rest =>
      cased_at_end (if case_ignorable c then after_cased else cased c) rest
  end.

Fixpoint all_ascii (s : string) : bool :=
  match s with
  | EmptyString => true
  | String b s' => is_ascii b && all_ascii s'
  end.

Fixpoint no_ascii (s : string) : bool :=
  match s with
  | EmptyString => true
  | String b s' => negb (is_ascii b) && no_ascii s'
  end.

(** Two texts of the same length that agree on their ASCII bytes. *)
Fixpoint same_ascii (u v : string) : bool :=
  match u, v with
  | EmptyString, EmptyString => true
  | String a u', String b v' =>
      (Ascii.eqb a b || (negb (is_ascii a) && negb (is_ascii b))) && same_ascii u' v'
  | _, _ => false
  end.

Fixpoint all_continuation (s : string) : bool :=
  match s with
  | EmptyString => true
  | String b s' => is_continuation b && all_continuation s'
  end.

(** A text that lowercasing leaves as it is wherever it stands: ASCII
    without capital letters. *)
Fixpoint plain (s : string) : bool :=
  match s with
  | EmptyString => true
  | String b s' => is_ascii b && negb (is_upper b) && plain s'
  end.

(** Two bytes that are the same ASCII letter, whatever their case, or
    the same byte. *)
Definition ascii_case_variant (a b : ascii) : bool :=
  Ascii.eqb a b
  || (is_upper a && Ascii.eqb b (lower_char a))
  || (is_upper b && Ascii.eqb a (lower_char b)).

(** Two texts that differ only in the case of their ASCII letters. *)
Fixpoint differ_only_in_ascii_case (x y : string) : bool :=
  match x, y with
  | EmptyString, EmptyString => true
  | String a x', String b y' =>
      ascii_case_variant a b && differ_only_in_ascii_case x' y'
  | _, _ => false
  end.

Definition eqb_points (u v : list N) : bool :=
  bool_decide (u = v).

(** Two code points that are the same letter, whatever their case: one
    is the lowercase or the uppercase form of the other. *)
Definition case_variant_point (c d : N) : bool :=
  (c =? d)%N
  || eqb_points (to_lower_full c) [d] || eqb_points (to_lower_full d) [c]
  || eqb_points (to_upper_full c) [d] || eqb_points (to_upper_full d) [c].

Definition case_variant (c d : char) : bool :=
  match c, d with
  | Point m, Point n => case_variant_point m n
  | Stray a, Stray b => Ascii.eqb a b
  | _, _ => false
  end.

Fixpoint case_variants (u v : list char) : bool :=
  match u, v with
  | [], [] => true
  | c :: u', d :: v' => case_variant c d && case_variants u' v'
  | _, _ => false
  end.

(** Two texts that differ only in the case of their letters: they have
    the same number of characters, and characters at the same place are
    equal or case forms of one another. *)
Definition differ_only_in_case (x y : string) : bool :=
  case_variants (decode x) (decode y).

(** The variation between two decoded texts that differ only in the
    case of ASCII letters. *)
Definition ascii_variant (c d : char) : Prop :=
  c = d
  \/ exists a b, c = Point (byte a) /\ d = Point (byte b)
                 /\ ascii_case_variant a b = true
                 /\ is_ascii a = true /\ is_ascii b = true.

(** The decoding of ASCII text: one code point a byte. *)
Fixpoint points_of (s : string) : list char :=
  match s with
  | EmptyString => []
  | String b s' => Point (byte b) :: points_of s'
  end.

Definition no_ascii_bytes (bytes : list ascii) : bool :=
  forallb (fun b => negb (is_ascii b)) bytes.

End TextVocabulary.

(** * Properties *)

(** ** Facts about the string built-ins *)

Module PyFacts.
Import Py.

Lemma append_cons (x : ascii) (a b : string) : String x a +:+ b = String x (a +:+ b).
Proof. reflexivity. Qed.

Lemma append_assoc (a b c : string) : (a +:+ b) +:+ c = a +:+ (b +:+ c).
Proof.
  induction a as [|x a IH]; [reflexivity |].
  now rewrite !append_cons, IH.
Qed.

Lemma append_empty_r (a : string) : a +:+ EmptyString = a.
Proof.
  induction a as [|x a IH]; [reflexivity |].
  now rewrite append_cons, IH.
Qed.

Lemma startswith_spec (p s : string) :
  startswith p s = true <-> exists post, s = p +:+ post.
Proof.
  revert s. induction p as [|a p IH]; intros s.
  - split; [intros _; now exists s | reflexivity].
  - destruct s as [|b s]; cbn [startswith].
    + split; [discriminate | intros [post H]; discriminate H].
    + rewrite andb_true_iff, Ascii.eqb_eq, IH. split.
      * intros [-> [post ->]]. now exists post.
      * intros [post H]. rewrite append_cons in H. injection H as -> ->.
        split; [reflexivity |].
        now exists post.
Qed.

Lemma contains_unfold (sub s : string) :
  contains sub s
  = startswith sub s
    || match s with
       | EmptyString => false
       | String _ s' => contains sub s'
       end.
Proof. destruct s; reflexivity. Qed.

(** [sub in s] holds exactly when [s] is [sub] with something before
    and something after. *)
Lemma contains_spec (sub s : string) :
  contains sub s = true <-> exists pre post, s = pre +:+ sub +:+ post.
Proof.
  split.
  - induction s as [|c s IH]; rewrite contains_unfold, orb_true_iff.
    + intros [H | H]; [| discriminate].
      apply startswith_spec in H. destruct H as [post ->].
      now exists EmptyString, post.
    + intros [H | H].
      * apply startswith_spec in H. destruct H as [post ->].
        now exists EmptyString, post.
      * destruct (IH H) as (pre & post & ->). now exists (String c pre), post.
  - intros (pre & post & ->). induction pre as [|c pre IH].
    + rewrite contains_unfold, orb_true_iff. left.
      apply startswith_spec. now exists post.
    + rewrite append_cons, contains_unfold, orb_true_iff. now right.
Qed.

Lemma contains_app (sub before s after : string) :
  contains sub s = true -> contains sub (before +:+ s +:+ after) = true.
Proof.
  rewrite !contains_spec. intros (pre & post & ->).
  exists (before +:+ pre), (post +:+ after).
  now rewrite !append_assoc.
Qed.

Lemma contains_trans (a b c : string) :
  contains a b = true -> contains b c = true -> contains a c = true.
Proof.
  intros Hab Hbc. apply contains_spec in Hbc. destruct Hbc as (pre & post & ->).
  now apply contains_app.
Qed.

Lemma contains_join (sub sep : string) (parts : list string) (p : string) :
  In p parts -> contains sub p = true -> contains sub (join sep parts) = true.
Proof.
  intros Hin Hp. induction parts as [|q rest IH]; [contradiction |].
  destruct rest as [|q' rest].
  - destruct Hin as [-> | []]. exact Hp.
  - change (join sep (q :: q' :: rest)) with (q +:+ sep +:+ join sep (q' :: rest)).
    destruct Hin as [-> | Hin].
    + exact (contains_app sub EmptyString p _ Hp).
    + replace (q +:+ sep +:+ join sep (q' :: rest))
        with ((q +:+ sep) +:+ join sep (q' :: rest) +:+ EmptyString)
        by (now rewrite append_empty_r, append_assoc).
      apply contains_app. now apply IH.
Qed.

End PyFacts.
(** ** Text: decoding and lowercasing *)

Module TextFacts.
Import Unicode Py TextVocabulary PyFacts.

(** *** The decoder *)

Lemma decode_from_run (pending : list ascii) (s : string) :
  decode_from pending s = fst (run pending s) ++ map Stray (snd (run pending s)).
Proof.
  revert pending. induction s as [|b s IH]; intros pending; cbn [decode_from run fst snd].
  - reflexivity.
  - rewrite IH. now rewrite app_assoc.
Qed.

Lemma decode_from_app (pending : list ascii) (x y : string) :
  decode_from pending (x +:+ y)
  = fst (run pending x) ++ decode_from (snd (run pending x)) y.
Proof.
  revert pending. induction x as [|b x IH]; intros pending.
  - reflexivity.
  - rewrite append_cons. cbn [decode_from run fst snd].
    rewrite IH. now rewrite app_assoc.
Qed.

Lemma second_ok_continuation (b0 b : ascii) :
  is_continuation b = false -> second_ok b0 b = false.
Proof. intros H. unfold second_ok. now rewrite H. Qed.

(** A byte that is no continuation byte ends the sequence under way. *)
Lemma step_resync (pending : list ascii) (b : ascii) :
  is_continuation b = false ->
  step pending b = (map Stray pending ++ fst (start b), snd (start b)).
Proof.
  intros H. unfold step.
  destruct pending as [|b0 [|b1 [|b2 [|b3 rest]]]];
    rewrite ?(second_ok_continuation _ _ H), ?H; try reflexivity.
  cbn [map app]. now destruct (start b).
Qed.

Lemma decode_from_boundary (pending : list ascii) (y : string) :
  boundary y = true -> decode_from pending y = map Stray pending ++ decode y.
Proof.
  destruct y as [|b y]; cbn [boundary].
  - intros _. cbn [decode decode_from map]. now rewrite app_nil_r.
  - rewrite negb_true_iff. intros H. unfold decode. cbn [decode_from].
    rewrite (step_resync pending b H), (step_resync [] b H).
    cbn [fst snd map app]. now rewrite app_assoc.
Qed.

Lemma decode_app (pending : list ascii) (x y : string) :
  boundary y = true ->
  decode_from pending (x +:+ y) = decode_from pending x ++ decode y.
Proof.
  intros H. rewrite decode_from_app, (decode_from_boundary _ y H), decode_from_run.
  now rewrite app_assoc.
Qed.

Lemma encode_app (a b : list char) : encode (a ++ b) = encode a +:+ encode b.
Proof.
  induction a as [|[c|x] a IH]; cbn [app encode].
  - reflexivity.
  - now rewrite IH, append_assoc.
  - now rewrite IH.
Qed.

Lemma encode_strays (bytes : list ascii) :
  encode (map Stray bytes) = string_of_list_ascii bytes.
Proof.
  induction bytes as [|b bytes IH]; cbn [map encode string_of_list_ascii]; congruence.
Qed.

(** *** Lowercasing in a context *)

Lemma cased_follows_then_false (s : list char) :
  cased_follows_then s false = cased_follows s.
Proof.
  induction s as [|[c|b] s IH]; cbn [cased_follows_then cased_follows];
    [reflexivity | now rewrite IH | reflexivity].
Qed.

Lemma lower_in_false (after_cased : bool) (s : list char) :
  lower_in after_cased s false = lower_chars after_cased s.
Proof.
  revert after_cased. induction s as [|[c|b] s IH]; intros after_cased;
    cbn [lower_in lower_chars].
  - reflexivity.
  - now rewrite IH, cased_follows_then_false.
  - now rewrite IH.
Qed.

Lemma cased_follows_then_app (a b : list char) (otherwise : bool) :
  cased_follows_then (a ++ b) otherwise
  = cased_follows_then a (cased_follows_then b otherwise).
Proof.
  induction a as [|[c|x] a IH]; cbn [app cased_follows_then];
    [reflexivity | now rewrite IH | reflexivity].
Qed.

Lemma lower_in_app (after_cased : bool) (a b : list char) (otherwise : bool) :
  lower_in after_cased (a ++ b) otherwise
  = lower_in after_cased a (cased_follows_then b otherwise)
    ++ lower_in (cased_at_end after_cased a) b otherwise.
Proof.
  revert after_cased. induction a as [|[c|x] a IH]; intros after_cased;
    cbn [app lower_in cased_at_end].
  - reflexivity.
  - now rewrite IH, cased_follows_then_app, app_assoc.
  - now rewrite IH.
Qed.

Lemma lower_in_strays (after_cased : bool) (bytes : list ascii) (otherwise : bool) :
  lower_in after_cased (map Stray bytes) otherwise = map Stray bytes.
Proof.
  revert after_cased. induction bytes as [|b bytes IH]; intros after_cased;
    cbn [map lower_in]; [reflexivity | now rewrite IH].
Qed.

(** *** ASCII bytes *)

Ltac each_byte b := destruct b as [[] [] [] [] [] [] [] []].

Lemma start_ascii (b : ascii) :
  is_ascii b = true -> start b = ([Point (byte b)], []).
Proof. intros H. unfold start. now rewrite H. Qed.

Lemma continuation_not_ascii (b : ascii) :
  is_continuation b = true -> is_ascii b = false.
Proof. each_byte b; vm_compute; congruence. Qed.

Lemma ascii_not_continuation (b : ascii) :
  is_ascii b = true -> is_continuation b = false.
Proof. each_byte b; vm_compute; congruence. Qed.

Lemma start_continuation (b : ascii) :
  is_continuation b = true -> start b = ([Stray b], []).
Proof. each_byte b; vm_compute; congruence. Qed.

Lemma encode_point_ascii (b : ascii) :
  is_ascii b = true -> encode_point (byte b) = String b EmptyString.
Proof. each_byte b; vm_compute; congruence. Qed.

(** The lowercase mapping of an ASCII byte is the ASCII one. *)
Lemma to_lower_full_ascii (b : ascii) :
  is_ascii b = true ->
  to_lower_full (byte b) = [byte (lower_char b)]
  /\ is_ascii (lower_char b) = true
  /\ (byte b =? CAPITAL_SIGMA)%N = false.
Proof. each_byte b; vm_compute; intuition congruence. Qed.

Lemma lower_char_plain (b : ascii) : is_upper b = false -> lower_char b = b.
Proof. intros H. unfold lower_char. now rewrite H. Qed.

(** A capital ASCII letter and its small form are of one kind for the
    test at a capital sigma. *)
Lemma upper_letter (a : ascii) :
  is_upper a = true ->
  is_ascii a = true
  /\ is_ascii (lower_char a) = true
  /\ lower_char (lower_char a) = lower_char a
  /\ case_ignorable (byte (lower_char a)) = case_ignorable (byte a)
  /\ cased (byte (lower_char a)) = cased (byte a)
  /\ to_upper_full (byte (lower_char a)) = [byte a].
Proof. each_byte a; vm_compute; intuition congruence. Qed.

(** *** Texts that differ in the case of ASCII letters *)

Lemma ascii_case_variant_cases (a b : ascii) :
  ascii_case_variant a b = true ->
  a = b
  \/ (is_upper a = true /\ b = lower_char a)
  \/ (is_upper b = true /\ a = lower_char b).
Proof.
  unfold ascii_case_variant. rewrite !orb_true_iff, !andb_true_iff, !Ascii.eqb_eq.
  intuition.
Qed.

Lemma step_ascii (pending : list ascii) (b : ascii) :
  is_ascii b = true ->
  step pending b = (map Stray pending ++ [Point (byte b)], []).
Proof.
  intros H. rewrite (step_resync pending b (ascii_not_continuation b H)).
  now rewrite (start_ascii b H).
Qed.

Lemma decode_ascii_case (x y : string) :
  differ_only_in_ascii_case x y = true ->
  forall pending, Forall2 ascii_variant (decode_from pending x) (decode_from pending y).
Proof.
  revert y. induction x as [|a x IH]; intros [|b y]; cbn [differ_only_in_ascii_case];
    try discriminate.
  - intros _ pending. cbn [decode_from].
    induction pending as [|p pending IHp]; constructor; [now left | exact IHp].
  - rewrite andb_true_iff. intros [Hab Hxy] pending. cbn [decode_from].
    assert (Hsame : forall u : list char, Forall2 ascii_variant u u).
    { induction u; constructor; [now left | assumption]. }
    destruct (ascii_case_variant_cases a b Hab) as [-> | [[Ha ->] | [Hb ->]]].
    + apply Forall2_app; [apply Hsame | now apply IH].
    + destruct (upper_letter a Ha) as (Ha1 & Ha2 & _).
      rewrite (step_ascii pending a Ha1), (step_ascii pending _ Ha2). cbn [fst snd].
      apply Forall2_app; [| now apply IH].
      apply Forall2_app; [apply Hsame |].
      constructor; [| constructor]. right. exists a, (lower_char a). auto.
    + destruct (upper_letter b Hb) as (Hb1 & Hb2 & _).
      rewrite (step_ascii pending b Hb1), (step_ascii pending _ Hb2). cbn [fst snd].
      apply Forall2_app; [| now apply IH].
      apply Forall2_app; [apply Hsame |].
      constructor; [| constructor]. right. exists (lower_char b), b. auto.
Qed.

(** What lowercasing looks at is the same on both sides of such a
    variation. *)
Lemma ascii_variant_lower (c d : char) :
  ascii_variant c d ->
  c = d
  \/ exists m n,
       c = Point m /\ d = Point n
       /\ (m =? CAPITAL_SIGMA)%N = false /\ (n =? CAPITAL_SIGMA)%N = false
       /\ to_lower_full m = to_lower_full n
       /\ case_ignorable m = case_ignorable n
       /\ cased m = cased n.
Proof.
  intros [-> | (a & b & -> & -> & Hab & Ha & Hb)]; [now left |].
  destruct (to_lower_full_ascii a Ha) as (La & _ & Sa).
  destruct (to_lower_full_ascii b Hb) as (Lb & _ & Sb).
  destruct (ascii_case_variant_cases a b Hab) as [-> | [[Hu ->] | [Hu ->]]];
    [now left | |]; right; eexists _, _;
    destruct (upper_letter _ Hu) as (_ & _ & Hidem & Hign & Hcased & _);
    rewrite La, Lb, ?Hidem, ?Hign, ?Hcased; repeat split; auto.
Qed.

Lemma cased_follows_ascii_case (u v : list char) :
  Forall2 ascii_variant u v -> cased_follows u = cased_follows v.
Proof.
  induction 1 as [|c d u v Hcd _ IH]; [reflexivity |].
  destruct (ascii_variant_lower c d Hcd)
    as [-> | (m & n & -> & -> & _ & _ & _ & Hign & Hcased)].
  - destruct d; cbn [cased_follows]; [now rewrite IH | reflexivity].
  - cbn [cased_follows]. now rewrite Hign, Hcased, IH.
Qed.

Lemma lower_chars_ascii_case (u v : list char) :
  Forall2 ascii_variant u v ->
  forall after_cased, lower_chars after_cased u = lower_chars after_cased v.
Proof.
  induction 1 as [|c d u v Hcd Huv IH]; intros after_cased; [reflexivity |].
  pose proof (cased_follows_ascii_case u v Huv) as Hfollows.
  destruct (ascii_variant_lower c d Hcd)
    as [-> | (m & n & -> & -> & Hm & Hn & Hlow & Hign & Hcased)].
  - destruct d; cbn [lower_chars]; now rewrite ?Hfollows, IH.
  - cbn [lower_chars]. now rewrite Hm, Hn, Hlow, Hign, Hcased, IH.
Qed.

(** Texts that differ only in the case of ASCII letters have the same
    lowercasing. *)
Lemma lower_ascii_case (x y : string) :
  differ_only_in_ascii_case x y = true -> lower x = lower y.
Proof.
  intros H. unfold lower, decode.
  now rewrite (lower_chars_ascii_case _ _ (decode_ascii_case x y H [])).
Qed.

(** *** Plain text at the end of a text *)

Lemma decode_all_ascii (s : string) :
  all_ascii s = true ->
  forall pending, decode_from pending s = map Stray pending ++ points_of s.
Proof.
  induction s as [|b s IH]; cbn [all_ascii]; intros H pending; cbn [decode_from points_of].
  - now rewrite app_nil_r.
  - apply andb_true_iff in H. destruct H as [Hb Hs].
    rewrite (step_ascii pending b Hb). cbn [fst snd].
    rewrite (IH Hs []). cbn [map app]. now rewrite <- app_assoc.
Qed.

Lemma plain_all_ascii (s : string) : plain s = true -> all_ascii s = true.
Proof.
  induction s as [|b s IH]; cbn [plain all_ascii]; [reflexivity |].
  rewrite !andb_true_iff. intuition.
Qed.

Lemma all_ascii_boundary (s : string) : all_ascii s = true -> boundary s = true.
Proof.
  destruct s as [|b s]; cbn [all_ascii boundary]; [reflexivity |].
  rewrite andb_true_iff, negb_true_iff. intros [Hb _].
  now apply ascii_not_continuation.
Qed.

Lemma lower_in_plain (s : string) :
  plain s = true ->
  forall after_cased otherwise,
    lower_in after_cased (points_of s) otherwise = points_of s.
Proof.
  induction s as [|b s IH]; cbn [plain]; intros H after_cased otherwise;
    cbn [points_of lower_in]; [reflexivity |].
  apply andb_true_iff in H. destruct H as [Hb Hs].
  apply andb_true_iff in Hb. destruct Hb as [Hb Hup].
  apply negb_true_iff in Hup.
  destruct (to_lower_full_ascii b Hb) as (Hlow & _ & Hsigma).
  rewrite Hsigma, Hlow, (lower_char_plain b Hup), (IH Hs). reflexivity.
Qed.

Lemma encode_points_of (s : string) :
  all_ascii s = true -> encode (points_of s) = s.
Proof.
  induction s as [|b s IH]; cbn [all_ascii points_of encode]; [reflexivity |].
  rewrite andb_true_iff. intros [Hb Hs].
  now rewrite (encode_point_ascii b Hb), (IH Hs).
Qed.

(** Plain text at the end of a text is still there after lowercasing. *)
Lemma lower_plain_suffix (x suf : string) :
  plain suf = true -> exists u, lower (x +:+ suf) = u +:+ suf.
Proof.
  intros H. pose proof (plain_all_ascii suf H) as Hascii.
  unfold lower, decode.
  rewrite (decode_app [] x suf (all_ascii_boundary suf Hascii)).
  unfold decode. rewrite (decode_all_ascii suf Hascii []). cbn [map app].
  rewrite <- lower_in_false, lower_in_app, (lower_in_plain suf H), encode_app.
  rewrite (encode_points_of suf Hascii). eexists. reflexivity.
Qed.

Lemma endswith_app (u suf : string) : endswith suf (u +:+ suf) = true.
Proof.
  induction u as [|c u IH].
  - change (EmptyString +:+ suf) with suf.
    destruct suf; cbn [endswith]; now rewrite String.eqb_refl.
  - rewrite append_cons. cbn [endswith]. rewrite IH. apply orb_true_r.
Qed.

Lemma endswith_split (suf s : string) :
  endswith suf s = true -> exists u, s = u +:+ suf.
Proof.
  induction s as [|c s IH]; cbn [endswith]; rewrite orb_true_iff.
  - intros [H | H]; [| discriminate]. apply String.eqb_eq in H. subst suf.
    now exists EmptyString.
  - intros [H | H].
    + apply String.eqb_eq in H. subst suf. now exists EmptyString.
    + destruct (IH H) as [u ->]. now exists (String c u).
Qed.

Lemma endswith_lower_plain (suf s : string) :
  plain suf = true -> endswith suf s = true -> endswith suf (lower s) = true.
Proof.
  intros Hplain H. destruct (endswith_split suf s H) as [x ->].
  destruct (lower_plain_suffix x suf Hplain) as [u ->].
  apply endswith_app.
Qed.

(** *** ASCII text inside a text *)

Lemma same_ascii_refl (u : string) : same_ascii u u = true.
Proof.
  induction u as [|a u IH]; cbn [same_ascii]; [reflexivity |].
  now rewrite Ascii.eqb_refl, IH.
Qed.

Lemma same_ascii_app (u u' v v' : string) :
  same_ascii u u' = true -> same_ascii v v' = true ->
  same_ascii (u +:+ v) (u' +:+ v') = true.
Proof.
  revert u'. induction u as [|a u IH]; intros [|b u']; cbn [same_ascii];
    try discriminate; [now intros _ |].
  rewrite andb_true_iff. intros [Hab Hu] Hv.
  rewrite !append_cons. cbn [same_ascii]. now rewrite Hab, (IH u' Hu Hv).
Qed.

Lemma startswith_same_ascii (p u v : string) :
  all_ascii p = true -> same_ascii u v = true -> startswith p u = startswith p v.
Proof.
  revert u v. induction p as [|c p IH]; intros u v; [reflexivity |].
  cbn [all_ascii]. rewrite andb_true_iff. intros [Hc Hp].
  destruct u as [|a u], v as [|b v]; cbn [same_ascii]; try discriminate;
    [reflexivity |].
  rewrite andb_true_iff, orb_true_iff, andb_true_iff, !negb_true_iff.
  intros [[Hab | [Ha Hb]] Huv]; cbn [startswith].
  - apply Ascii.eqb_eq in Hab. subst b. now rewrite (IH u v Hp Huv).
  - assert (Hca : Ascii.eqb c a = false)
      by (apply Ascii.eqb_neq; intros ->; congruence).
    assert (Hcb : Ascii.eqb c b = false)
      by (apply Ascii.eqb_neq; intros ->; congruence).
    now rewrite Hca, Hcb.
Qed.

Lemma contains_same_ascii (p u v : string) :
  all_ascii p = true -> same_ascii u v = true -> contains p u = contains p v.
Proof.
  intros Hp. revert v. induction u as [|a u IH]; intros [|b v] Huv;
    try discriminate Huv; [reflexivity |].
  rewrite (contains_unfold p (String a u)), (contains_unfold p (String b v)).
  rewrite (startswith_same_ascii p _ _ Hp Huv).
  cbn [same_ascii] in Huv. apply andb_true_iff in Huv. destruct Huv as [_ Huv].
  now rewrite (IH v Huv).
Qed.

(** ASCII text starts at no byte that is not ASCII. *)
Lemma contains_skip (p : string) (c : ascii) (s : string) :
  all_ascii p = true -> p <> EmptyString -> is_ascii c = false ->
  contains p (String c s) = contains p s.
Proof.
  intros Hp Hne Hc. rewrite contains_unfold.
  destruct p as [|a p]; [contradiction |].
  cbn [all_ascii] in Hp. apply andb_true_iff in Hp. destruct Hp as [Ha _].
  cbn [startswith].
  assert (Hac : Ascii.eqb a c = false) by (apply Ascii.eqb_neq; intros ->; congruence).
  now rewrite Hac.
Qed.

Lemma contains_skip_prefix (p junk s : string) :
  all_ascii p = true -> p <> EmptyString -> no_ascii junk = true ->
  contains p (junk +:+ s) = contains p s.
Proof.
  intros Hp Hne. induction junk as [|c junk IH]; cbn [no_ascii]; [reflexivity |].
  rewrite andb_true_iff, negb_true_iff. intros [Hc Hjunk].
  rewrite append_cons, (contains_skip p c _ Hp Hne Hc). now apply IH.
Qed.

Lemma startswith_skip_suffix (p s junk : string) :
  all_ascii p = true -> no_ascii junk = true ->
  startswith p (s +:+ junk) = startswith p s.
Proof.
  revert s. induction p as [|a p IH]; intros s Hp Hjunk; [reflexivity |].
  cbn [all_ascii] in Hp. apply andb_true_iff in Hp. destruct Hp as [Ha Hp].
  destruct s as [|c s].
  - change (EmptyString +:+ junk) with junk.
    destruct junk as [|j junk]; [reflexivity |].
    cbn [no_ascii] in Hjunk. apply andb_true_iff in Hjunk.
    destruct Hjunk as [Hj _]. apply negb_true_iff in Hj.
    cbn [startswith].
    assert (Haj : Ascii.eqb a j = false) by (apply Ascii.eqb_neq; intros ->; congruence).
    now rewrite Haj.
  - rewrite append_cons. cbn [startswith]. now rewrite (IH s Hp Hjunk).
Qed.

Lemma contains_skip_suffix (p s junk : string) :
  all_ascii p = true -> p <> EmptyString -> no_ascii junk = true ->
  contains p (s +:+ junk) = contains p s.
Proof.
  intros Hp Hne Hjunk. induction s as [|c s IH].
  - change (EmptyString +:+ junk) with junk.
    rewrite <- (append_empty_r junk), (contains_skip_prefix p junk _ Hp Hne Hjunk).
    reflexivity.
  - rewrite append_cons, !(contains_unfold p (String c _)).
    rewrite <- append_cons, (startswith_skip_suffix p (String c s) junk Hp Hjunk).
    now rewrite IH.
Qed.

(** The lowercasing of a text in two contexts differs at most in which
    small sigma stands for a capital one. *)
Lemma lower_in_same_ascii (s : list char) (a1 a2 o1 o2 : bool) :
  same_ascii (encode (lower_in a1 s o1)) (encode (lower_in a2 s o2)) = true.
Proof.
  revert a1 a2. induction s as [|[c|b] s IH]; intros a1 a2; cbn [lower_in].
  - reflexivity.
  - rewrite !encode_app. apply same_ascii_app; [| apply IH].
    destruct (c =? CAPITAL_SIGMA)%N; [| apply same_ascii_refl].
    destruct (a1 && negb (cased_follows_then s o1)),
             (a2 && negb (cased_follows_then s o2)); reflexivity.
  - cbn [encode same_ascii]. now rewrite Ascii.eqb_refl, IH.
Qed.

(** *** The decoder on a part of a text *)

Lemma run_all_continuation (c : string) :
  all_continuation c = true ->
  run [] c = (map Stray (list_ascii_of_string c), []).
Proof.
  induction c as [|b c IH]; cbn [all_continuation]; [reflexivity |].
  rewrite andb_true_iff. intros [Hb Hc].
  cbn [run step list_ascii_of_string map]. rewrite (start_continuation b Hb).
  cbn [fst snd]. now rewrite (IH Hc).
Qed.

Lemma all_continuation_no_ascii (c : string) :
  all_continuation c = true -> no_ascii c = true.
Proof.
  induction c as [|b c IH]; cbn [all_continuation no_ascii]; [reflexivity |].
  rewrite andb_true_iff. intros [Hb Hc].
  now rewrite (continuation_not_ascii b Hb), (IH Hc).
Qed.

(** A text is continuation bytes followed by a text at a boundary. *)
Lemma continuation_split (s : string) :
  exists c m, s = c +:+ m /\ all_continuation c = true /\ boundary m = true.
Proof.
  induction s as [|b s (c & m & -> & Hc & Hm)].
  - now exists EmptyString, EmptyString.
  - destruct (is_continuation b) eqn:Hb.
    + exists (String b c), m. cbn [all_continuation]. now rewrite Hb, Hc.
    + exists EmptyString, (String b (c +:+ m)). cbn [boundary]. now rewrite Hb.
Qed.

Lemma start_pending (b : ascii) : no_ascii_bytes (snd (start b)) = true.
Proof.
  unfold start. destruct (is_ascii b) eqn:Hb; [reflexivity |].
  destruct (2 <=? announced b)%nat; [| reflexivity].
  cbn [snd no_ascii_bytes forallb]. now rewrite Hb.
Qed.

Lemma step_pending (pending : list ascii) (b : ascii) :
  no_ascii_bytes pending = true -> no_ascii_bytes (snd (step pending b)) = true.
Proof.
  intros H. unfold step.
  destruct pending as [|b0 [|b1 [|b2 [|b3 rest]]]]; try apply start_pending.
  - destruct (second_ok b0 b) eqn:Hok; [| apply start_pending].
    destruct (announced b0 =? 2)%nat; [reflexivity |].
    unfold second_ok in Hok. apply andb_true_iff in Hok. destruct Hok as [Hb _].
    cbn [snd no_ascii_bytes forallb] in *.
    apply andb_true_iff in H. destruct H as [H0 _].
    now rewrite (continuation_not_ascii b Hb), H0.
  - destruct (is_continuation b) eqn:Hb; [| apply start_pending].
    destruct (announced b0 =? 3)%nat; [reflexivity |].
    cbn [snd no_ascii_bytes forallb] in *.
    apply andb_true_iff in H. destruct H as [H0 H1].
    apply andb_true_iff in H1. destruct H1 as [H1 _].
    now rewrite H0, H1, (continuation_not_ascii b Hb).
  - destruct (is_continuation b); [reflexivity | apply start_pending].
Qed.

Lemma run_pending (s : string) (pending : list ascii) :
  no_ascii_bytes pending = true -> no_ascii_bytes (snd (run pending s)) = true.
Proof.
  revert pending. induction s as [|b s IH]; intros pending H; cbn [run snd];
    [exact H |].
  apply IH. now apply step_pending.
Qed.

Lemma no_ascii_of_bytes (bytes : list ascii) :
  no_ascii_bytes bytes = true -> no_ascii (string_of_list_ascii bytes) = true.
Proof.
  induction bytes as [|b bytes IH]; cbn [no_ascii_bytes forallb string_of_list_ascii no_ascii];
    [reflexivity |].
  rewrite andb_true_iff. intros [-> H]. now apply IH.
Qed.

(** ASCII text found in the lowercasing of a text is found in the
    lowercasing of every text around it. *)
Lemma contains_lower_context (p before text after : string) :
  all_ascii p = true -> p <> EmptyString ->
  contains p (lower text) = true ->
  contains p (lower (before +:+ text +:+ after)) = true.
Proof.
  intros Hp Hne.
  destruct (continuation_split text) as (c & m & -> & Hc & Hm).
  unfold lower at 1. unfold decode.
  rewrite (decode_app [] c m Hm). unfold decode.
  rewrite (decode_from_run [] c), (run_all_continuation c Hc). cbn [fst snd map].
  rewrite app_nil_r, (decode_from_run [] m).
  rewrite <- lower_in_false, !lower_in_app, !lower_in_strays, !encode_app, !encode_strays.
  rewrite string_of_list_ascii_of_string.
  rewrite (contains_skip_prefix p c _ Hp Hne (all_continuation_no_ascii c Hc)).
  rewrite (contains_skip_suffix p _ _ Hp Hne
             (no_ascii_of_bytes _ (run_pending m [] eq_refl))).
  intros Hfound.
  destruct m as [|b m].
  { cbn in Hfound. destruct p; [contradiction | discriminate Hfound]. }
  unfold lower, decode.
  assert (Hsplit : before +:+ (c +:+ String b m) +:+ after
                   = (before +:+ c) +:+ (String b m +:+ after))
    by (now rewrite !append_assoc).
  rewrite Hsplit.
  assert (Hbound : boundary (String b m +:+ after) = true) by exact Hm.
  rewrite (decode_app [] (before +:+ c) _ Hbound). unfold decode.
  rewrite (decode_from_app [] (String b m) after).
  rewrite <- lower_in_false, !lower_in_app, !encode_app.
  apply contains_app.
  rewrite <- Hfound. apply (contains_same_ascii p _ _ Hp).
  apply lower_in_same_ascii.
Qed.

End TextFacts.

(** ** The mock router *)

Module MockClientProofs.
Import Unicode Py TextVocabulary MockClient.

(** The if-chain of the source is the ordered rule table of the
    specification. *)
Lemma route_response_is_route (text : string) : _route_response text = route text.
Proof. reflexivity. Qed.

Lemma no_rule_matches_fallback (text : string) :
  no_rule_matches text = true -> _route_response text = FALLBACK.
Proof.
  unfold no_rule_matches, RULES. cbn [forallb fst].
  rewrite !andb_true_iff, !negb_true_iff.
  intros (H1 & H2 & H3 & H4 & H5 & H6 & H7 & H8 & H9 & H10 & H11 & H12 & H13 & H14 & _).
  unfold _route_response. cbv zeta.
  rewrite H1, H2, H3, H4, H5, H6, H7, H8, H9, H10, H11, H12, H13, H14.
  reflexivity.
Qed.

(** Every role is routed to: the canned response of each role is the
    answer to some prompt. *)
Lemma every_role_reachable (r : role) : exists text, _route_response text = canned r.
Proof.
  destruct r;
    [ exists "technical indicator"
    | exists "social media sentiment"
    | exists "news researcher on world affairs"
    | exists "financial documents"
    | exists "bull analyst"
    | exists "bear analyst"
    | exists "portfolio manager and debate facilitator"
    | exists "risk management judge"
    | exists "trading agent making an investment decision"
    | exists "aggressive risk analyst"
    | exists "conservative risk analyst"
    | exists "neutral risk analyst" ];
    vm_compute; reflexivity.
Qed.

(** C1, as stated, fails: the prompt "bull analyst" is answered with the
    bull argument, a debate response that does not end with the sentinel
    phrase. *)
Lemma canned_debate_response_lacks_sentinel :
  ~ (forall (text : string) (r : role),
        In (kind_of r) [Analyst; Debate; Risk] ->
        _route_response text = canned r ->
        ends_with_sentinel (_route_response text) = true).
Proof.
  intros H.
  specialize (H "bull analyst" BullResearcher).
  assert (Hk : In (kind_of BullResearcher) [Analyst; Debate; Risk])
    by (right; left; reflexivity).
  specialize (H Hk eq_refl).
  vm_compute in H. discriminate H.
Qed.

(** C1 (amended): whenever the router answers a prompt with the canned
    response of a role, that response ends with the sentinel phrase
    FINAL TRANSACTION PROPOSAL: **BUY** if the role is an analyst
    (market, sentiment, news, fundamentals) or a deciding role (research
    manager, risk judge, trader), and contains no sentinel phrase at all
    if the role is a debater (bull, bear) or a risk analyst (aggressive,
    conservative, neutral). *)
Theorem canned_response_sentinel (text : string) (r : role) :
  _route_response text = canned r ->
  (kind_of r = Analyst \/ kind_of r = Decision ->
   endswith (sentinel "BUY") (_route_response text) = true
   /\ ends_with_sentinel (_route_response text) = true)
  /\ (kind_of r = Debate \/ kind_of r = Risk ->
      contains_sentinel (_route_response text) = false).
Proof.
  intros ->. split.
  - intros [Hk | Hk]; destruct r; try discriminate Hk;
      split; vm_compute; reflexivity.
  - intros [Hk | Hk]; destruct r; try discriminate Hk;
      vm_compute; reflexivity.
Qed.

Lemma canned_response_sentinel_witness :
  _route_response "Technical Indicator" = canned MarketAnalyst
  /\ ends_with_sentinel (_route_response "Technical Indicator") = true.
Proof.
  split; [vm_compute; reflexivity |].
  apply (canned_response_sentinel "Technical Indicator" MarketAnalyst);
    [vm_compute; reflexivity | left; reflexivity].
Defined.

(** C4: a prompt whose lowercased text contains "extract the investment
    decision" is answered with the bare token BUY, one of BUY, SELL and
    HOLD, whatever else the text contains: the test comes first. *)
Theorem extract_decision_rule_first (text : string) :
  contains "extract the investment decision" (lower text) = true ->
  _route_response text = "BUY" /\ In (_route_response text) SIGNALS.
Proof.
  intros H. unfold _route_response. cbv zeta. rewrite H.
  split; [reflexivity | left; reflexivity].
Qed.

Lemma extract_decision_rule_first_witness :
  _route_response
    "You are a Bull Analyst. Extract the investment decision: technical indicator"
  = "BUY".
Proof.
  apply (extract_decision_rule_first
           "You are a Bull Analyst. Extract the investment decision: technical indicator").
  vm_compute. reflexivity.
Defined.

(** C5: when no rule of the table matches the lowercased input, the
    router returns the generic fallback, which contains (and ends with)
    the sentinel phrase with a signal among BUY, SELL and HOLD. *)
Theorem unmatched_input_gets_sentinel (text : string) :
  no_rule_matches text = true ->
  _route_response text = FALLBACK
  /\ exists signal, In signal SIGNALS
       /\ contains (sentinel signal) (_route_response text) = true
       /\ endswith (sentinel signal) (_route_response text) = true.
Proof.
  intros H. rewrite (no_rule_matches_fallback text H).
  split; [reflexivity |].
  exists "BUY". split; [left; reflexivity |].
  split; vm_compute; reflexivity.
Qed.

Lemma unmatched_input_gets_sentinel_witness :
  _route_response "Hello, what is the weather today?" = FALLBACK.
Proof.
  apply (unmatched_input_gets_sentinel "Hello, what is the weather today?").
  vm_compute. reflexivity.
Defined.

(** The router reads the lowercased text only. *)
Lemma route_response_reads_lower (x y : string) :
  lower x = lower y -> _route_response x = _route_response y.
Proof. intros H. unfold _route_response. now rewrite H. Qed.

(** In a world where the module is loaded, a global of the module
    holds the text assigned to it. *)
Lemma load_module_constant (w : MockRuntime.world) (name value : string) :
  MockRuntime.module_loaded w ->
  In (name, value) MockRuntime.MODULE_CONSTANTS ->
  MockRuntime.load_global name w = (Ret (MockRuntime.Str value), w).
Proof.
  intros Hw Hin. unfold MockRuntime.load_global. now rewrite (Hw name value Hin).
Qed.

(** One call: the response is the one the text alone decides, and the
    world is left as it was. *)
Lemma route_response_call (w : MockRuntime.world) (x : string) :
  MockRuntime.module_loaded w ->
  MockRuntime._route_response x w = (Ret (MockRuntime.Str (_route_response x)), w).
Proof.
  intros Hw. unfold MockRuntime._route_response, _route_response. cbv zeta.
  repeat match goal with
         | |- context [if ?c then _ else _] => destruct c
         end;
    first [ reflexivity
          | apply (load_module_constant w _ _ Hw);
            unfold MockRuntime.MODULE_CONSTANTS;
            repeat first [ left; reflexivity | right ] ].
Qed.

Lemma serve_calls (w : MockRuntime.world) (calls : list string) :
  MockRuntime.module_loaded w ->
  MockRuntime.serve calls w
  = (Ret (map (fun x => MockRuntime.Str (_route_response x)) calls), w).
Proof.
  intros Hw. induction calls as [|x calls IH]; [reflexivity |].
  cbn [MockRuntime.serve map]. now rewrite (route_response_call w x Hw), IH.
Qed.

(** C8: the router is a function of the prompt text alone.  Run in any
    world where the module is loaded --- whatever else its namespace
    holds and whatever the state of the random generator --- a call
    returns the response its text decides and leaves the world as it
    found it; so does every sequence of calls; and two calls with the
    same text get the same response wherever they stand, in whichever
    sequences and worlds. *)
Theorem route_response_pure
    (w w' : MockRuntime.world) (calls calls' : list string) :
  MockRuntime.module_loaded w ->
  MockRuntime.module_loaded w' ->
  (forall x, MockRuntime._route_response x w
             = (Ret (MockRuntime.Str (_route_response x)), w))
  /\ MockRuntime.serve calls w
     = (Ret (map (fun x => MockRuntime.Str (_route_response x)) calls), w)
  /\ (forall i j x,
        calls !! i = Some x -> calls' !! j = Some x ->
        exists responses responses',
          fst (MockRuntime.serve calls w) = Ret responses
          /\ fst (MockRuntime.serve calls' w') = Ret responses'
          /\ responses !! i = responses' !! j
          /\ responses !! i = Some (MockRuntime.Str (_route_response x))).
Proof.
  intros Hw Hw'. split; [| split].
  - intros x. now apply route_response_call.
  - now apply serve_calls.
  - intros i j x Hi Hj.
    rewrite (serve_calls w calls Hw), (serve_calls w' calls' Hw').
    eexists _, _. split; [reflexivity |]. split; [reflexivity |].
    assert (Hmap : forall (l : list string) k,
               l !! k = Some x ->
               map (fun x => MockRuntime.Str (_route_response x)) l !! k
               = Some (MockRuntime.Str (_route_response x))).
    { intros l k Hk.
      change (map ?f l) with (f <$> l).
      now rewrite list_lookup_fmap, Hk. }
    now rewrite (Hmap calls i Hi), (Hmap calls' j Hj).
Qed.

Lemma fresh_module_loaded (random_state : N) :
  MockRuntime.module_loaded (MockRuntime.fresh random_state).
Proof.
  intros name value Hin. unfold MockRuntime.MODULE_CONSTANTS in Hin.
  cbn [In] in Hin.
  repeat (destruct Hin as [[= <- <-] | Hin]; [vm_compute; reflexivity |]).
  contradiction.
Defined.

Lemma route_response_pure_witness :
  MockRuntime.serve ["bull analyst"; "news"; "bull analyst"] (MockRuntime.fresh 7)
  = (Ret (map (fun x => MockRuntime.Str (_route_response x))
              ["bull analyst"; "news"; "bull analyst"]),
     MockRuntime.fresh 7).
Proof.
  apply (route_response_pure (MockRuntime.fresh 7) (MockRuntime.fresh 11)
                             ["bull analyst"; "news"; "bull analyst"] []);
    apply fresh_module_loaded.
Defined.

(** C10, as stated, fails: BULL ANALYST and its small form written with
    the long s (U+017F, whose capital is S) differ only in the case of
    their letters, and only the first is answered with the bull
    argument. *)
Lemma case_variants_routed_apart :
  ~ (forall x y : string,
        differ_only_in_case x y = true ->
        _route_response x = _route_response y).
Proof.
  intros H.
  specialize (H "BULL ANALYST" "bull analyſt").
  assert (Hcase : differ_only_in_case "BULL ANALYST" "bull analyſt" = true)
    by (vm_compute; reflexivity).
  specialize (H Hcase). vm_compute in H. discriminate H.
Qed.

(** The two prompts are equal once upper-cased; lowercasing keeps the
    long s. *)
Example long_s_prompts :
  upper "BULL ANALYST" = upper "bull analyſt"
  /\ lower "BULL ANALYST" = "bull analyst"
  /\ lower "bull analyſt" = "bull analyſt"
  /\ _route_response "BULL ANALYST" = MOCK_BULL_ARGUMENT
  /\ _route_response "bull analyſt" = FALLBACK.
Proof. repeat split; vm_compute; reflexivity. Qed.

(** Texts that differ only in the case of ASCII letters differ only in
    the case of their letters. *)
Lemma ascii_case_is_case (x y : string) :
  differ_only_in_ascii_case x y = true -> differ_only_in_case x y = true.
Proof.
  intros H. unfold differ_only_in_case, decode.
  pose proof (TextFacts.decode_ascii_case x y H []) as Hvar.
  induction Hvar as [|c d u v Hcd _ IH]; [reflexivity |].
  cbn [case_variants]. rewrite IH, andb_true_r.
  destruct Hcd as [-> | (a & b & -> & -> & Hab & Ha & Hb)].
  - destruct d; cbn [case_variant]; [| apply Ascii.eqb_refl].
    unfold case_variant_point. now rewrite N.eqb_refl.
  - cbn [case_variant]. unfold case_variant_point, eqb_points.
    destruct (TextFacts.ascii_case_variant_cases a b Hab) as [-> | [[Hu ->] | [Hu ->]]].
    + now rewrite N.eqb_refl.
    + destruct (TextFacts.to_lower_full_ascii a Ha) as (-> & _).
      rewrite bool_decide_eq_true_2 by reflexivity.
      now rewrite orb_true_r.
    + destruct (TextFacts.to_lower_full_ascii b Hb) as (-> & _).
      rewrite (bool_decide_eq_true_2 ([byte (lower_char b)] = [byte (lower_char b)]))
        by reflexivity.
      now rewrite !orb_true_r.
Qed.

(** C10 (amended): two prompts that differ only in the case of their
    ASCII letters (A to Z, a to z) have the same lowercasing and get
    the same response. *)
Theorem route_response_case_insensitive (x y : string) :
  differ_only_in_ascii_case x y = true ->
  lower x = lower y /\ _route_response x = _route_response y.
Proof.
  intros H. pose proof (TextFacts.lower_ascii_case x y H) as Hlower.
  split; [exact Hlower | now apply route_response_reads_lower].
Qed.

Lemma route_response_case_insensitive_witness :
  _route_response "You are a BULL Analyst" = _route_response "you ARE a bull analyst".
Proof.
  apply (route_response_case_insensitive
           "You are a BULL Analyst" "you ARE a bull analyst").
  vm_compute. reflexivity.
Defined.

End MockClientProofs.

(** ** The Markdown export *)

Module LogUtilsProofs.
Import Py LogUtils.

(** Enumerate the members of a literal list of keys. *)
Ltac each_key H :=
  cbn in H; repeat (destruct H as [<- | H]); try contradiction.

Section Render.
Variable repr : json -> string.

Lemma sections_inv (keys : list string) (state : gmap string json) (part : string) :
  In part (sections repr keys state) ->
  exists key v, In key keys /\ state !! key = Some v /\ truthy v = true
                /\ part = section repr key v.
Proof.
  unfold sections. rewrite in_flat_map. intros (key & Hkey & Hpart).
  destruct (state !! key) as [v|] eqn:Hv; [| contradiction].
  destruct (truthy v) eqn:Ht; [| contradiction].
  destruct Hpart as [<- | []]. now exists key, v.
Qed.

(** On a nested map the loop over the sub-keys never raises. *)
Lemma subsections_object (subkeys : list string) (fields : gmap string json) :
  subsections repr subkeys (JObj fields)
  = Ret (flat_map (fun subkey =>
                     match fields !! subkey with
                     | Some v => if truthy v then [subsection repr subkey v] else []
                     | None => []
                     end) subkeys).
Proof.
  induction subkeys as [|subkey rest IH]; [reflexivity |].
  cbn [subsections flat_map py_in bind]. rewrite IH.
  destruct (fields !! subkey) as [v|] eqn:Hv; cbn.
  - rewrite Hv. reflexivity.
  - reflexivity.
Qed.

(** Whatever the debate state is, a part the loop appends is a
    sub-section. *)
Lemma subsections_inv (subkeys : list string) (ids : json) (parts : list string) :
  subsections repr subkeys ids = Ret parts ->
  forall part, In part parts -> exists subkey v, part = subsection repr subkey v.
Proof.
  revert parts. induction subkeys as [|subkey rest IH]; intros parts.
  - intros [= <-] part [].
  - cbn [subsections].
    destruct (py_in subkey ids) as [present|e]; [| discriminate].
    cbn [bind].
    destruct (subsections repr rest ids) as [tail|e'] eqn:Htail.
    + destruct present.
      * destruct (getitem ids subkey) as [v|e'']; [| discriminate].
        cbn [bind]. intros [= <-] part Hin.
        apply in_app_or in Hin. destruct Hin as [Hin | Hin].
        -- destruct (truthy v); [| contradiction].
           destruct Hin as [<- | []]. now exists subkey, v.
        -- now apply (IH tail).
      * cbn [bind]. intros [= <-] part Hin. now apply (IH tail).
    + destruct present.
      * destruct (getitem ids subkey) as [v|e'']; discriminate.
      * discriminate.
Qed.

Lemma opens_section_subsection (t subkey : string) (v : json) :
  opens_section t (subsection repr subkey v) = false.
Proof. reflexivity. Qed.

Lemma debate_inv (key heading : string) (subkeys : list string)
    (state : gmap string json) (parts : list string) (part : string) :
  debate repr key heading subkeys state = Ret parts ->
  In part parts ->
  state !! key <> None
  /\ (part = NL +:+ "---" +:+ NL +:+ "## " +:+ heading +:+ NL +:+ NL
      \/ exists subkey v, part = subsection repr subkey v).
Proof.
  unfold debate. destruct (state !! key) as [ids|] eqn:Hids.
  - destruct (subsections repr subkeys ids) as [subs|e] eqn:Hsubs; [| discriminate].
    cbn [bind]. intros [= <-] [<- | Hin]; (split; [discriminate |]).
    + now left.
    + right. now apply (subsections_inv subkeys ids subs).
  - intros [= <-] [].
Qed.

Lemma state_to_md_inv (state : gmap string json) (parts : list string) (part : string) :
  _state_to_md repr state = Ret parts ->
  In part parts ->
  startswith "**Company:** " part = true
  \/ (exists key v, In key (REPORT_KEYS ++ PLAN_KEYS) /\ state !! key = Some v
                    /\ truthy v = true /\ part = section repr key v)
  \/ (state !! "investment_debate_state" <> None
      /\ part = NL +:+ "---" +:+ NL +:+ "## Investment Debate" +:+ NL +:+ NL)
  \/ (state !! "risk_debate_state" <> None
      /\ part = NL +:+ "---" +:+ NL +:+ "## Risk Debate" +:+ NL +:+ NL)
  \/ (exists subkey v, part = subsection repr subkey v).
Proof.
  unfold _state_to_md. cbv zeta.
  destruct (debate repr "investment_debate_state" _ _ state) as [inv|e] eqn:Hinv;
    [| discriminate].
  destruct (debate repr "risk_debate_state" _ _ state) as [risk|e] eqn:Hrisk;
    [| discriminate].
  cbn [bind]. intros [= <-] [<- | Hin].
  - left. reflexivity.
  - right.
    apply in_app_or in Hin. destruct Hin as [Hin | Hin]; [| apply in_app_or in Hin].
    2: destruct Hin as [Hin | Hin]; [| apply in_app_or in Hin].
    3: destruct Hin as [Hin | Hin].
    + left. apply (sections_inv REPORT_KEYS state part) in Hin.
      destruct Hin as (key & v & Hk & ?).
      exists key, v. split; [apply in_or_app; now left | assumption].
    + right. destruct (debate_inv _ _ _ _ _ _ Hinv Hin) as [Hpresent [-> | Hsub]].
      * left. now split.
      * now right; right.
    + right. destruct (debate_inv _ _ _ _ _ _ Hrisk Hin) as [Hpresent [-> | Hsub]].
      * right. left. now split.
      * now right; right.
    + left. apply (sections_inv PLAN_KEYS state part) in Hin.
      destruct Hin as (key & v & Hk & ?).
      exists key, v. split; [apply in_or_app; now right | assumption].
Qed.

Lemma opens_section_header (t part : string) :
  startswith "**Company:** " part = true -> opens_section t part = false.
Proof.
  destruct part as [|c part]; [discriminate |].
  destruct c as [[] [] [] [] [] [] [] []];
    first [ reflexivity | intros H; discriminate H ].
Qed.

Lemma opens_section_section (key key' : string) (v : json) :
  In key OPTIONAL_KEYS -> In key' (REPORT_KEYS ++ PLAN_KEYS) ->
  opens_section (section_title key) (section repr key' v) = String.eqb key key'.
Proof.
  intros Hk Hk'. each_key Hk; each_key Hk'; reflexivity.
Qed.

Lemma opens_section_investment_heading (key : string) :
  In key OPTIONAL_KEYS ->
  opens_section (section_title key) INVESTMENT_HEADING
  = String.eqb key "investment_debate_state".
Proof.
  intros Hk. each_key Hk; reflexivity.
Qed.

Lemma opens_section_risk_heading (key : string) :
  In key OPTIONAL_KEYS ->
  opens_section (section_title key) RISK_HEADING
  = String.eqb key "risk_debate_state".
Proof.
  intros Hk. each_key Hk; reflexivity.
Qed.

Lemma left_out_text_key (state : gmap string json) (key : string) :
  In key (REPORT_KEYS ++ PLAN_KEYS) ->
  left_out state key = absent_or_empty state key.
Proof.
  intros Hk. each_key Hk; reflexivity.
Qed.

Lemma left_out_debate_key (state : gmap string json) (key : string) :
  In key DEBATE_KEYS -> left_out state key = true -> state !! key = None.
Proof.
  intros Hk. each_key Hk; unfold left_out, absent; cbn [existsb DEBATE_KEYS];
    (destruct (state !! _); [discriminate | reflexivity]).
Qed.

(** A field that is left out has no section in the rendering. *)
Lemma left_out_no_section (state : gmap string json) (key : string)
    (parts : list string) :
  In key OPTIONAL_KEYS ->
  left_out state key = true ->
  _state_to_md repr state = Ret parts ->
  has_section (section_title key) parts = false.
Proof.
  intros Hkey Hleft Hmd.
  destruct (has_section (section_title key) parts) eqn:Hhas; [| reflexivity].
  exfalso. unfold has_section in Hhas.
  apply existsb_exists in Hhas. destruct Hhas as (part & Hin & Hopen).
  destruct (state_to_md_inv state parts part Hmd Hin)
    as [Hhead | [(key' & v & Hk' & Hv & Ht & ->) | [[Hp ->] | [[Hp ->] | (sk & v & ->)]]]].
  - rewrite (opens_section_header _ _ Hhead) in Hopen. discriminate.
  - rewrite (opens_section_section key key' v Hkey Hk') in Hopen.
    apply String.eqb_eq in Hopen. subst key'.
    rewrite (left_out_text_key state key Hk') in Hleft.
    unfold absent_or_empty in Hleft. rewrite Hv, Ht in Hleft. discriminate.
  - change (NL +:+ "---" +:+ NL +:+ "## Investment Debate" +:+ NL +:+ NL)
      with INVESTMENT_HEADING in Hopen.
    rewrite (opens_section_investment_heading key Hkey) in Hopen.
    apply String.eqb_eq in Hopen. subst key.
    apply Hp. apply left_out_debate_key; [left; reflexivity | assumption].
  - change (NL +:+ "---" +:+ NL +:+ "## Risk Debate" +:+ NL +:+ NL)
      with RISK_HEADING in Hopen.
    rewrite (opens_section_risk_heading key Hkey) in Hopen.
    apply String.eqb_eq in Hopen. subst key.
    apply Hp. apply left_out_debate_key; [right; left; reflexivity | assumption].
  - rewrite opens_section_subsection in Hopen. discriminate.
Qed.

Lemma opens_subsection_subsection (subkeys : list string) (subkey subkey' : string)
    (v : json) :
  In subkeys [INVESTMENT_SUBKEYS; RISK_SUBKEYS] ->
  In subkey subkeys -> In subkey' subkeys ->
  opens_subsection (subsection_title subkey) (subsection repr subkey' v)
  = String.eqb subkey subkey'.
Proof.
  intros [<- | [<- | []]] Hk Hk'; each_key Hk; each_key Hk'; reflexivity.
Qed.

(** Rendering a snapshot whose debate states are nested maps returns. *)
Lemma state_to_md_returns (state : gmap string json) :
  debates_are_objects state = true -> returns (_state_to_md repr state).
Proof.
  unfold debates_are_objects. cbn [forallb DEBATE_KEYS].
  rewrite !andb_true_iff. intros (Hinv & Hrisk & _).
  unfold _state_to_md, debate. cbv zeta.
  destruct (state !! "investment_debate_state") as [[| | | | | |inv]|];
    try discriminate Hinv;
    destruct (state !! "risk_debate_state") as [[| | | | | |risk]|];
    try discriminate Hrisk;
    rewrite ?subsections_object; cbn [bind]; eexists; reflexivity.
Qed.

(** *** The body of a debate section *)

Lemma section_body_skip (t : string) (before rest : list string) :
  (forall part, In part before -> opens_section t part = false) ->
  section_body t (before ++ rest) = section_body t rest.
Proof.
  induction before as [|part before IH]; intros H; [reflexivity |].
  cbn [app section_body]. rewrite (H part (or_introl eq_refl)).
  apply IH. intros part' Hin. apply H. now right.
Qed.

Lemma until_next_section_skip (body rest : list string) :
  (forall part, In part body -> opens_a_section part = false) ->
  until_next_section (body ++ rest) = body ++ until_next_section rest.
Proof.
  induction body as [|part body IH]; intros H; [reflexivity |].
  cbn [app until_next_section]. rewrite (H part (or_introl eq_refl)).
  f_equal. apply IH. intros part' Hin. apply H. now right.
Qed.

Lemma until_next_section_stop (openers rest : list string) :
  (forall part, In part openers -> opens_a_section part = true) ->
  until_next_section rest = [] ->
  until_next_section (openers ++ rest) = [].
Proof.
  intros H Hrest. destruct openers as [|part openers]; [exact Hrest |].
  cbn [app until_next_section]. now rewrite (H part (or_introl eq_refl)).
Qed.

Lemma sections_open (keys : list string) (state : gmap string json) (part : string) :
  In part (sections repr keys state) -> opens_a_section part = true.
Proof.
  intros Hin. apply sections_inv in Hin.
  destruct Hin as (key & v & _ & _ & _ & ->). reflexivity.
Qed.

Lemma rendered_subfields_inv (subkeys : list string) (fields : gmap string json)
    (part : string) :
  In part (rendered_subfields repr subkeys fields) ->
  exists subkey v, In subkey subkeys /\ fields !! subkey = Some v
                   /\ truthy v = true /\ part = subsection repr subkey v.
Proof.
  unfold rendered_subfields. rewrite in_flat_map. intros (subkey & Hkey & Hpart).
  destruct (fields !! subkey) as [v|] eqn:Hv; [| contradiction].
  destruct (truthy v) eqn:Ht; [| contradiction].
  destruct Hpart as [<- | []]. now exists subkey, v.
Qed.

Lemma subsections_rendered (subkeys : list string) (fields : gmap string json) :
  subsections repr subkeys (JObj fields)
  = Ret (rendered_subfields repr subkeys fields).
Proof. apply subsections_object. Qed.

Lemma opens_section_company (t rest : string) :
  opens_section t ("**Company:** " +:+ rest) = false.
Proof. reflexivity. Qed.

(** What a debate contributes: nothing when its state is absent, its
    heading and the outcome of the loop over the sub-keys otherwise. *)
Lemma debate_shape (key heading : string) (subkeys : list string)
    (state : gmap string json) (parts : list string) :
  debate repr key heading subkeys state = Ret parts ->
  (state !! key = None /\ parts = [])
  \/ (exists ids subs,
        state !! key = Some ids
        /\ subsections repr subkeys ids = Ret subs
        /\ parts = (NL +:+ "---" +:+ NL +:+ "## " +:+ heading +:+ NL +:+ NL) :: subs).
Proof.
  unfold debate. destruct (state !! key) as [ids|].
  - destruct (subsections repr subkeys ids) as [subs|e] eqn:Hsubs; [| discriminate].
    cbn [bind]. intros H. injection H as <-. right.
    exists ids, subs. split; [reflexivity | split; [exact Hsubs | reflexivity]].
  - intros H. injection H as <-. left. split; reflexivity.
Qed.

Lemma subsections_not_openers (subkeys : list string) (ids : json)
    (subs : list string) (part : string) :
  subsections repr subkeys ids = Ret subs -> In part subs ->
  opens_a_section part = false /\ forall t, opens_section t part = false.
Proof.
  intros Hsubs Hin.
  destruct (subsections_inv subkeys ids subs Hsubs part Hin) as (subkey & v & ->).
  split; [reflexivity | intros t; reflexivity].
Qed.

(** In a rendering, the body of a debate section is the list of the
    sub-sections of its sub-fields that are present and not empty. *)
Lemma debate_section_body (state : gmap string json) (key : string)
    (subkeys : list string) (fields : gmap string json) (parts : list string) :
  In (key, subkeys) DEBATES ->
  state !! key = Some (JObj fields) ->
  _state_to_md repr state = Ret parts ->
  section_body (section_title key) parts = rendered_subfields repr subkeys fields.
Proof.
  intros Hdebate Hstate. unfold _state_to_md. cbv zeta.
  destruct (debate repr "investment_debate_state" _ _ state) as [inv|e] eqn:Hinv;
    [| discriminate].
  destruct (debate repr "risk_debate_state" _ _ state) as [risk|e] eqn:Hrisk;
    [| discriminate].
  cbn [bind]. intros Hparts.
  assert (Hp : forall a b : list string, Ret a = Ret b -> b = a) by congruence.
  apply Hp in Hparts. subst parts. clear Hp.
  assert (Hplan : until_next_section (sections repr PLAN_KEYS state) = []).
  { rewrite <- (app_nil_r (sections repr PLAN_KEYS state)).
    apply until_next_section_stop; [apply sections_open | reflexivity]. }
  assert (Hreports : forall t, In t ["Investment Debate"; "Risk Debate"] ->
            forall part, In part (sections repr REPORT_KEYS state) ->
                         opens_section t part = false).
  { intros t Ht part Hin. apply sections_inv in Hin.
    destruct Hin as (k & v & Hk & _ & _ & ->).
    each_key Ht; each_key Hk; reflexivity. }
  cbn [section_body].
  destruct Hdebate as [[= <- <-] | [[= <- <-] | []]].
  - (* the investment debate *)
    change (section_title "investment_debate_state") with "Investment Debate".
    rewrite opens_section_company.
    rewrite (section_body_skip "Investment Debate" _ _
               (Hreports "Investment Debate" (or_introl eq_refl))).
    destruct (debate_shape _ _ _ _ _ Hinv) as [[Hnone _] | (ids & subs & Hids & Hsubs & ->)];
      [congruence |].
    rewrite Hstate in Hids. injection Hids as <-.
    assert (Hs : subs = rendered_subfields repr INVESTMENT_SUBKEYS fields)
      by (rewrite subsections_rendered in Hsubs; congruence).
    subst subs.
    cbn [app section_body]. change (opens_section _ _) with true. cbv iota.
    rewrite until_next_section_skip.
    2: { intros part Hin.
         apply (rendered_subfields_inv INVESTMENT_SUBKEYS fields part) in Hin.
         destruct Hin as (sk & v & _ & _ & _ & ->). reflexivity. }
    destruct (debate_shape _ _ _ _ _ Hrisk) as [[_ ->] | (ids & subs & _ & _ & ->)].
    + cbn [app]. rewrite Hplan. apply app_nil_r.
    + cbn [app until_next_section]. change (opens_a_section _) with true.
      cbv iota. apply app_nil_r.
  - (* the risk debate *)
    change (section_title "risk_debate_state") with "Risk Debate".
    rewrite opens_section_company.
    rewrite (section_body_skip "Risk Debate" _ _
               (Hreports "Risk Debate" (or_intror (or_introl eq_refl)))).
    rewrite (section_body_skip "Risk Debate" inv).
    2: { intros part Hin.
         destruct (debate_shape _ _ _ _ _ Hinv)
           as [[_ ->] | (ids & subs & _ & Hsubs & ->)]; [contradiction |].
         destruct Hin as [<- | Hin]; [reflexivity |].
         now apply (subsections_not_openers _ _ _ _ Hsubs Hin). }
    destruct (debate_shape _ _ _ _ _ Hrisk) as [[Hnone _] | (ids & subs & Hids & Hsubs & ->)];
      [congruence |].
    rewrite Hstate in Hids. injection Hids as <-.
    assert (Hs : subs = rendered_subfields repr RISK_SUBKEYS fields)
      by (rewrite subsections_rendered in Hsubs; congruence).
    subst subs.
    cbn [app section_body]. change (opens_section _ _) with true. cbv iota.
    rewrite until_next_section_skip.
    2: { intros part Hin.
         apply (rendered_subfields_inv RISK_SUBKEYS fields part) in Hin.
         destruct Hin as (sk & v & _ & _ & _ & ->). reflexivity. }
    rewrite Hplan. apply app_nil_r.
Qed.

(** Inside the section of a debate, a sub-field that is absent or empty
    has no sub-section, and one that holds text has its own. *)
Lemma debate_subfields (state : gmap string json) (key : string)
    (subkeys : list string) (fields : gmap string json) (subkey : string)
    (parts : list string) :
  In (key, subkeys) DEBATES ->
  In subkey subkeys ->
  state !! key = Some (JObj fields) ->
  _state_to_md repr state = Ret parts ->
  (absent_or_empty fields subkey = true ->
   has_subsection (subsection_title subkey)
                  (section_body (section_title key) parts) = false)
  /\ (forall v, fields !! subkey = Some v -> truthy v = true ->
        In (subsection repr subkey v) (section_body (section_title key) parts)).
Proof.
  intros Hdebate Hkey Hstate Hmd.
  rewrite (debate_section_body state key subkeys fields parts Hdebate Hstate Hmd).
  assert (Hkeys : In subkeys [INVESTMENT_SUBKEYS; RISK_SUBKEYS]).
  { destruct Hdebate as [[= _ <-] | [[= _ <-] | []]]; [now left | now right; left]. }
  split.
  - intros Hempty.
    destruct (has_subsection _ _) eqn:Hhas; [| reflexivity].
    exfalso. unfold has_subsection in Hhas.
    apply existsb_exists in Hhas. destruct Hhas as (part & Hin & Hopen).
    apply rendered_subfields_inv in Hin.
    destruct Hin as (subkey' & v & Hkey' & Hv & Ht & ->).
    rewrite (opens_subsection_subsection subkeys subkey subkey' v Hkeys Hkey Hkey')
      in Hopen.
    apply String.eqb_eq in Hopen. subst subkey'.
    unfold absent_or_empty in Hempty. rewrite Hv, Ht in Hempty. discriminate.
  - intros v Hv Ht. unfold rendered_subfields. apply in_flat_map.
    exists subkey. split; [exact Hkey |]. rewrite Hv, Ht. now left.
Qed.

End Render.

(** C2, as stated, fails: a snapshot whose [risk_debate_state] is the
    empty map renders the Risk Debate heading with nothing under it. *)
Lemma empty_risk_debate_state_renders_heading :
  ~ (forall (repr : json -> string) (state : gmap string json) (key : string)
            (parts : list string),
        In key OPTIONAL_KEYS ->
        absent_or_empty state key = true ->
        _state_to_md repr state = Ret parts ->
        has_section (section_title key) parts = false).
Proof.
  intros H.
  specialize (H (fun _ => EmptyString) {[ "risk_debate_state" := JObj ∅ ]}
                "risk_debate_state"
                ["**Company:** N/A | **Trade Date:** N/A" +:+ NL; RISK_HEADING]).
  assert (Hkey : In "risk_debate_state" OPTIONAL_KEYS)
    by (cbn; right; right; right; right; right; left; reflexivity).
  specialize (H Hkey). vm_compute in H.
  specialize (H eq_refl eq_refl). discriminate H.
Qed.

(** C2 (amended): in the Markdown rendering of a snapshot,
    - an optional field that is left out --- a report or plan field that
      is absent or empty, a debate state that is absent --- has no
      section;
    - a sub-field of a debate state that is absent or empty has no
      sub-section in the section of that debate (while a sub-field that
      holds text has its own there);
    - in particular, for every snapshot that omits [risk_debate_state]
      (its debate states being nested maps), rendering returns and the
      rendered parts contain no Risk Debate section. *)
Theorem state_to_md_omits_missing_fields
    (repr : json -> string) (state : gmap string json) :
  (forall (key : string) (parts : list string),
      In key OPTIONAL_KEYS ->
      left_out state key = true ->
      _state_to_md repr state = Ret parts ->
      has_section (section_title key) parts = false)
  /\ (forall (key : string) (subkeys : list string) (fields : gmap string json)
             (subkey : string) (parts : list string),
         In (key, subkeys) DEBATES ->
         In subkey subkeys ->
         state !! key = Some (JObj fields) ->
         _state_to_md repr state = Ret parts ->
         (absent_or_empty fields subkey = true ->
          has_subsection (subsection_title subkey)
                         (section_body (section_title key) parts) = false)
         /\ (forall v, fields !! subkey = Some v -> truthy v = true ->
               In (subsection repr subkey v)
                  (section_body (section_title key) parts)))
  /\ (absent state "risk_debate_state" = true ->
      debates_are_objects state = true ->
      exists parts, _state_to_md repr state = Ret parts
                    /\ has_section "Risk Debate" parts = false).
Proof.
  split; [| split].
  - intros key parts. apply left_out_no_section.
  - intros key subkeys fields subkey parts. apply debate_subfields.
  - intros Habsent Htyped.
    destruct (state_to_md_returns repr state Htyped) as [parts Hparts].
    exists parts. split; [assumption |].
    apply (left_out_no_section repr state "risk_debate_state" parts);
      [ cbn; right; right; right; right; right; left; reflexivity
      | exact Habsent
      | assumption ].
Qed.

(** A snapshot without [risk_debate_state], and with an investment
    debate whose judge has not decided: no Risk Debate section, and no
    Judge Decision under the Investment Debate. *)
Lemma state_to_md_omits_missing_fields_witness :
  (exists parts,
     _state_to_md (fun _ => EmptyString)
       {[ "company_of_interest" := JStr "NVDA";
          "market_report" := JStr "Uptrend.";
          "news_report" := JStr "";
          "investment_debate_state" :=
            JObj {[ "bull_history" := JStr "Buy."; "judge_decision" := JStr "" ]} ]}
     = Ret parts
     /\ has_section "Risk Debate" parts = false)
  /\ has_subsection "Judge Decision"
       (section_body "Investment Debate"
          [ "**Company:** NVDA | **Trade Date:** N/A" +:+ NL;
            NL +:+ "---" +:+ NL +:+ "## Market Report" +:+ NL +:+ NL +:+ "Uptrend." +:+ NL;
            INVESTMENT_HEADING;
            "### Bull History" +:+ NL +:+ NL +:+ "Buy." +:+ NL +:+ NL ]) = false.
Proof.
  pose (state := ({[ "company_of_interest" := JStr "NVDA";
                     "market_report" := JStr "Uptrend.";
                     "news_report" := JStr "";
                     "investment_debate_state" :=
                       JObj {[ "bull_history" := JStr "Buy.";
                               "judge_decision" := JStr "" ]} ]}
                  : gmap string json)).
  destruct (state_to_md_omits_missing_fields (fun _ => EmptyString) state)
    as (_ & Hsub & Hrisk).
  split.
  - apply Hrisk; vm_compute; reflexivity.
  - apply (Hsub "investment_debate_state" INVESTMENT_SUBKEYS
                {[ "bull_history" := JStr "Buy."; "judge_decision" := JStr "" ]}
                "judge_decision");
      [ left; reflexivity
      | cbn; right; right; right; left; reflexivity
      | vm_compute; reflexivity
      | vm_compute; reflexivity
      | vm_compute; reflexivity ].
Defined.

End LogUtilsProofs.

(** ** The local-model utilities *)

Module LocalUtilsProofs.
Import Py LocalUtils.

Lemma not_both_missing_and_timeout (e : exn) :
  isinstance e TimeoutExpired = true -> isinstance e FileNotFoundError = false.
Proof.
  unfold isinstance. destruct (exn_cls e); try discriminate; reflexivity.
Qed.

Lemma check_ollama_health_returns (get : http_get) (base_url : string) :
  returns (check_ollama_health get base_url).
Proof.
  unfold check_ollama_health, try_except, bind, returns.
  destruct (get _ _) as [resp|e].
  - destruct (status_code resp =? 200); [| eexists; reflexivity].
    destruct (model_names resp) as [names|e]; [eexists; reflexivity |].
    destruct (isinstance e ConnectionError); [eexists; reflexivity |].
    destruct (isinstance e Timeout); eexists; reflexivity.
  - destruct (isinstance e ConnectionError); [eexists; reflexivity |].
    destruct (isinstance e Timeout); eexists; reflexivity.
Qed.

Lemma pull_ollama_model_returns (run : subprocess_run) (model_name : string) :
  returns (pull_ollama_model run model_name).
Proof.
  unfold pull_ollama_model, try_except, bind, returns.
  destruct (run _ _) as [result|e].
  - destruct (returncode result =? 0); eexists; reflexivity.
  - destruct (isinstance e FileNotFoundError); [eexists; reflexivity |].
    destruct (isinstance e TimeoutExpired); eexists; reflexivity.
Qed.

(** C3: [check_ollama_health] and [pull_ollama_model] never raise.
    Whatever the HTTP request or the [ollama] process does, each returns
    a (bool, message) pair; an unreachable server, a server timeout, a
    status other than 200, a missing [ollama] binary and a pull that
    exceeds the 600 second timeout are each reported as [False] with a
    message of their own, and the messages for the missing binary and
    for the timed-out pull differ. *)
Theorem ollama_utilities_report_failures
    (get : http_get) (run : subprocess_run) (base_url model_name : string) :
  returns (check_ollama_health get base_url)
  /\ returns (pull_ollama_model run model_name)
  /\ (forall e, get (base_url +:+ "/api/tags") 5 = Raise e ->
        isinstance e ConnectionError = true ->
        check_ollama_health get base_url
        = Ret (false, "Ollama server not reachable. Start with: ollama serve"))
  /\ (forall e, get (base_url +:+ "/api/tags") 5 = Raise e ->
        isinstance e ConnectionError = false ->
        isinstance e Timeout = true ->
        check_ollama_health get base_url = Ret (false, "Ollama server timed out"))
  /\ (forall resp, get (base_url +:+ "/api/tags") 5 = Ret resp ->
        status_code resp <> 200 ->
        check_ollama_health get base_url
        = Ret (false, "Ollama returned status " +:+ str_int (status_code resp)))
  /\ (forall e, run ["ollama"; "pull"; model_name] 600 = Raise e ->
        isinstance e FileNotFoundError = true ->
        pull_ollama_model run model_name
        = Ret (false, "ollama CLI not found. Install from: https://ollama.com"))
  /\ (forall e, run ["ollama"; "pull"; model_name] 600 = Raise e ->
        isinstance e TimeoutExpired = true ->
        pull_ollama_model run model_name
        = Ret (false, "Timed out pulling " +:+ model_name +:+ " (>10 min)"))
  /\ "ollama CLI not found. Install from: https://ollama.com"
     <> "Timed out pulling " +:+ model_name +:+ " (>10 min)".
Proof.
  split; [apply check_ollama_health_returns |].
  split; [apply pull_ollama_model_returns |].
  unfold check_ollama_health, pull_ollama_model, try_except, bind.
  repeat split.
  - intros e -> ->. reflexivity.
  - intros e -> -> ->. reflexivity.
  - intros resp -> Hcode. apply Z.eqb_neq in Hcode. rewrite Hcode. reflexivity.
  - intros e -> ->. reflexivity.
  - intros e -> Ht. rewrite (not_both_missing_and_timeout e Ht), Ht. reflexivity.
  - discriminate.
Qed.

Lemma ollama_utilities_report_failures_witness :
  pull_ollama_model (fun _ _ => Raise (Exn TimeoutExpired "timed out after 600 seconds"))
                    "qwen3:8b"
  = Ret (false, "Timed out pulling qwen3:8b (>10 min)").
Proof.
  destruct (ollama_utilities_report_failures
              (fun _ _ => Raise (Exn ConnectionError "refused"))
              (fun _ _ => Raise (Exn TimeoutExpired "timed out after 600 seconds"))
              DEFAULT_BASE_URL "qwen3:8b")
    as (_ & _ & _ & _ & _ & _ & Htimeout & _).
  apply (Htimeout (Exn TimeoutExpired "timed out after 600 seconds")); reflexivity.
Defined.

(** *** Model files *)

Lemma truthy_str_false (s : string) : truthy_str s = false <-> s = EmptyString.
Proof.
  unfold truthy_str. rewrite negb_false_iff. apply String.eqb_eq.
Qed.

Lemma truthy_str_true (s : string) : truthy_str s = true <-> s <> EmptyString.
Proof.
  unfold truthy_str. rewrite negb_true_iff. apply String.eqb_neq.
Qed.

(** C6: [validate_gguf_path] answers
    - (False, "No model path provided") for the empty path;
    - (False, "File not found: <path>") when the path is not an existing
      file, so (False, "File not found: /no/such/model.gguf") for the
      missing "/no/such/model.gguf";
    - (False, <message>) for an existing file that lacks the .gguf
      extension or is not readable;
    - (True, <message>) exactly when the path is non-empty, names an
      existing and readable file and carries the .gguf extension (the
      source compares the lowercased path, so every path that ends in
      ".gguf" as written qualifies). *)
Theorem validate_gguf_path_cases (fs : filesystem) (path : string) :
  validate_gguf_path fs EmptyString = (false, "No model path provided")
  /\ (path <> EmptyString -> isfile fs path = false ->
      validate_gguf_path fs path = (false, "File not found: " +:+ path))
  /\ (isfile fs "/no/such/model.gguf" = false ->
      validate_gguf_path fs "/no/such/model.gguf"
      = (false, "File not found: /no/such/model.gguf"))
  /\ (path <> EmptyString -> isfile fs path = true ->
      endswith ".gguf" (lower path) = false ->
      validate_gguf_path fs path
      = (false, "File does not have .gguf extension: " +:+ path))
  /\ (path <> EmptyString -> isfile fs path = true ->
      endswith ".gguf" (lower path) = true -> readable fs path = false ->
      validate_gguf_path fs path = (false, "File not readable: " +:+ path))
  /\ (fst (validate_gguf_path fs path) = true <->
      path <> EmptyString /\ isfile fs path = true
      /\ endswith ".gguf" (lower path) = true /\ readable fs path = true)
  /\ (path <> EmptyString -> isfile fs path = true ->
      endswith ".gguf" path = true -> readable fs path = true ->
      validate_gguf_path fs path
      = (true,
         "Valid GGUF file ("
           +:+ format_1f (fdiv (float_of_int (Z.of_N (getsize fs path)))
                               (float_of_int (1024 ^ 3)))
           +:+ " GB)")).
Proof.
  assert (Hext : endswith ".gguf" path = true -> endswith ".gguf" (lower path) = true)
    by apply (TextFacts.endswith_lower_plain ".gguf" path eq_refl).
  unfold validate_gguf_path. cbv zeta.
  split; [reflexivity |].
  split; [intros Hp Hf; apply truthy_str_true in Hp; rewrite Hp, Hf; reflexivity |].
  split; [intros Hf; cbn [truthy_str String.eqb negb]; rewrite Hf; reflexivity |].
  split; [intros Hp Hf He; apply truthy_str_true in Hp; rewrite Hp, Hf, He;
          reflexivity |].
  split; [intros Hp Hf He Hr; apply truthy_str_true in Hp; rewrite Hp, Hf, He, Hr;
          reflexivity |].
  split.
  - destruct (truthy_str path) eqn:Hp; cbn [negb fst].
    + apply truthy_str_true in Hp.
      destruct (isfile fs path); cbn [negb fst];
        [| split; [discriminate | intros (_ & H & _); discriminate H]].
      destruct (endswith ".gguf" (lower path)); cbn [negb fst];
        [| split; [discriminate | intros (_ & _ & H & _); discriminate H]].
      destruct (readable fs path); cbn [negb fst];
        [| split; [discriminate | intros (_ & _ & _ & H); discriminate H]].
      split; [intros _; repeat split; assumption | reflexivity].
    + apply truthy_str_false in Hp.
      split; [discriminate | intros (H & _); contradiction].
  - intros Hp Hf He Hr. apply truthy_str_true in Hp.
    rewrite Hp, Hf, (Hext He), Hr. reflexivity.
Qed.

Lemma validate_gguf_path_cases_witness :
  validate_gguf_path
    {| isfile := fun _ => false; readable := fun _ => false; getsize := fun _ => 0%N |}
    "/no/such/model.gguf"
  = (false, "File not found: /no/such/model.gguf").
Proof.
  destruct (validate_gguf_path_cases
              {| isfile := fun _ => false; readable := fun _ => false;
                 getsize := fun _ => 0%N |}
              "/no/such/model.gguf")
    as (_ & _ & Hmissing & _).
  apply Hmissing. reflexivity.
Defined.

(** [nearest_tenths] is a nearest integer to ten times the value
    [m * 2**e]: they differ by a half at most. *)
Lemma nearest_tenths_nearest (m : positive) (e : Z) :
  let k := nearest_tenths m e in
  (0 <= e -> k = 10 * Z.pos m * 2 ^ e)
  /\ (e < 0 -> Z.abs (2 * (10 * Z.pos m - k * 2 ^ (- e))) <= 2 ^ (- e)).
Proof.
  unfold nearest_tenths. destruct e as [|p|p]; cbv zeta.
  - split; [intros _; reflexivity | lia].
  - split; [intros _; reflexivity | lia].
  - split; [lia |]. intros _.
    change (- Z.neg p) with (Z.pos p).
    set (den := 2 ^ Z.pos p).
    assert (Hden : 0 < den) by (subst den; apply Z.pow_pos_nonneg; lia).
    set (num := 10 * Z.pos m).
    pose proof (Z.div_mod num den ltac:(lia)) as Hdm.
    pose proof (Z.mod_pos_bound num den Hden) as Hr.
    destruct (Z.compare_spec (2 * (num mod den)) den) as [Heq | Hlt | Hgt].
    + destruct (Z.even (num / den)); nia.
    + nia.
    + nia.
Qed.

(** The constants of the estimate are the ones written in the source:
    the float nearest to 1.15 and the float 1024^3. *)
Lemma estimate_constants :
  float_literal 115 2 = ONE_POINT_FIFTEEN /\ float_of_int GIB = TWO_POW_30.
Proof. split; vm_compute; reflexivity. Qed.

Lemma nearest_binary64_constants :
  nearest_binary64 115 100 ONE_POINT_FIFTEEN
  /\ nearest_binary64 (2 ^ 30) 1 TWO_POW_30
  /\ nearest_binary64 11 10 ONE_POINT_ONE
  /\ nearest_binary64 58 10 FIVE_POINT_EIGHT
  /\ nearest_binary64 207 10 TWENTY_POINT_SEVEN.
Proof. repeat split; vm_compute; congruence. Qed.

(** C9: for a path that does not name an existing file,
    [estimate_memory_usage] returns [None].  For a path that does, it
    returns the size in bytes times 1.15, divided by 1024^3 and rounded
    to one decimal place, in binary64 arithmetic: the factor is the
    float nearest to 1.15 (5179139571476070 * 2^-52), the divisor is
    2^30, and the rounding picks a nearest count of tenths of the
    quotient.  So an empty file is estimated at 0.0, a file of 5 GiB at
    5.8, one of 18 GiB at 20.7, and one of 1 GiB at 1.1 (the float
    factor lies just below 1.15). *)
Theorem estimate_memory_usage_spec (fs : filesystem) (model_path : string) :
  (isfile fs model_path = false -> estimate_memory_usage fs model_path = None)
  /\ (isfile fs model_path = true ->
      let size := Z.of_N (getsize fs model_path) in
      let size_gb := fdiv (fmul (float_of_int size) ONE_POINT_FIFTEEN) TWO_POW_30 in
      estimate_memory_usage fs model_path = Some (round1 size_gb)
      /\ (forall s m e, size_gb = S754_finite s m e ->
            exists k, (0 <= e -> k = 10 * Z.pos m * 2 ^ e)
                      /\ (e < 0 -> Z.abs (2 * (10 * Z.pos m - k * 2 ^ (- e))) <= 2 ^ (- e))
                      /\ round1 size_gb
                         = match k with
                           | Z.pos tenths =>
                               fdiv (S754_finite s tenths 0) (S754_finite false 10 0)
                           | _ => S754_zero s
                           end)
      /\ (size = 0 -> estimate_memory_usage fs model_path = Some (S754_zero false))
      /\ (size = 2 ^ 30 -> estimate_memory_usage fs model_path = Some ONE_POINT_ONE)
      /\ (size = 5 * 2 ^ 30 ->
          estimate_memory_usage fs model_path = Some FIVE_POINT_EIGHT)
      /\ (size = 18 * 2 ^ 30 ->
          estimate_memory_usage fs model_path = Some TWENTY_POINT_SEVEN))
  /\ nearest_binary64 115 100 ONE_POINT_FIFTEEN
  /\ nearest_binary64 (2 ^ 30) 1 TWO_POW_30
  /\ nearest_binary64 11 10 ONE_POINT_ONE
  /\ nearest_binary64 58 10 FIVE_POINT_EIGHT
  /\ nearest_binary64 207 10 TWENTY_POINT_SEVEN.
Proof.
  split; [| split; [| apply nearest_binary64_constants]].
  - unfold estimate_memory_usage. intros ->. reflexivity.
  - intros Hfile. cbv zeta.
    assert (Hestimate :
              estimate_memory_usage fs model_path
              = Some (round1 (fdiv (fmul (float_of_int (Z.of_N (getsize fs model_path)))
                                         ONE_POINT_FIFTEEN) TWO_POW_30))).
    { unfold estimate_memory_usage. rewrite Hfile. cbn [negb].
      destruct estimate_constants as [-> ->]. reflexivity. }
    split; [exact Hestimate |].
    split.
    + intros s m e ->. exists (nearest_tenths m e).
      destruct (nearest_tenths_nearest m e) as [Hpos Hneg].
      split; [exact Hpos | split; [exact Hneg | reflexivity]].
    + rewrite Hestimate.
      repeat split; intros ->; vm_compute; reflexivity.
Qed.

(** A file of 5 GiB is estimated at 5.8 GB. *)
Lemma estimate_memory_usage_spec_witness :
  estimate_memory_usage
    {| isfile := fun _ => true; readable := fun _ => true;
       getsize := fun _ => 5368709120%N |}
    "/models/Qwen3-8B-Q4_K_M.gguf"
  = Some (S754_finite false 6530219459687219 (-50)).
Proof.
  destruct (estimate_memory_usage_spec
              {| isfile := fun _ => true; readable := fun _ => true;
                 getsize := fun _ => 5368709120%N |}
              "/models/Qwen3-8B-Q4_K_M.gguf") as (_ & Hfile & _).
  destruct (Hfile eq_refl) as (_ & _ & _ & _ & Hfive & _).
  apply Hfive. reflexivity.
Defined.

(** A file of 3.4 GB (3,400,000,000 bytes) is estimated at 3.6 GB. *)
Example estimate_memory_usage_odd_size :
  estimate_memory_usage
    {| isfile := fun _ => true; readable := fun _ => true;
       getsize := fun _ => 3400000000%N |}
    "/models/Qwen3-4B-Q4_K_M.gguf"
  = Some (float_literal 36 1).
Proof. vm_compute. reflexivity. Qed.

Example validate_gguf_path_upper_case_extension :
  validate_gguf_path
    {| isfile := fun _ => true; readable := fun _ => true;
       getsize := fun _ => 5000000000%N |}
    "/models/QWEN3.GGUF"
  = (true, "Valid GGUF file (4.7 GB)").
Proof. vm_compute. reflexivity. Qed.

Example check_ollama_health_lists_models :
  check_ollama_health
    (fun _ _ => Ret {| status_code := 200; model_names := Ret ["qwen3:8b"; "qwen3:4b"] |})
    DEFAULT_BASE_URL
  = Ret (true, "Ollama running with 2 model(s): qwen3:8b, qwen3:4b").
Proof. vm_compute. reflexivity. Qed.

Example check_ollama_health_malformed_body :
  check_ollama_health
    (fun _ _ => Ret {| status_code := 200;
                       model_names := Raise (Exn KeyError "'name'") |})
    DEFAULT_BASE_URL
  = Ret (false, "Ollama health check failed: 'name'").
Proof. vm_compute. reflexivity. Qed.

End LocalUtilsProofs.

(** ** The llama.cpp client *)

Module LlamaCppProofs.
Import Py LlamaCpp.






Example get_llm_applies_defaults :
  exists llm_kwargs,
    get_llm {| llama_cpp_installed := true; langchain_community_installed := true;
               os_path_isfile := fun _ => Ret true |}
            {| model := "qwen3-8b"; base_url := None;
               kwargs := {[ "model_path" := VStr "/models/Qwen3-8B-Q4_K_M.gguf";
                            "n_ctx" := VInt 8192 ]} |}
    = Ret (ChatLlamaCpp llm_kwargs)
    /\ llm_kwargs !! "n_gpu_layers" = Some (VInt (-1))
    /\ llm_kwargs !! "n_ctx" = Some (VInt 8192)
    /\ llm_kwargs !! "n_batch" = Some (VInt 512)
    /\ llm_kwargs !! "verbose" = Some (VBool false)
    /\ llm_kwargs !! "temperature" = None.
Proof. eexists. split; [reflexivity |]. vm_compute. repeat split. Qed.

End LlamaCppProofs.

(** ** More on the mock router and the chat model *)

Module MockRouterFacts.
Import Py MockClient MockChat LogUtils PyFacts.

(** The canned responses of the table and the fallback are pairwise
    different texts. *)
Lemma responses_distinct : NoDup (map snd RULES ++ [FALLBACK]).
Proof. apply (bool_decide_unpack _). vm_compute. reflexivity. Qed.

Lemma first_match_in (rules : list ((string -> bool) * string)) (t : string) :
  In (first_match rules t) (map snd rules ++ [FALLBACK]).
Proof.
  induction rules as [|[p r] rest IH]; cbn [first_match map app].
  - left. reflexivity.
  - destruct (p t); [left; reflexivity | right; exact IH].
Qed.

Lemma first_match_fallback (rules : list ((string -> bool) * string)) (t : string) :
  NoDup (map snd rules ++ [FALLBACK]) ->
  (first_match rules t = FALLBACK
   <-> forallb (fun rule => negb (fst rule t)) rules = true).
Proof.
  induction rules as [|[p r] rest IH]; cbn [first_match map app forallb fst].
  - intros _. split; reflexivity.
  - intros Hnd. apply NoDup_cons in Hnd. destruct Hnd as [Hr Hnd].
    rewrite list_elem_of_In in Hr.
    destruct (p t); cbn [negb andb].
    + split; [| discriminate]. intros ->. exfalso. apply Hr.
      apply in_or_app. right. left. reflexivity.
    + now apply IH.
Qed.

Lemma first_match_at (rules : list ((string -> bool) * string)) (t : string)
    (i : nat) (p : string -> bool) (r : string) :
  NoDup (map snd rules ++ [FALLBACK]) ->
  rules !! i = Some (p, r) ->
  (first_match rules t = r
   <-> p t = true
       /\ forall j rule, (j < i)%nat -> rules !! j = Some rule -> fst rule t = false).
Proof.
  revert i. induction rules as [|[q r0] rest IH]; intros i Hnd Hi; [discriminate |].
  cbn [map app] in Hnd. apply NoDup_cons in Hnd. destruct Hnd as [Hr0 Hnd].
  rewrite list_elem_of_In in Hr0. cbn [snd] in Hr0.
  cbn [first_match]. destruct i as [|i].
  - injection Hi as -> ->. split.
    + intros H. destruct (p t) eqn:Hp.
      * split; [reflexivity | intros j rule Hj; lia].
      * exfalso. apply Hr0. rewrite <- H. apply first_match_in.
    + intros [-> _]. reflexivity.
  - change (rest !! i = Some (p, r)) in Hi.
    assert (Hr : In r (map snd rest)).
    { apply list_elem_of_lookup_2, list_elem_of_In in Hi.
      apply (in_map snd) in Hi. exact Hi. }
    split.
    + intros H. destruct (q t) eqn:Hq.
      * exfalso. apply Hr0. rewrite H. apply in_or_app. now left.
      * apply (IH i Hnd Hi) in H. destruct H as [Hp Hbefore].
        split; [exact Hp |]. intros [|j] rule Hj Hrule.
        -- injection Hrule as <-. exact Hq.
        -- apply (Hbefore j rule); [lia | exact Hrule].
    + intros [Hp Hbefore].
      pose proof (Hbefore 0%nat (q, r0) ltac:(lia) eq_refl) as Hq.
      cbn [fst] in Hq. rewrite Hq.
      apply (IH i Hnd Hi). split; [exact Hp |].
      intros j rule Hj Hrule. apply (Hbefore (S j) rule); [lia | exact Hrule].
Qed.

(** X1: first match wins, and only the first match.  The router
    answers with the response of a rule of the table exactly when that
    rule matches the lowercased prompt and no rule above it does; it
    answers with the fallback exactly when no rule matches. *)
Theorem route_first_match_only (text : string) :
  (forall (i : nat) (predicate : string -> bool) (response : string),
      RULES !! i = Some (predicate, response) ->
      (_route_response text = response
       <-> predicate (lower text) = true
           /\ forall j rule, (j < i)%nat -> RULES !! j = Some rule ->
                             fst rule (lower text) = false))
  /\ (_route_response text = FALLBACK <-> no_rule_matches text = true).
Proof.
  split.
  - intros i predicate response Hi.
    apply (first_match_at RULES (lower text) i predicate response
                          responses_distinct Hi).
  - apply (first_match_fallback RULES (lower text) responses_distinct).
Qed.

Lemma route_first_match_only_witness :
  _route_response "You are a bull analyst; earlier: the bear analyst said no."
  = MOCK_BULL_ARGUMENT.
Proof.
  destruct (route_first_match_only
              "You are a bull analyst; earlier: the bear analyst said no.")
    as [Hrule _].
  apply (Hrule 5%nat (fun t => contains "bull analyst" t) MOCK_BULL_ARGUMENT eq_refl).
  split; [vm_compute; reflexivity |].
  intros j rule Hj Hrule_j.
  do 5 (destruct j as [|j]; [injection Hrule_j as <-; vm_compute; reflexivity |]).
  lia.
Defined.

(** X2: the mock only ever says BUY.  Every response is one of the
    fifteen texts of the table and the fallback, none of which carries
    the sentinel phrase with SELL or HOLD or is the bare token SELL or
    HOLD. *)
Theorem route_never_sells_or_holds (text : string) :
  In (_route_response text) (map snd RULES ++ [FALLBACK])
  /\ contains (sentinel "SELL") (_route_response text) = false
  /\ contains (sentinel "HOLD") (_route_response text) = false
  /\ _route_response text <> "SELL"
  /\ _route_response text <> "HOLD".
Proof.
  pose proof (first_match_in RULES (lower text)) as Hin.
  change (first_match RULES (lower text)) with (_route_response text) in Hin.
  split; [exact Hin |].
  assert (Hall : forallb (fun r => negb (contains (sentinel "SELL") r)
                                   && negb (contains (sentinel "HOLD") r)
                                   && negb (String.eqb r "SELL")
                                   && negb (String.eqb r "HOLD"))
                         (map snd RULES ++ [FALLBACK]) = true)
    by (vm_compute; reflexivity).
  rewrite forallb_forall in Hall. specialize (Hall _ Hin).
  rewrite !andb_true_iff, !negb_true_iff in Hall.
  destruct Hall as [[[Hs Hh] Hes] Heh].
  repeat split; try assumption; now apply String.eqb_neq.
Qed.

(** X3: the word "analyst" shadows the sentiment rule: a prompt that
    mentions it, in any letter case, is never answered with the
    sentiment report. *)
Theorem analyst_prompt_never_gets_sentiment_report (text : string) :
  contains "analyst" (lower text) = true ->
  _route_response text <> MOCK_SENTIMENT_REPORT.
Proof.
  intros Hanalyst Hroute.
  apply (first_match_at RULES (lower text) 2 _ MOCK_SENTIMENT_REPORT
                        responses_distinct eq_refl) in Hroute.
  destruct Hroute as [Hp _]. cbv beta in Hp.
  rewrite Hanalyst, andb_false_r in Hp. discriminate Hp.
Qed.

Lemma analyst_prompt_never_gets_sentiment_report_witness :
  _route_response "You are a Social Media Analyst studying sentiment"
  <> MOCK_SENTIMENT_REPORT.
Proof.
  apply (analyst_prompt_never_gets_sentiment_report
           "You are a Social Media Analyst studying sentiment").
  vm_compute. reflexivity.
Defined.

Lemma join_split (sep : string) (parts : list string) (p : string) :
  In p parts -> exists before after, join sep parts = before +:+ p +:+ after.
Proof.
  induction parts as [|q rest IH]; [intros [] |].
  destruct rest as [|q' rest].
  - intros [-> | []]. exists EmptyString, EmptyString.
    now rewrite append_empty_r.
  - change (join sep (q :: q' :: rest)) with (q +:+ sep +:+ join sep (q' :: rest)).
    intros [-> | Hin].
    + now exists EmptyString, (sep +:+ join sep (q' :: rest)).
    + destruct (IH Hin) as (before & after & ->).
      exists (q +:+ sep +:+ before), after. now rewrite !append_assoc.
Qed.

(** ASCII text found in the lowercasing of an item is found in the
    lowercasing of the joined items. *)
Lemma contains_lower_join (sub sep : string) (parts : list string) (p : string) :
  TextVocabulary.all_ascii sub = true -> sub <> EmptyString ->
  In p parts -> contains sub (lower p) = true ->
  contains sub (lower (join sep parts)) = true.
Proof.
  intros Hascii Hne Hin Hp.
  destruct (join_split sep parts p Hin) as (before & after & ->).
  now apply TextFacts.contains_lower_context.
Qed.

(** X4: the extraction rule fires wherever the phrase stands: a
    prompt that asks to extract the investment decision still gets the
    bare BUY after any text is put before it and after it. *)
Theorem extract_decision_in_any_context (before text after : string) :
  contains "extract the investment decision" (lower text) = true ->
  _route_response (before +:+ text +:+ after) = "BUY".
Proof.
  intros H. unfold _route_response. cbv zeta.
  rewrite (TextFacts.contains_lower_context
             "extract the investment decision" before text after
             eq_refl ltac:(discriminate) H).
  reflexivity.
Qed.

Lemma extract_decision_in_any_context_witness :
  _route_response
    ("You are a bull analyst. " +:+ "Extract the Investment Decision"
       +:+ " from this news researcher report.")
  = "BUY".
Proof.
  apply (extract_decision_in_any_context
           "You are a bull analyst. " "Extract the Investment Decision"
           " from this news researcher report.").
  vm_compute. reflexivity.
Defined.

(** *** The chat model *)

Lemma str_items_texts (i : nat) (texts : list string) :
  str_items i (map JStr texts) = Ret texts.
Proof.
  revert i. induction texts as [|s texts IH]; intros i; [reflexivity |].
  cbn [map str_items]. rewrite IH. reflexivity.
Qed.

Lemma text_message_parts (texts : list string) :
  flat_map message_parts (map text_message texts) = map JStr texts.
Proof.
  induction texts as [|s texts IH]; [reflexivity |].
  cbn [map flat_map]. rewrite IH. reflexivity.
Qed.

Lemma str_items_in (i : nat) (parts : list json) (items : list string) (s : string) :
  str_items i parts = Ret items -> In (JStr s) parts -> In s items.
Proof.
  revert i items. induction parts as [|v parts IH]; intros i items; [intros _ [] |].
  destruct v; cbn [str_items]; try discriminate.
  destruct (str_items (S i) parts) as [tail|e] eqn:Htail; [| discriminate].
  cbn [bind]. intros [= <-] [Hhead | Hin].
  - injection Hhead as ->. now left.
  - right. now apply (IH (S i)).
Qed.

Lemma str_items_raises (i : nat) (parts : list json) (v : json) :
  In v parts -> is_str v = false ->
  exists e, str_items i parts = Raise e /\ exn_cls e = TypeError.
Proof.
  revert i. induction parts as [|w parts IH]; intros i; [intros [] |].
  intros [-> | Hin] Hv.
  - destruct v; try discriminate Hv; eexists; split; reflexivity.
  - destruct (IH (S i) Hin Hv) as (e & He & Hcls).
    destruct w; try (eexists; split; reflexivity).
    exists e. cbn [str_items]. rewrite He. split; [reflexivity | exact Hcls].
Qed.

(** X5: a chat is a request for the decision as soon as one of its
    text messages is.  When the prompt text can be assembled and some
    message with a string content asks, in any letter case, to extract
    the investment decision, the model replies with the bare BUY,
    whatever the other messages say. *)
Theorem generate_extracts_decision
    (messages : list BaseMessage) (prompt_text s : string) :
  _extract_text messages = Ret prompt_text ->
  In (text_message s) messages ->
  contains "extract the investment decision" (lower s) = true ->
  reply (_generate messages) = Some "BUY".
Proof.
  intros Hprompt Hin Hs. unfold _generate. rewrite Hprompt. cbn [bind reply].
  unfold _extract_text in Hprompt. cbv zeta in Hprompt.
  destruct (str_items 0 (flat_map message_parts messages)) as [items|e] eqn:Hitems;
    [| discriminate].
  cbn [bind] in Hprompt. injection Hprompt as <-.
  assert (Hitem : In s items).
  { apply (str_items_in 0 _ items s Hitems).
    apply in_flat_map. exists (text_message s). split; [exact Hin | now left]. }
  cbn [ai_content message]. f_equal.
  unfold _route_response. cbv zeta.
  rewrite (contains_lower_join "extract the investment decision" " " items s
             eq_refl ltac:(discriminate) Hitem Hs).
  reflexivity.
Qed.

Lemma generate_extracts_decision_witness :
  reply (_generate [ text_message "You are a trading agent.";
                     {| content := Some (JArr [JObj {[ "text" := JStr "BUY now" ]}]) |};
                     text_message "Extract the investment decision: SELL, BUY or HOLD." ])
  = Some "BUY".
Proof.
  apply (generate_extracts_decision _
           "You are a trading agent. BUY now Extract the investment decision: SELL, BUY or HOLD."
           "Extract the investment decision: SELL, BUY or HOLD.").
  - vm_compute. reflexivity.
  - right. right. left. reflexivity.
  - vm_compute. reflexivity.
Defined.

(** X6: for messages with plain string contents the prompt text is the
    contents joined by single spaces (the empty text for no message at
    all), and the reply is the router's answer to that text. *)
Theorem generate_on_text_messages (texts : list string) :
  _extract_text (map text_message texts) = Ret (join " " texts)
  /\ reply (_generate (map text_message texts))
     = Some (_route_response (join " " texts))
  /\ reply (_generate []) = Some FALLBACK.
Proof.
  assert (H : _extract_text (map text_message texts) = Ret (join " " texts)).
  { unfold _extract_text. cbv zeta.
    rewrite text_message_parts, str_items_texts. reflexivity. }
  split; [exact H |]. split.
  - unfold _generate. rewrite H. reflexivity.
  - vm_compute. reflexivity.
Qed.

(** X7: a list item that is a [dict] whose [text] entry is not a
    string makes [_extract_text], and with it [_generate], raise a
    [TypeError]: the entry is collected as it is and [join] rejects
    it. *)
Theorem extract_text_rejects_non_string_text
    (messages : list BaseMessage) (m : BaseMessage) (items : list json)
    (fields : gmap string json) (v : json) :
  In m messages ->
  content m = Some (JArr items) ->
  In (JObj fields) items ->
  fields !! "text" = Some v ->
  is_str v = false ->
  exists e, exn_cls e = TypeError
            /\ _extract_text messages = Raise e
            /\ _generate messages = Raise e.
Proof.
  intros Hm Hcontent Hitem Htext Hv.
  assert (Hpart : In v (flat_map message_parts messages)).
  { apply in_flat_map. exists m. split; [exact Hm |].
    unfold message_parts. rewrite Hcontent. cbn [default].
    apply in_flat_map. exists (JObj fields). split; [exact Hitem |].
    rewrite Htext. now left. }
  destruct (str_items_raises 0 _ v Hpart Hv) as (e & He & Hcls).
  exists e. split; [exact Hcls |].
  assert (Hextract : _extract_text messages = Raise e).
  { unfold _extract_text. cbv zeta. rewrite He. reflexivity. }
  split; [exact Hextract |].
  unfold _generate. rewrite Hextract. reflexivity.
Qed.

Lemma extract_text_rejects_non_string_text_witness :
  exists e, exn_cls e = TypeError
            /\ _extract_text
                 [ text_message "hello";
                   {| content := Some (JArr [JObj {[ "text" := JNull ]}]) |} ]
               = Raise e
            /\ _generate
                 [ text_message "hello";
                   {| content := Some (JArr [JObj {[ "text" := JNull ]}]) |} ]
               = Raise e.
Proof.
  apply (extract_text_rejects_non_string_text
           _ {| content := Some (JArr [JObj {[ "text" := JNull ]}]) |}
           [JObj {[ "text" := JNull ]}] {[ "text" := JNull ]} JNull).
  - right. left. reflexivity.
  - reflexivity.
  - left. reflexivity.
  - reflexivity.
  - reflexivity.
Defined.

End MockRouterFacts.

(** ** More on the local-model utilities *)

Module LocalModelsFacts.
Import Py LocalUtils LocalModels PyFacts.

(** *** Looking a model up *)

Lemma any_in_found (model_name : string) (available : list LogUtils.json) :
  any_in model_name available = Ret true <-> first_found model_name available.
Proof.
  induction available as [|name rest IH]; cbn [any_in].
  - split; [discriminate | intros (i & n & H & _); destruct i; discriminate H].
  - destruct (LogUtils.py_in model_name name) as [[|]|e] eqn:Hname; cbn [bind].
    + split; [| reflexivity]. intros _.
      exists 0%nat, name. split; [reflexivity |]. split; [exact Hname |].
      intros j other Hj. lia.
    + rewrite IH. split.
      * intros (i & n & Hi & Hn & Hbefore).
        exists (S i), n. split; [exact Hi |]. split; [exact Hn |].
        intros [|j] other Hj Hother.
        -- injection Hother as <-. exact Hname.
        -- apply (Hbefore j other); [lia | exact Hother].
      * intros ([|i] & n & Hi & Hn & Hbefore).
        -- injection Hi as <-. congruence.
        -- exists i, n. split; [exact Hi |]. split; [exact Hn |].
           intros j other Hj Hother. apply (Hbefore (S j) other); [lia | exact Hother].
    + split; [discriminate |].
      intros ([|i] & n & Hi & Hn & Hbefore).
      * injection Hi as <-. congruence.
      * specialize (Hbefore 0%nat name ltac:(lia) eq_refl). congruence.
Qed.

Lemma check_ollama_model_returns (get : tags_get) (model_name base_url : string) :
  exists found, check_ollama_model get model_name base_url = Ret found.
Proof.
  unfold check_ollama_model, try_except.
  destruct (bind (get _ _) _) as [[found|]|e]; eexists; reflexivity.
Qed.

Lemma check_ollama_model_found (get : tags_get) (model_name base_url : string) :
  check_ollama_model get model_name base_url = Ret true
  <-> exists resp body models items available,
        get (base_url +:+ "/api/tags") 5 = Ret resp
        /\ tags_status resp = 200
        /\ tags_json resp = Ret body
        /\ get_models body = Ret models
        /\ iterate models = Ret items
        /\ names_of items = Ret available
        /\ first_found model_name available.
Proof.
  unfold check_ollama_model, try_except.
  destruct (get _ _) as [resp|e] eqn:Hget; cbn [bind].
  2: { split; [discriminate | intros (? & ? & ? & ? & ? & H & _); discriminate H]. }
  destruct (tags_status resp =? 200) eqn:Hcode.
  2: { apply Z.eqb_neq in Hcode. split; [discriminate |].
       intros (? & ? & ? & ? & ? & [= <-] & H & _). contradiction. }
  apply Z.eqb_eq in Hcode.
  destruct (tags_json resp) as [body|e] eqn:Hbody; cbn [bind].
  2: { split; [discriminate |].
       intros (? & ? & ? & ? & ? & [= <-] & _ & H & _). congruence. }
  destruct (get_models body) as [models|e] eqn:Hmodels; cbn [bind].
  2: { split; [discriminate |].
       intros (? & ? & ? & ? & ? & [= <-] & _ & H1 & H2 & _). congruence. }
  destruct (iterate models) as [items|e] eqn:Hitems; cbn [bind].
  2: { split; [discriminate |].
       intros (? & ? & ? & ? & ? & [= <-] & _ & H1 & H2 & H3 & _). congruence. }
  destruct (names_of items) as [available|e] eqn:Havailable; cbn [bind].
  2: { split; [discriminate |].
       intros (? & ? & ? & ? & ? & [= <-] & _ & H1 & H2 & H3 & H4 & _). congruence. }
  destruct (any_in model_name available) as [found|e] eqn:Hany; cbn [bind].
  - split.
    + intros [= ->]. apply any_in_found in Hany.
      now exists resp, body, models, items, available.
    + intros (? & ? & ? & ? & ? & [= <-] & _ & H1 & H2 & H3 & H4 & Hfound).
      assert (body = x0) by congruence. subst x0.
      assert (models = x1) by congruence. subst x1.
      assert (items = x2) by congruence. subst x2.
      assert (available = x3) by congruence. subst x3.
      apply any_in_found in Hfound. congruence.
  - split; [discriminate |].
    intros (? & ? & ? & ? & ? & [= <-] & _ & H1 & H2 & H3 & H4 & Hfound).
    assert (body = x0) by congruence. subst x0.
    assert (models = x1) by congruence. subst x1.
    assert (items = x2) by congruence. subst x2.
    assert (available = x3) by congruence. subst x3.
    apply any_in_found in Hfound. congruence.
Qed.

(** X8: [check_ollama_model] never raises.  It answers [True] exactly
    when the server answers with status 200, the body decodes, the
    names of its models can all be read, and the name asked for is
    found in one of them with none of the names before it raising
    under [in]; in every other case it answers [False]. *)
Theorem check_ollama_model_verdict
    (get : tags_get) (model_name base_url : string) :
  exists found,
    check_ollama_model get model_name base_url = Ret found
    /\ (found = true
        <-> exists resp body models items available,
              get (base_url +:+ "/api/tags") 5 = Ret resp
              /\ tags_status resp = 200
              /\ tags_json resp = Ret body
              /\ get_models body = Ret models
              /\ iterate models = Ret items
              /\ names_of items = Ret available
              /\ first_found model_name available).
Proof.
  destruct (check_ollama_model_returns get model_name base_url) as [found Hfound].
  exists found. split; [exact Hfound |].
  rewrite <- check_ollama_model_found, Hfound.
  split; [now intros -> | now intros [= ->]].
Qed.

(** *** A well-formed listing *)

Lemma names_of_listing (items : list LogUtils.json) (names : list string) :
  Forall2 (fun item name =>
             exists card, item = LogUtils.JObj card
                          /\ card !! "name" = Some (LogUtils.JStr name))
          items names ->
  names_of items = Ret (map LogUtils.JStr names).
Proof.
  induction 1 as [|item name items names (card & -> & Hname) _ IH]; [reflexivity |].
  cbn [names_of LogUtils.getitem map]. rewrite Hname. cbn [bind].
  now rewrite IH.
Qed.

Lemma any_in_strings (model_name : string) (names : list string) :
  any_in model_name (map LogUtils.JStr names)
  = Ret (existsb (fun name => contains model_name name) names).
Proof.
  induction names as [|name names IH]; [reflexivity |].
  cbn [map any_in LogUtils.py_in bind existsb].
  destruct (contains model_name name); [reflexivity | exact IH].
Qed.

Lemma check_ollama_model_listing
    (get : tags_get) (model_name base_url : string) (resp : TagsResponse)
    (body : LogUtils.json) (names : list string) :
  get (base_url +:+ "/api/tags") 5 = Ret resp ->
  tags_status resp = 200 ->
  tags_json resp = Ret body ->
  lists_models body names ->
  check_ollama_model get model_name base_url
  = Ret (existsb (fun name => contains model_name name) names).
Proof.
  intros Hget Hcode Hbody (fields & items & -> & Hmodels & Hitems).
  unfold check_ollama_model, try_except.
  rewrite Hget. cbn [bind]. rewrite Hcode, Z.eqb_refl, Hbody. cbn [bind get_models].
  rewrite Hmodels. cbn [from_option id bind iterate].
  rewrite (names_of_listing items names Hitems). cbn [bind].
  rewrite any_in_strings. reflexivity.
Qed.

(** X10: on a server whose listing is well formed --- status 200 and a
    body whose [models] is a list of objects with a [str] name each ---
    a model is found exactly when the name asked for is a substring of
    a listed name; so when a name is found, every name contained in it
    is found too. *)
Theorem shorter_model_name_still_found
    (get : tags_get) (base_url : string) (resp : TagsResponse)
    (body : LogUtils.json) (names : list string) :
  get (base_url +:+ "/api/tags") 5 = Ret resp ->
  tags_status resp = 200 ->
  tags_json resp = Ret body ->
  lists_models body names ->
  (forall model_name,
      check_ollama_model get model_name base_url = Ret true
      <-> exists name, In name names /\ contains model_name name = true)
  /\ (forall longer shorter,
        contains shorter longer = true ->
        check_ollama_model get longer base_url = Ret true ->
        check_ollama_model get shorter base_url = Ret true).
Proof.
  intros Hget Hcode Hbody Hlist.
  assert (Hiff : forall model_name,
             check_ollama_model get model_name base_url = Ret true
             <-> exists name, In name names /\ contains model_name name = true).
  { intros model_name.
    rewrite (check_ollama_model_listing get model_name base_url resp body names
               Hget Hcode Hbody Hlist).
    split.
    - intros [= H]. apply existsb_exists in H. exact H.
    - intros H. apply existsb_exists in H. f_equal. exact H. }
  split; [exact Hiff |].
  intros longer shorter Hsub. rewrite !Hiff.
  intros (name & Hin & Hname). exists name. split; [exact Hin |].
  now apply (contains_trans shorter longer name).
Qed.

Lemma shorter_model_name_still_found_witness :
  check_ollama_model
    (fun _ _ =>
       Ret {| tags_status := 200;
              tags_json :=
                Ret (LogUtils.JObj
                       {[ "models" :=
                            LogUtils.JArr
                              [ LogUtils.JObj {[ "name" := LogUtils.JStr "llama3:8b" ]};
                                LogUtils.JObj {[ "name" := LogUtils.JStr "qwen3:30b-a3b";
                                                 "size" := LogUtils.JInt 18556700761 ]} ]
                       ]}) |})
    "qwen3" DEFAULT_BASE_URL
  = Ret true.
Proof.
  pose (body := LogUtils.JObj
                  {[ "models" :=
                       LogUtils.JArr
                         [ LogUtils.JObj {[ "name" := LogUtils.JStr "llama3:8b" ]};
                           LogUtils.JObj {[ "name" := LogUtils.JStr "qwen3:30b-a3b";
                                            "size" := LogUtils.JInt 18556700761 ]} ]
                  ]}).
  pose (resp := {| tags_status := 200; tags_json := Ret body |}).
  assert (Hlist : lists_models body ["llama3:8b"; "qwen3:30b-a3b"]).
  { eexists _, _. split; [reflexivity |]. split; [vm_compute; reflexivity |].
    repeat constructor; eexists; (split; [reflexivity | vm_compute; reflexivity]). }
  destruct (shorter_model_name_still_found
              (fun _ _ => Ret resp) DEFAULT_BASE_URL resp body
              ["llama3:8b"; "qwen3:30b-a3b"] eq_refl eq_refl eq_refl Hlist)
    as [_ Hshorter].
  apply (Hshorter "qwen3:30b" "qwen3"); vm_compute; reflexivity.
Defined.

(** A name that is no text is searched by membership, and the search
    stops at the first hit: the listing below has the model although
    its second name would raise under [in]. *)
Example check_ollama_model_stops_at_first_hit :
  check_ollama_model
    (fun _ _ =>
       Ret {| tags_status := 200;
              tags_json :=
                Ret (LogUtils.JObj
                       {[ "models" :=
                            LogUtils.JArr
                              [ LogUtils.JObj {[ "name" := LogUtils.JStr "qwen3:8b" ]};
                                LogUtils.JObj {[ "name" := LogUtils.JInt 5 ]} ]
                       ]}) |})
    "qwen3" DEFAULT_BASE_URL
  = Ret true.
Proof. vm_compute. reflexivity. Qed.

(** *** Recommendations *)

Lemma fitting_filter (models : list (gmap string string)) (budget : float) :
  Forall (fun model => is_Some (model !! "size")) models ->
  fitting models budget = Ret (List.filter (fits budget) models).
Proof.
  induction 1 as [|model models [label Hlabel] _ IH]; [reflexivity |].
  cbn [fitting List.filter]. rewrite IH.
  unfold fits, size_of, model_size, dict_getitem. rewrite Hlabel. reflexivity.
Qed.

Lemma model_card_size (name ollama gguf size description : string) :
  model_card name ollama gguf size description !! "size" = Some size.
Proof.
  unfold model_card.
  rewrite lookup_insert_ne by discriminate. apply lookup_insert_eq.
Qed.

Lemma quick_think_models : tier_models "quick_think" = [QWEN3_8B; QWEN3_4B].
Proof.
  unfold tier_models, RECOMMENDED_MODELS_32GB.
  rewrite lookup_insert_ne by discriminate. now rewrite lookup_insert_eq.
Qed.

Lemma deep_think_models : tier_models "deep_think" = [QWEN3_30B_A3B; QWEN3_14B].
Proof.
  unfold tier_models, RECOMMENDED_MODELS_32GB. now rewrite lookup_insert_eq.
Qed.

Lemma all_models : ALL_MODELS = [QWEN3_8B; QWEN3_4B; QWEN3_30B_A3B; QWEN3_14B].
Proof.
  change ALL_MODELS with (tier_models "quick_think" ++ tier_models "deep_think").
  now rewrite quick_think_models, deep_think_models.
Qed.

Lemma table_sizes :
  size_of QWEN3_8B = Some (float_of_int 5)
  /\ size_of QWEN3_4B = Some (float_of_int 3)
  /\ size_of QWEN3_30B_A3B = Some (float_of_int 18)
  /\ size_of QWEN3_14B = Some (float_of_int 9).
Proof.
  unfold size_of, model_size, dict_getitem, QWEN3_8B, QWEN3_4B, QWEN3_30B_A3B, QWEN3_14B.
  rewrite !model_card_size. cbn [bind]. repeat split.
Qed.

Lemma tier_models_have_sizes (tier : string) :
  In tier ["quick_think"; "deep_think"] ->
  Forall (fun model => is_Some (model !! "size")) (tier_models tier).
Proof.
  intros [<- | [<- | []]]; rewrite ?quick_think_models, ?deep_think_models;
    repeat constructor; eexists; apply model_card_size.
Qed.

(** What the two loops compute, for any budget. *)
Lemma recommendations_by_tier (available_ram_gb : float) :
  let budget := fmul available_ram_gb (float_literal 8 1) in
  exists result,
    get_model_recommendations available_ram_gb = Ret result
    /\ result !! "quick_think"
       = Some (List.filter (fits budget) (tier_models "quick_think"))
    /\ result !! "deep_think"
       = Some (List.filter (fits budget) (tier_models "deep_think"))
    /\ forall tier, tier <> "quick_think" -> tier <> "deep_think" ->
                    result !! tier = None.
Proof.
  intros budget. unfold get_model_recommendations. fold budget.
  cbn [fill_tiers].
  assert (Htable : forall tier, In tier ["quick_think"; "deep_think"] ->
            dict_getitem RECOMMENDED_MODELS_32GB tier = Ret (tier_models tier)).
  { intros tier [<- | [<- | []]]; unfold dict_getitem, tier_models,
      RECOMMENDED_MODELS_32GB;
      rewrite ?(lookup_insert_ne _ "deep_think" "quick_think") by discriminate;
      now rewrite lookup_insert_eq. }
  rewrite !Htable by (cbn; tauto).
  cbn [bind].
  rewrite (fitting_filter (tier_models "quick_think") budget)
    by (apply tier_models_have_sizes; left; reflexivity).
  rewrite (fitting_filter (tier_models "deep_think") budget)
    by (apply tier_models_have_sizes; right; left; reflexivity).
  cbn [bind]. unfold dict_getitem.
  rewrite lookup_insert_ne by discriminate. rewrite lookup_insert_eq. cbn [bind].
  rewrite lookup_insert_ne by discriminate.
  rewrite lookup_insert_eq. cbn [bind app].
  eexists. split; [reflexivity |].
  split; [| split].
  - rewrite lookup_insert_ne by discriminate. now rewrite lookup_insert_eq.
  - now rewrite lookup_insert_eq.
  - intros tier Hq Hd.
    rewrite !lookup_insert_ne by congruence. reflexivity.
Qed.

(** X11: [get_model_recommendations] never raises.  Its result has
    exactly the two tiers, and under each the models of that tier of the
    table whose listed size is at most 0.8 times the RAM given, in table
    order. *)
Theorem recommendations_are_table_filtered (available_ram_gb : float) :
  exists result,
    get_model_recommendations available_ram_gb = Ret result
    /\ (forall tier, In tier ["quick_think"; "deep_think"] ->
          result !! tier
          = Some (List.filter
                    (fits (fmul available_ram_gb (float_literal 8 1)))
                    (tier_models tier)))
    /\ (forall tier, ~ In tier ["quick_think"; "deep_think"] -> result !! tier = None)
    /\ (forall model, recommended result model -> In model ALL_MODELS).
Proof.
  destruct (recommendations_by_tier available_ram_gb)
    as (result & Hresult & Hquick & Hdeep & Hother).
  exists result. split; [exact Hresult |]. split; [| split].
  - intros tier [<- | [<- | []]]; assumption.
  - intros tier Hnot. apply Hother; intros ->; apply Hnot; cbn; tauto.
  - intros model (tier & models & Htier & Hin).
    destruct (String.eqb_spec tier "quick_think") as [-> | Hq];
      [| destruct (String.eqb_spec tier "deep_think") as [-> | Hd]].
    + rewrite Hquick in Htier. injection Htier as <-.
      apply filter_In in Hin. apply in_or_app. left. tauto.
    + rewrite Hdeep in Htier. injection Htier as <-.
      apply filter_In in Hin. apply in_or_app. right. tauto.
    + rewrite (Hother tier Hq Hd) in Htier. discriminate Htier.
Qed.

Lemma recommended_iff_fits (available_ram_gb : float)
    (result : gmap string (list (gmap string string))) (model : gmap string string) :
  get_model_recommendations available_ram_gb = Ret result ->
  In model ALL_MODELS ->
  (recommended result model
   <-> fits (fmul available_ram_gb (float_literal 8 1)) model = true).
Proof.
  intros Hres Hmodel.
  destruct (recommendations_by_tier available_ram_gb)
    as (result' & Hresult & Hquick & Hdeep & Hother).
  rewrite Hres in Hresult. injection Hresult as <-.
  split.
  - intros (tier & models & Htier & Hin).
    destruct (String.eqb_spec tier "quick_think") as [-> | Hq];
      [| destruct (String.eqb_spec tier "deep_think") as [-> | Hd]].
    + rewrite Hquick in Htier. injection Htier as <-.
      apply filter_In in Hin. tauto.
    + rewrite Hdeep in Htier. injection Htier as <-.
      apply filter_In in Hin. tauto.
    + rewrite (Hother tier Hq Hd) in Htier. discriminate Htier.
  - intros Hfits. apply in_app_or in Hmodel. destruct Hmodel as [Hin | Hin].
    + exists "quick_think". eexists. split; [exact Hquick |].
      apply filter_In. now split.
    + exists "deep_think". eexists. split; [exact Hdeep |].
      apply filter_In. now split.
Qed.

(** Among positive floats, a smaller exponent means a smaller number. *)
Lemma leb_smaller_exponent (m1 m2 : positive) (e1 e2 : Z) (x : float) :
  e2 < e1 ->
  SFleb (S754_finite false m1 e1) x = true ->
  SFleb (S754_finite false m2 e2) x = true.
Proof.
  intros He. unfold SFleb, SFcompare.
  destruct x as [s | s | | s m e]; try (destruct s); try discriminate; try reflexivity.
  destruct (Z.compare_spec e1 e) as [-> | Hlt | Hgt].
  - intros _. destruct (Z.compare_spec e2 e); [lia | reflexivity | lia].
  - intros _. destruct (Z.compare_spec e2 e); [lia | reflexivity | lia].
  - discriminate.
Qed.

(** The four sizes of the table, as binary64 numbers: 5, 3, 18, 9. *)
Lemma table_size_cases (model : gmap string string) (size : float) :
  In model ALL_MODELS -> size_of model = Some size ->
  In size [ S754_finite false 5629499534213120 (-50);
            S754_finite false 6755399441055744 (-51);
            S754_finite false 5066549580791808 (-48);
            S754_finite false 5066549580791808 (-49) ].
Proof.
  destruct table_sizes as (H8 & H4 & H30 & H14).
  rewrite all_models.
  intros [<- | [<- | [<- | [<- | []]]]] Hsize.
  - left. rewrite H8 in Hsize. now injection Hsize as <-.
  - right; left. rewrite H4 in Hsize. now injection Hsize as <-.
  - do 2 right; left. rewrite H30 in Hsize. now injection Hsize as <-.
  - do 3 right; left. rewrite H14 in Hsize. now injection Hsize as <-.
Qed.

Lemma fits_smaller (budget : float) (m1 m2 : gmap string string) (s1 s2 : float) :
  In m1 ALL_MODELS -> In m2 ALL_MODELS ->
  size_of m1 = Some s1 -> size_of m2 = Some s2 ->
  SFleb s2 s1 = true ->
  fits budget m1 = true -> fits budget m2 = true.
Proof.
  intros H1 H2 Hs1 Hs2. unfold fits. rewrite Hs1, Hs2.
  pose proof (table_size_cases m1 s1 H1 Hs1) as C1.
  pose proof (table_size_cases m2 s2 H2 Hs2) as C2.
  clear H1 H2 Hs1 Hs2. cbn [In] in C1, C2.
  destruct C1 as [<- | [<- | [<- | [<- | []]]]];
    destruct C2 as [<- | [<- | [<- | [<- | []]]]];
    intros Hle Hfits;
    first [ exact Hfits
          | (vm_compute in Hle; discriminate Hle)
          | (eapply leb_smaller_exponent; [| exact Hfits]; lia) ].
Qed.

(** X12: recommendations are closed under "smaller": if a model of
    the table is recommended for some amount of RAM, so is every model of
    the table that is no larger. *)
Theorem smaller_models_also_recommended
    (available_ram_gb : float) (result : gmap string (list (gmap string string)))
    (m1 m2 : gmap string string) (s1 s2 : float) :
  get_model_recommendations available_ram_gb = Ret result ->
  In m1 ALL_MODELS -> In m2 ALL_MODELS ->
  size_of m1 = Some s1 -> size_of m2 = Some s2 ->
  SFleb s2 s1 = true ->
  recommended result m1 -> recommended result m2.
Proof.
  intros Hres H1 H2 Hs1 Hs2 Hle Hrec.
  apply (recommended_iff_fits available_ram_gb result m2 Hres H2).
  apply (fits_smaller _ m1 m2 s1 s2 H1 H2 Hs1 Hs2 Hle).
  now apply (recommended_iff_fits available_ram_gb result m1 Hres H1).
Qed.

Lemma smaller_models_also_recommended_witness :
  exists result,
    get_model_recommendations DEFAULT_RAM_GB = Ret result
    /\ recommended result QWEN3_4B.
Proof.
  destruct table_sizes as (_ & H4 & H30 & _).
  destruct (recommendations_by_tier DEFAULT_RAM_GB) as (result & Hres & _ & Hdeep & _).
  exists result. split; [exact Hres |].
  apply (smaller_models_also_recommended
           DEFAULT_RAM_GB result QWEN3_30B_A3B QWEN3_4B
           (float_of_int 18) (float_of_int 3) Hres).
  - rewrite all_models. do 2 right; left. reflexivity.
  - rewrite all_models. right; left. reflexivity.
  - exact H30.
  - exact H4.
  - vm_compute. reflexivity.
  - exists "deep_think". eexists. split; [exact Hdeep |].
    rewrite deep_think_models. apply filter_In. split; [left; reflexivity |].
    unfold fits. rewrite H30. vm_compute. reflexivity.
Defined.

(** Rounding keeps the sign it is given. *)
Lemma binary_round_aux_sign (sx : bool) (mx ex : Z) (lx : location) :
  match binary_round_aux 53 1024 sx mx ex lx with
  | S754_zero s | S754_infinity s | S754_finite s _ _ => s = sx
  | S754_nan => True
  end.
Proof.
  unfold binary_round_aux.
  destruct (shr_fexp 53 1024 mx ex lx) as [mrs e].
  destruct (shr_fexp 53 1024 _ e loc_Exact) as [mrs' e'].
  destruct (shr_m mrs'); [reflexivity | | exact I].
  destruct (e' <=? 1024 - 53); reflexivity.
Qed.

Lemma fmul_not_positive (x : float) (m : positive) (e : Z) :
  is_positive x = false -> is_positive (fmul x (S754_finite false m e)) = false.
Proof.
  destruct x as [s | s | | s mx ex]; try reflexivity.
  - destruct s; [reflexivity | discriminate].
  - destruct s; [| discriminate]. intros _. unfold fmul, SFmul. cbn [xorb].
    pose proof (binary_round_aux_sign true (Z.pos (mx * m)) (ex + e) loc_Exact) as H.
    destruct (binary_round_aux _ _ _ _ _ _); try reflexivity; now subst.
Qed.

Lemma nothing_fits_without_budget (budget : float) (model : gmap string string) :
  is_positive budget = false -> In model ALL_MODELS -> fits budget model = false.
Proof.
  intros Hbudget Hmodel. unfold fits.
  destruct (size_of model) as [size|] eqn:Hsize; [| reflexivity].
  pose proof (table_size_cases model size Hmodel Hsize) as Hcases.
  cbn [In] in Hcases.
  destruct Hcases as [<- | [<- | [<- | [<- | []]]]];
    destruct budget as [s | s | | s m e]; try reflexivity;
    destruct s; try reflexivity; discriminate Hbudget.
Qed.

(** X13: no RAM, no recommendation.  For an amount of RAM that is
    zero, negative or not a number, both tiers come back empty. *)
Theorem no_recommendation_without_ram (available_ram_gb : float) :
  is_positive available_ram_gb = false ->
  exists result,
    get_model_recommendations available_ram_gb = Ret result
    /\ result !! "quick_think" = Some []
    /\ result !! "deep_think" = Some []
    /\ forall model, ~ recommended result model.
Proof.
  intros Hram.
  destruct (recommendations_by_tier available_ram_gb)
    as (result & Hres & Hquick & Hdeep & Hother).
  cbv zeta in Hquick, Hdeep.
  assert (Hbudget : is_positive (fmul available_ram_gb (float_literal 8 1)) = false).
  { change (float_literal 8 1) with (S754_finite false 7205759403792794 (-53)).
    now apply fmul_not_positive. }
  assert (Hnone : forall tier, In tier ["quick_think"; "deep_think"] ->
            List.filter (fits (fmul available_ram_gb (float_literal 8 1)))
                        (tier_models tier) = []).
  { intros tier Htier.
    assert (Hsub : forall model, In model (tier_models tier) -> In model ALL_MODELS).
    { intros model Hin. apply in_or_app.
      destruct Htier as [<- | [<- | []]]; [left | right]; exact Hin. }
    induction (tier_models tier) as [|model models IH]; [reflexivity |].
    cbn [List.filter].
    rewrite (nothing_fits_without_budget _ model Hbudget (Hsub model (or_introl eq_refl))).
    apply IH. intros model' Hin. apply Hsub. now right. }
  rewrite (Hnone "quick_think") in Hquick by (left; reflexivity).
  rewrite (Hnone "deep_think") in Hdeep by (right; left; reflexivity).
  exists result. repeat split; try assumption.
  intros model (tier & models & Htier & Hin).
  destruct (String.eqb_spec tier "quick_think") as [-> | Hq];
    [| destruct (String.eqb_spec tier "deep_think") as [-> | Hd]].
  - rewrite Hquick in Htier. injection Htier as <-. contradiction.
  - rewrite Hdeep in Htier. injection Htier as <-. contradiction.
  - rewrite (Hother tier Hq Hd) in Htier. discriminate Htier.
Qed.

Lemma no_recommendation_without_ram_witness :
  exists result,
    get_model_recommendations (float_of_int (-8)) = Ret result
    /\ result !! "quick_think" = Some [].
Proof.
  destruct (no_recommendation_without_ram (float_of_int (-8)) eq_refl)
    as (result & Hres & Hquick & _).
  exists result. split; assumption.
Defined.

End LocalModelsFacts.

(** ** More on model files, pulls and health *)

Module LocalUtilsFacts.
Import Py LocalUtils PyFacts.

(** X14: a path that validates can be estimated: whenever
    [validate_gguf_path] accepts a path, [estimate_memory_usage] returns
    a number for it; and when the estimate is [None], validation fails
    with "No model path provided" or "File not found". *)
Theorem valid_path_has_estimate (fs : filesystem) (path : string) :
  (fst (validate_gguf_path fs path) = true ->
   exists gb, estimate_memory_usage fs path = Some gb)
  /\ (estimate_memory_usage fs path = None ->
      validate_gguf_path fs path = (false, "No model path provided")
      \/ validate_gguf_path fs path = (false, "File not found: " +:+ path)).
Proof.
  unfold validate_gguf_path, estimate_memory_usage. cbv zeta.
  destruct (isfile fs path); cbn [negb].
  - split; [intros _; eexists; reflexivity | discriminate].
  - split.
    + destruct (truthy_str path); cbn [negb fst]; discriminate.
    + intros _. destruct (truthy_str path); cbn [negb]; [right | left]; reflexivity.
Qed.

Lemma valid_path_has_estimate_witness :
  exists gb,
    estimate_memory_usage
      {| isfile := fun _ => true; readable := fun _ => true;
         getsize := fun _ => 5368709120%N |}
      "/models/Qwen3-8B-Q4_K_M.gguf"
    = Some gb.
Proof.
  apply (valid_path_has_estimate
           {| isfile := fun _ => true; readable := fun _ => true;
              getsize := fun _ => 5368709120%N |}
           "/models/Qwen3-8B-Q4_K_M.gguf").
  vm_compute. reflexivity.
Defined.

Lemma startswith_app_same (p rest : string) : startswith p (p +:+ rest) = true.
Proof. apply startswith_spec. now exists rest. Qed.

(** A prefix test between two literal texts that differ. *)
Ltac clash H :=
  lazymatch type of H with
  | startswith ?p ?s = true =>
      let E := fresh in
      assert (E : startswith p s = false) by reflexivity;
      rewrite E in H; discriminate H
  | _ +:+ _ = _ => rewrite append_cons in H; discriminate H
  end.

(** One direction of one of the equivalences, in one branch. *)
Ltac settle :=
  let H := fresh "H" in
  intros H;
  first
    [ apply startswith_app_same
    | reflexivity
    | assumption
    | discriminate H
    | contradiction
    | clash H
    | (repeat match goal with
              | C : _ /\ _ |- _ => destruct C
              end;
       first [ contradiction | discriminate | congruence ])
    | (repeat split; first [ assumption | reflexivity ]) ].

(** X15: the message tells which check failed.  The message of
    [validate_gguf_path] is "No model path provided" exactly for the
    empty path, starts with "File not found: " exactly when a non-empty
    path is not a file, with "File does not have .gguf extension: "
    exactly when the file lacks the extension, with "File not readable: "
    exactly when the file with the extension cannot be read, and with
    "Valid GGUF file (" exactly when the path is accepted. *)
Theorem validate_message_names_the_check (fs : filesystem) (path : string) :
  let message := snd (validate_gguf_path fs path) in
  (message = "No model path provided" <-> path = EmptyString)
  /\ (startswith "File not found: " message = true
      <-> path <> EmptyString /\ isfile fs path = false)
  /\ (startswith "File does not have .gguf extension: " message = true
      <-> path <> EmptyString /\ isfile fs path = true
          /\ endswith ".gguf" (lower path) = false)
  /\ (startswith "File not readable: " message = true
      <-> path <> EmptyString /\ isfile fs path = true
          /\ endswith ".gguf" (lower path) = true /\ readable fs path = false)
  /\ (startswith "Valid GGUF file (" message = true
      <-> fst (validate_gguf_path fs path) = true).
Proof.
  unfold validate_gguf_path. cbv zeta.
  destruct (truthy_str path) eqn:Hp; cbn [negb].
  - assert (Hne : path <> EmptyString).
    { unfold truthy_str in Hp. apply negb_true_iff, String.eqb_neq in Hp. exact Hp. }
    destruct (isfile fs path) eqn:Hf; cbn [negb];
      [destruct (endswith ".gguf" (lower path)) eqn:He; cbn [negb];
       [destruct (readable fs path) eqn:Hr; cbn [negb] |] |];
      cbn [snd fst]; (split; [| split; [| split; [| split]]]); split; settle.
  - assert (He : path = EmptyString).
    { unfold truthy_str in Hp. apply negb_false_iff, String.eqb_eq in Hp. exact Hp. }
    cbn [snd fst]. (split; [| split; [| split; [| split]]]); split; settle.
Qed.

(** X16: [pull_ollama_model] reports success exactly when the
    [ollama pull] process ran and exited with code 0, and then says
    which model was pulled; a non-zero exit code is reported with the
    process's standard error. *)
Theorem pull_succeeds_on_exit_code_zero
    (run : subprocess_run) (model_name message : string) :
  (pull_ollama_model run model_name = Ret (true, message)
   <-> message = "Successfully pulled " +:+ model_name
       /\ exists result, run ["ollama"; "pull"; model_name] 600 = Ret result
                         /\ returncode result = 0)
  /\ (forall result, run ["ollama"; "pull"; model_name] 600 = Ret result ->
        returncode result <> 0 ->
        pull_ollama_model run model_name
        = Ret (false, "Failed to pull " +:+ model_name +:+ ": " +:+ stderr result)).
Proof.
  unfold pull_ollama_model, try_except, bind. split.
  - destruct (run _ _) as [result|e].
    + destruct (returncode result =? 0) eqn:Hcode.
      * apply Z.eqb_eq in Hcode. split.
        -- intros [= <-]. split; [reflexivity | now exists result].
        -- intros [-> _]. reflexivity.
      * apply Z.eqb_neq in Hcode. split; [discriminate |].
        intros [_ (result' & [= <-] & Hzero)]. contradiction.
    + split.
      * destruct (isinstance e FileNotFoundError); [discriminate |].
        destruct (isinstance e TimeoutExpired); discriminate.
      * intros [_ (result & H & _)]. discriminate H.
  - intros result -> Hcode. apply Z.eqb_neq in Hcode. rewrite Hcode. reflexivity.
Qed.

(** X17: [check_ollama_health] reports a healthy server exactly when
    the request returns status 200 and the model list can be read; the
    message then gives the number of models and their names joined by
    ", ", or "none" when that text is empty. *)
Theorem health_message_lists_models
    (get : http_get) (base_url message : string) :
  check_ollama_health get base_url = Ret (true, message)
  <-> exists resp names,
        get (base_url +:+ "/api/tags") 5 = Ret resp
        /\ status_code resp = 200
        /\ model_names resp = Ret names
        /\ message
           = "Ollama running with " +:+ str_int (Z.of_nat (length names))
               +:+ " model(s): "
               +:+ (if String.eqb (join ", " names) EmptyString
                    then "none" else join ", " names).
Proof.
  unfold check_ollama_health, try_except, bind.
  assert (Hhandler : forall e,
            (if isinstance e ConnectionError
             then Ret (false, "Ollama server not reachable. Start with: ollama serve")
             else if isinstance e Timeout
                  then Ret (false, "Ollama server timed out")
                  else Ret (false, "Ollama health check failed: " +:+ exn_str e))
            <> Ret (true, message)).
  { intros e. destruct (isinstance e ConnectionError); [discriminate |].
    destruct (isinstance e Timeout); discriminate. }
  destruct (get _ _) as [resp|e].
  - destruct (status_code resp =? 200) eqn:Hcode.
    + apply Z.eqb_eq in Hcode.
      destruct (model_names resp) as [names|e] eqn:Hnames.
      * unfold truthy_str. split.
        -- intros [= <-]. exists resp, names. repeat split; try assumption.
           destruct (String.eqb (join ", " names) EmptyString); reflexivity.
        -- intros (resp' & names' & [= <-] & _ & Hn & ->).
           rewrite Hnames in Hn. injection Hn as <-.
           destruct (String.eqb (join ", " names) EmptyString); reflexivity.
      * split; [intros H; now apply Hhandler in H |].
        intros (resp' & names' & [= <-] & _ & Hn & _).
        rewrite Hnames in Hn. discriminate Hn.
    + apply Z.eqb_neq in Hcode. split; [discriminate |].
      intros (resp' & names' & [= <-] & Hc & _). contradiction.
  - split; [intros H; now apply Hhandler in H |].
    intros (resp' & names' & H & _). discriminate H.
Qed.

End LocalUtilsFacts.

(** ** More on the llama.cpp client *)

Module LlamaCppFacts.
Import Py LlamaCpp Vocabulary.

Lemma get_llm_returns_inv (env : environment) (self : LlamaCppClient)
    (llm_kwargs : gmap string value) :
  get_llm env self = Ret (ChatLlamaCpp llm_kwargs) ->
  llm_kwargs
  = copy_if_present "callbacks" (kwargs self)
      (copy_if_present "temperature" (kwargs self)
         (<["verbose" := VBool false]>
          (<["n_batch" := get_default (kwargs self) "n_batch" (VInt 512)]>
          (<["n_ctx" := get_default (kwargs self) "n_ctx" (VInt 4096)]>
          (<["n_gpu_layers" := get_default (kwargs self) "n_gpu_layers" (VInt (-1))]>
          (<["model_path" := get_default (kwargs self) "model_path" VNone]> ∅)))))).
Proof.
  unfold get_llm, import_module.
  destruct (langchain_community_installed env); [| discriminate].
  cbn [bind]. cbv zeta.
  destruct (truthy (get_default (kwargs self) "model_path" VNone)); [| discriminate].
  cbn [negb].
  destruct (os_path_isfile env _) as [[|]|e]; cbn [bind negb]; try discriminate.
  intros [= <-]. reflexivity.
Qed.

(** X18: what reaches [ChatLlamaCpp].  Whenever [get_llm] succeeds,
    the keyword arguments hold [verbose = False] whatever the options
    say, pass [temperature] and [callbacks] through exactly when they
    are given, and hold no key besides the seven known ones: every other
    option is dropped. *)
Theorem get_llm_keyword_arguments
    (env : environment) (self : LlamaCppClient) (llm_kwargs : gmap string value) :
  get_llm env self = Ret (ChatLlamaCpp llm_kwargs) ->
  llm_kwargs !! "verbose" = Some (VBool false)
  /\ llm_kwargs !! "temperature" = kwargs self !! "temperature"
  /\ llm_kwargs !! "callbacks" = kwargs self !! "callbacks"
  /\ (forall key, ~ In key LLM_KEYS -> llm_kwargs !! key = None).
Proof.
  intros H. apply get_llm_returns_inv in H. subst llm_kwargs.
  unfold copy_if_present.
  destruct (kwargs self !! "temperature") as [t|] eqn:Ht;
    destruct (kwargs self !! "callbacks") as [c|] eqn:Hc;
    (split; [| split; [| split]]);
    try (simplify_map_eq; reflexivity);
    intros key Hkey;
    repeat (rewrite lookup_insert_ne
              by (intros <-; apply Hkey; unfold LLM_KEYS; cbn; tauto));
    apply lookup_empty.
Qed.

Lemma get_llm_keyword_arguments_witness :
  exists llm_kwargs,
    get_llm {| llama_cpp_installed := true; langchain_community_installed := true;
               os_path_isfile := fun _ => Ret true |}
            {| model := "qwen3-8b"; base_url := None;
               kwargs := {[ "model_path" := VStr "/models/Qwen3-8B-Q4_K_M.gguf";
                            "verbose" := VBool true;
                            "api_key" := VStr "secret" ]} |}
    = Ret (ChatLlamaCpp llm_kwargs)
    /\ llm_kwargs !! "verbose" = Some (VBool false)
    /\ llm_kwargs !! "api_key" = None.
Proof.
  destruct (get_llm _ _) as [[llm_kwargs]|e] eqn:Hget;
    [| vm_compute in Hget; discriminate Hget].
  exists llm_kwargs. split; [reflexivity |].
  destruct (get_llm_keyword_arguments _ _ llm_kwargs Hget)
    as (Hverbose & _ & _ & Hother).
  split; [exact Hverbose |].
  apply Hother. unfold LLM_KEYS. cbn. intuition discriminate.
Defined.

(** X19: the order of the checks in [get_llm].  A missing
    [langchain_community] is reported first, as a [ModuleNotFoundError]
    naming it, whatever the options are; a missing or empty model path is
    reported next, without the file system being asked; and an exception
    raised by [os.path.isfile] on the path is passed on. *)
Theorem get_llm_checks_in_order (env : environment) (self : LlamaCppClient) :
  (langchain_community_installed env = false ->
   get_llm env self
   = Raise (Exn ModuleNotFoundError "No module named 'langchain_community'"))
  /\ (langchain_community_installed env = true ->
      truthy (get_default (kwargs self) "model_path" VNone) = false ->
      forall isfile',
        get_llm {| llama_cpp_installed := llama_cpp_installed env;
                   langchain_community_installed := true;
                   os_path_isfile := isfile' |} self
        = Raise MODEL_PATH_REQUIRED)
  /\ (langchain_community_installed env = true ->
      truthy (get_default (kwargs self) "model_path" VNone) = true ->
      forall e,
        os_path_isfile env (get_default (kwargs self) "model_path" VNone) = Raise e ->
        get_llm env self = Raise e).
Proof.
  unfold get_llm, import_module. repeat split.
  - intros ->. reflexivity.
  - intros _ Hpath isfile'. cbn [langchain_community_installed bind].
    cbv zeta. rewrite Hpath. reflexivity.
  - intros -> Hpath e He. cbn [bind]. cbv zeta. rewrite Hpath, He. reflexivity.
Qed.

Lemma get_llm_checks_in_order_witness :
  get_llm {| llama_cpp_installed := true; langchain_community_installed := false;
             os_path_isfile := fun _ => Ret true |}
          {| model := "qwen3-8b"; base_url := None;
             kwargs := {[ "model_path" := VStr "/models/Qwen3-8B-Q4_K_M.gguf" ]} |}
  = Raise (Exn ModuleNotFoundError "No module named 'langchain_community'").
Proof.
  destruct (get_llm_checks_in_order
              {| llama_cpp_installed := true; langchain_community_installed := false;
                 os_path_isfile := fun _ => Ret true |}
              {| model := "qwen3-8b"; base_url := None;
                 kwargs := {[ "model_path" := VStr "/models/Qwen3-8B-Q4_K_M.gguf" ]} |})
    as [Hfirst _].
  apply Hfirst. reflexivity.
Defined.

End LlamaCppFacts.

(** ** More on the Markdown export *)

Module LogUtilsFacts.
Import Py LogUtils LogExport Vocabulary PyFacts.

Section Render.
Variable repr : json -> string.

(** X20: the export reads ten keys and no other.  Adding, or
    changing, any other entry of a snapshot ([trader_investment_plan],
    for one) leaves the rendering as it is. *)
Theorem state_to_md_ignores_other_keys
    (state : gmap string json) (key : string) (v : json) :
  ~ In key KNOWN_KEYS ->
  _state_to_md repr (<[key := v]> state) = _state_to_md repr state.
Proof.
  intros Hkey.
  assert (Hlookup : forall known, In known KNOWN_KEYS ->
            (<[key := v]> state) !! known = state !! known).
  { intros known Hknown. apply lookup_insert_ne. intros <-. now apply Hkey. }
  unfold _state_to_md, debate, get_or_na, sections, REPORT_KEYS, PLAN_KEYS.
  cbn [flat_map].
  rewrite !Hlookup by (unfold KNOWN_KEYS, OPTIONAL_KEYS; cbn; tauto).
  reflexivity.
Qed.

Lemma sections_intro (keys : list string) (state : gmap string json)
    (key : string) (v : json) :
  In key keys -> state !! key = Some v -> truthy v = true ->
  In (section repr key v) (sections repr keys state).
Proof.
  intros Hkey Hv Ht. unfold sections. apply in_flat_map.
  exists key. split; [exact Hkey |]. rewrite Hv, Ht. now left.
Qed.

Lemma state_to_md_parts (state : gmap string json) (parts : list string) :
  _state_to_md repr state = Ret parts ->
  exists header investment risk,
    debate repr "investment_debate_state" "Investment Debate" INVESTMENT_SUBKEYS state
    = Ret investment
    /\ debate repr "risk_debate_state" "Risk Debate" RISK_SUBKEYS state = Ret risk
    /\ startswith "**Company:** " header = true
    /\ parts = header :: sections repr REPORT_KEYS state ++ investment ++ risk
                      ++ sections repr PLAN_KEYS state.
Proof.
  unfold _state_to_md. cbv zeta.
  destruct (debate repr "investment_debate_state" _ _ state) as [investment|e];
    [| discriminate].
  destruct (debate repr "risk_debate_state" _ _ state) as [risk|e]; [| discriminate].
  cbn [bind]. intros H.
  eexists _, investment, risk. split; [reflexivity |]. split; [reflexivity |].
  split; [| now injection H as <-]. reflexivity.
Qed.

Lemma truthy_text (s : string) : s <> EmptyString -> truthy (JStr s) = true.
Proof. intros H. cbn [truthy]. unfold truthy_str. now apply negb_true_iff, String.eqb_neq. Qed.

(** X21: what is there is rendered.  When a snapshot renders, each
    report or plan field holding a non-empty text appears as a part made
    of the rule, the field's title as a heading and the text; and each
    non-empty text sub-field of a debate state appears as a part with its
    title as a sub-heading and the text. *)
Theorem state_to_md_renders_present_text
    (state : gmap string json) (parts : list string) :
  _state_to_md repr state = Ret parts ->
  (forall key s, In key (REPORT_KEYS ++ PLAN_KEYS) ->
      state !! key = Some (JStr s) -> s <> EmptyString ->
      In (NL +:+ "---" +:+ NL +:+ "## " +:+ section_title key +:+ NL +:+ NL
             +:+ s +:+ NL) parts)
  /\ (forall key subkeys fields subkey s,
        In (key, subkeys) [("investment_debate_state", INVESTMENT_SUBKEYS);
                           ("risk_debate_state", RISK_SUBKEYS)] ->
        state !! key = Some (JObj fields) ->
        In subkey subkeys ->
        fields !! subkey = Some (JStr s) -> s <> EmptyString ->
        In ("### " +:+ subsection_title subkey +:+ NL +:+ NL +:+ s +:+ NL +:+ NL) parts).
Proof.
  intros Hmd.
  destruct (state_to_md_parts state parts Hmd)
    as (header & investment & risk & Hinv & Hrisk & _ & ->).
  split.
  - intros key s Hkey Hs Hne.
    assert (Htitle : section_title key = title (replace "_" " " key)).
    { cbn in Hkey. repeat (destruct Hkey as [<- | Hkey]); try contradiction;
        reflexivity. }
    rewrite Htitle.
    change (In (section repr key (JStr s))
               (header :: sections repr REPORT_KEYS state ++ investment ++ risk
                       ++ sections repr PLAN_KEYS state)).
    right. apply in_app_or in Hkey. destruct Hkey as [Hkey | Hkey].
    + apply in_or_app. left.
      apply sections_intro; [exact Hkey | exact Hs | now apply truthy_text].
    + apply in_or_app. right. apply in_or_app. right. apply in_or_app. right.
      apply sections_intro; [exact Hkey | exact Hs | now apply truthy_text].
  - intros key subkeys fields subkey s Hpair Hfields Hsub Hs Hne.
    assert (Hpart : forall heading parts',
              debate repr key heading subkeys state = Ret parts' ->
              In (subsection repr subkey (JStr s)) parts').
    { intros heading parts'. unfold debate. rewrite Hfields.
      rewrite LogUtilsProofs.subsections_object. cbn [bind]. intros [= <-].
      right. apply in_flat_map. exists subkey. split; [exact Hsub |].
      rewrite Hs, (truthy_text s Hne). now left. }
    change (In (subsection repr subkey (JStr s))
               (header :: sections repr REPORT_KEYS state ++ investment ++ risk
                       ++ sections repr PLAN_KEYS state)).
    right. apply in_or_app. right.
    destruct Hpair as [[= <- <-] | [[= <- <-] | []]].
    + apply in_or_app. left. exact (Hpart _ _ Hinv).
    + apply in_or_app. right. apply in_or_app. left. exact (Hpart _ _ Hrisk).
Qed.

Lemma subsections_raise_type_error (subkeys : list string) (ids : json) (e : exn) :
  subsections repr subkeys ids = Raise e -> exn_cls e = TypeError.
Proof.
  induction subkeys as [|subkey rest IH]; [discriminate |].
  cbn [subsections].
  destruct (py_in subkey ids) as [present|e'] eqn:Hin.
  - cbn [bind]. destruct present.
    + destruct (getitem ids subkey) as [v|e'] eqn:Hget.
      * cbn [bind]. destruct (subsections repr rest ids) as [tail|e'];
          [discriminate |]. cbn [bind]. intros [= <-]. now apply IH.
      * cbn [bind]. intros [= <-].
        destruct ids; cbn in Hget; try (injection Hget as <-; reflexivity).
        cbn in Hin. injection Hin as Hin.
        destruct (fields !! subkey); [discriminate Hget |].
        apply bool_decide_eq_true in Hin. destruct Hin as [? Hin]. discriminate Hin.
    + cbn [bind]. destruct (subsections repr rest ids) as [tail|e'];
        [discriminate |]. cbn [bind]. intros [= <-]. now apply IH.
  - cbn [bind]. intros [= <-].
    destruct ids; cbn in Hin; try discriminate Hin; now injection Hin as <-.
Qed.

Lemma subsections_scalar (subkeys : list string) (ids : json) :
  subkeys <> [] -> is_scalar ids = true ->
  exists e, subsections repr subkeys ids = Raise e.
Proof.
  destruct subkeys as [|subkey rest]; [contradiction |]. intros _ Hscalar.
  destruct ids; try discriminate Hscalar; eexists; reflexivity.
Qed.

(** X22: only [TypeError] is ever raised, and a debate state that is
    a scalar raises it: when [investment_debate_state] or
    [risk_debate_state] is null, a boolean or a number, rendering the
    snapshot raises. *)
Theorem state_to_md_raises_on_scalar_debate_state (state : gmap string json) :
  (forall e, _state_to_md repr state = Raise e -> exn_cls e = TypeError)
  /\ (forall key v, In key DEBATE_KEYS -> state !! key = Some v ->
        is_scalar v = true ->
        exists e, _state_to_md repr state = Raise e /\ exn_cls e = TypeError).
Proof.
  assert (Hcls : forall e, _state_to_md repr state = Raise e -> exn_cls e = TypeError).
  { intros e. unfold _state_to_md, debate. cbv zeta.
    destruct (state !! "investment_debate_state") as [inv|].
    - destruct (subsections repr INVESTMENT_SUBKEYS inv) as [p|e'] eqn:Hinv.
      + cbn [bind].
        destruct (state !! "risk_debate_state") as [risk|]; [| discriminate].
        destruct (subsections repr RISK_SUBKEYS risk) as [q|e''] eqn:Hrisk;
          [discriminate |].
        cbn [bind]. intros [= <-]. now apply (subsections_raise_type_error _ _ _ Hrisk).
      + cbn [bind]. intros [= <-]. now apply (subsections_raise_type_error _ _ _ Hinv).
    - cbn [bind].
      destruct (state !! "risk_debate_state") as [risk|]; [| discriminate].
      destruct (subsections repr RISK_SUBKEYS risk) as [q|e''] eqn:Hrisk;
        [discriminate |].
      cbn [bind]. intros [= <-]. now apply (subsections_raise_type_error _ _ _ Hrisk). }
  split; [exact Hcls |].
  intros key v Hkey Hv Hscalar.
  assert (Hraise : exists e, _state_to_md repr state = Raise e).
  { unfold _state_to_md, debate. cbv zeta. cbn in Hkey.
    destruct Hkey as [<- | [<- | []]]; rewrite Hv.
    - destruct (subsections_scalar INVESTMENT_SUBKEYS v ltac:(discriminate) Hscalar)
        as [e ->]. now exists e.
    - destruct (subsections_scalar RISK_SUBKEYS v ltac:(discriminate) Hscalar)
        as [e ->].
      destruct (state !! "investment_debate_state") as [inv|].
      + destruct (subsections repr INVESTMENT_SUBKEYS inv) as [p|e'];
          cbn [bind]; eexists; reflexivity.
      + cbn [bind]. now exists e. }
  destruct Hraise as [e He]. exists e. split; [exact He | now apply Hcls].
Qed.

End Render.

Lemma state_to_md_ignores_other_keys_witness :
  _state_to_md (fun _ => EmptyString)
    (<["trader_investment_plan" := JStr "Buy 100 shares."]>
       {[ "market_report" := JStr "Uptrend." ]})
  = _state_to_md (fun _ => EmptyString) {[ "market_report" := JStr "Uptrend." ]}.
Proof.
  apply (state_to_md_ignores_other_keys (fun _ => EmptyString)).
  unfold KNOWN_KEYS, OPTIONAL_KEYS. cbn. intuition discriminate.
Defined.

Lemma state_to_md_renders_present_text_witness :
  In (NL +:+ "---" +:+ NL +:+ "## Final Trade Decision" +:+ NL +:+ NL +:+ "BUY" +:+ NL)
     [ "**Company:** NVDA | **Trade Date:** N/A" +:+ NL;
       NL +:+ "---" +:+ NL +:+ "## Final Trade Decision" +:+ NL +:+ NL +:+ "BUY" +:+ NL ].
Proof.
  destruct (state_to_md_renders_present_text (fun _ => EmptyString)
              {[ "company_of_interest" := JStr "NVDA";
                 "final_trade_decision" := JStr "BUY" ]}
              [ "**Company:** NVDA | **Trade Date:** N/A" +:+ NL;
                NL +:+ "---" +:+ NL +:+ "## Final Trade Decision" +:+ NL +:+ NL
                   +:+ "BUY" +:+ NL ])
    as [Htext _]; [vm_compute; reflexivity |].
  apply (Htext "final_trade_decision" "BUY");
    [cbn; tauto | vm_compute; reflexivity | discriminate].
Defined.

(** *** The order of the sections *)

Lemma in_order_weaken (lo lo' : nat) (parts : list string) :
  (lo' <= lo)%nat -> in_order lo parts = true -> in_order lo' parts = true.
Proof.
  revert lo lo'. induction parts as [|part rest IH]; intros lo lo' Hle; [reflexivity |].
  cbn [in_order]. destruct (rank part) as [r|]; [| now apply IH].
  rewrite !andb_true_iff, !Nat.leb_le. intros [Hr Hrest]. split; [lia | exact Hrest].
Qed.

Lemma in_order_app (lo mid : nat) (first second : list string) :
  (lo <= mid)%nat ->
  in_order lo first = true -> below mid first -> in_order mid second = true ->
  in_order lo (first ++ second) = true.
Proof.
  revert lo. induction first as [|part rest IH]; intros lo Hle Hfirst Hbelow Hsecond.
  - now apply (in_order_weaken mid lo).
  - cbn [app in_order] in *. destruct (rank part) as [r|] eqn:Hrank.
    + apply andb_true_iff in Hfirst. destruct Hfirst as [Hr Hrest].
      rewrite Hr. cbn [andb].
      assert (r < mid)%nat by (apply (Hbelow part r); [now left | exact Hrank]).
      apply IH; [lia | exact Hrest | | exact Hsecond].
      intros p q Hp. apply Hbelow. now right.
    + apply IH; [exact Hle | exact Hfirst | | exact Hsecond].
      intros p q Hp. apply Hbelow. now right.
Qed.

Lemma below_app (hi : nat) (first second : list string) :
  below hi first -> below hi second -> below hi (first ++ second).
Proof.
  intros H1 H2 part r Hin. apply in_app_or in Hin.
  destruct Hin; [now apply H1 | now apply H2].
Qed.

Lemma below_weaken (hi hi' : nat) (parts : list string) :
  (hi <= hi')%nat -> below hi parts -> below hi' parts.
Proof. intros Hle H part r Hin Hr. specialize (H part r Hin Hr). lia. Qed.

Section Order.
Variable repr : json -> string.

Lemma rank_subsection (subkey : string) (v : json) :
  rank (subsection repr subkey v) = None.
Proof. reflexivity. Qed.

Lemma rank_header (header : string) :
  startswith "**Company:** " header = true -> rank header = None.
Proof.
  intros H. unfold rank, SECTION_ORDER. cbn [rank_from].
  now rewrite !(LogUtilsProofs.opens_section_header _ header H).
Qed.

(** The sections of a list of keys whose titles stand at [lo],
    [lo + 1], ... in the order. *)
Lemma sections_in_order (keys : list string) (lo : nat) (state : gmap string json) :
  (forall i key v, keys !! i = Some key ->
                   rank (section repr key v) = Some (lo + i)%nat) ->
  in_order lo (sections repr keys state) = true
  /\ below (lo + length keys) (sections repr keys state).
Proof.
  revert lo. induction keys as [|key rest IH]; intros lo Hranks.
  - split; [reflexivity | intros part r []].
  - assert (Hrest : forall i key' v, rest !! i = Some key' ->
              rank (section repr key' v) = Some (S lo + i)%nat).
    { intros i key' v Hi. rewrite (Hranks (S i) key' v Hi). f_equal. lia. }
    destruct (IH (S lo) Hrest) as [Hsorted Hbelow].
    assert (Hhead : forall v, rank (section repr key v) = Some lo).
    { intros v. rewrite (Hranks 0%nat key v eq_refl). f_equal. lia. }
    change (sections repr (key :: rest) state)
      with (match state !! key with
            | Some v => if truthy v then [section repr key v] else []
            | None => []
            end ++ sections repr rest state).
    cbn [length].
    assert (Hb : below (lo + S (length rest)) (sections repr rest state))
      by (apply (below_weaken (S lo + length rest)); [lia | exact Hbelow]).
    assert (Hs : in_order lo (sections repr rest state) = true)
      by (apply (in_order_weaken (S lo)); [lia | exact Hsorted]).
    destruct (state !! key) as [v|]; [destruct (truthy v) |]; cbn [app].
    + split.
      * cbn [in_order]. rewrite (Hhead v), Nat.leb_refl. exact Hsorted.
      * intros part r [<- | Hin] Hr.
        -- rewrite (Hhead v) in Hr. injection Hr as <-. lia.
        -- now apply (Hb part r).
    + now split.
    + now split.
Qed.

Lemma debate_in_order (key heading : string) (subkeys : list string)
    (state : gmap string json) (parts : list string) (place : nat) :
  rank (NL +:+ "---" +:+ NL +:+ "## " +:+ heading +:+ NL +:+ NL) = Some place ->
  debate repr key heading subkeys state = Ret parts ->
  in_order place parts = true /\ below (S place) parts.
Proof.
  intros Hplace. unfold debate. destruct (state !! key) as [ids|].
  - destruct (subsections repr subkeys ids) as [subs|e] eqn:Hsubs; [| discriminate].
    cbn [bind]. intros [= <-].
    pose proof (LogUtilsProofs.subsections_inv repr subkeys ids subs Hsubs) as Hinv.
    assert (Hnone : forall part, In part subs -> rank part = None).
    { intros part Hin. destruct (Hinv part Hin) as (subkey & v & ->).
      apply rank_subsection. }
    split.
    + cbn [in_order]. rewrite Hplace, Nat.leb_refl. cbn [andb].
      clear Hsubs Hinv. induction subs as [|part rest IH]; [reflexivity |].
      cbn [in_order]. rewrite (Hnone part (or_introl eq_refl)).
      apply IH. intros p Hp. apply Hnone. now right.
    + intros part r [<- | Hin] Hr.
      * rewrite Hplace in Hr. injection Hr as <-. lia.
      * rewrite (Hnone part Hin) in Hr. discriminate Hr.
  - intros [= <-]. split; [reflexivity | intros part r []].
Qed.

(** X23: the sections come in one fixed order.  In every rendering
    the parts that open a section do so in the order Market, Sentiment,
    News and Fundamentals Report, Investment Debate, Risk Debate,
    Investment Plan, Final Trade Decision, whatever the order of the keys
    in the snapshot, and no section is opened twice. *)
Theorem state_to_md_section_order (state : gmap string json) (parts : list string) :
  _state_to_md repr state = Ret parts -> in_order 0 parts = true.
Proof.
  intros Hmd.
  destruct (state_to_md_parts repr state parts Hmd)
    as (header & investment & risk & Hinv & Hrisk & Hheader & ->).
  cbn [in_order]. rewrite (rank_header header Hheader).
  destruct (sections_in_order REPORT_KEYS 0 state) as [Hr Hrb].
  { intros i key v Hi. do 4 (destruct i as [|i]; [injection Hi as <-; reflexivity |]).
    discriminate Hi. }
  destruct (sections_in_order PLAN_KEYS 6 state) as [Hp Hpb].
  { intros i key v Hi. do 2 (destruct i as [|i]; [injection Hi as <-; reflexivity |]).
    discriminate Hi. }
  destruct (debate_in_order "investment_debate_state" "Investment Debate"
              INVESTMENT_SUBKEYS state investment 4 eq_refl Hinv) as [Hi Hib].
  destruct (debate_in_order "risk_debate_state" "Risk Debate"
              RISK_SUBKEYS state risk 5 eq_refl Hrisk) as [Hk Hkb].
  apply (in_order_app 0 4); [lia | exact Hr | exact Hrb |].
  apply (in_order_app 4 5); [lia | exact Hi | exact Hib |].
  apply (in_order_app 5 6); [lia | exact Hk | exact Hkb | exact Hp].
Qed.

(** *** The whole document *)

Lemma md_parts_snapshots (data : list (string * json)) :
  md_parts repr data = md_parts repr (snapshots data).
Proof.
  induction data as [|[date_key state] rest IH]; [reflexivity |].
  unfold snapshots. rewrite filter_cons. fold (snapshots rest).
  destruct state; cbn [md_parts snd is_object];
    try (rewrite decide_False by discriminate; exact IH).
  rewrite decide_True by reflexivity. cbn [md_parts]. now rewrite IH.
Qed.

(** X24: entries of the log whose value is not an object are skipped:
    the document written for a log is the document written for its
    snapshots alone. *)
Theorem md_document_skips_non_objects (data : list (string * json)) :
  md_document repr data = md_document repr (snapshots data)
  /\ (forall date_key v, is_object v = false ->
        md_document repr ((date_key, v) :: data) = md_document repr data).
Proof.
  split.
  - unfold md_document. now rewrite md_parts_snapshots.
  - intros date_key v Hv. unfold md_document.
    destruct v; try discriminate Hv; reflexivity.
Qed.

(** The text is produced exactly when every snapshot of the log
    renders. *)
Lemma md_document_returns (data : list (string * json)) :
  returns (md_document repr data)
  <-> forall date_key fields, In (date_key, JObj fields) data ->
                              returns (_state_to_md repr fields).
Proof.
  unfold md_document.
  assert (H : returns (md_parts repr data)
              <-> forall date_key fields, In (date_key, JObj fields) data ->
                                          returns (_state_to_md repr fields)).
  { induction data as [|[date_key state] rest IH].
    - split; [intros _ ? ? [] | intros _; now eexists].
    - assert (Hskip : is_object state = false ->
                (returns (md_parts repr rest)
                 <-> forall d f, In (d, JObj f) ((date_key, state) :: rest) ->
                                 returns (_state_to_md repr f))).
      { intros Hs. rewrite IH. split.
        - intros H d f [Heq | Hin]; [| exact (H d f Hin)].
          injection Heq as _ ->. discriminate Hs.
        - intros H d f Hin. apply (H d f). now right. }
      destruct state; try (cbn [md_parts]; now apply Hskip).
      cbn [md_parts]. split.
      + intros [parts Hparts] d f [Heq | Hin].
        * injection Heq as _ <-.
          destruct (_state_to_md repr fields); [now eexists | discriminate Hparts].
        * assert (Hrest : returns (md_parts repr rest)).
          { destruct (_state_to_md repr fields); [| discriminate Hparts].
            cbn [bind] in Hparts.
            destruct (md_parts repr rest); [now eexists | discriminate Hparts]. }
          exact (proj1 IH Hrest d f Hin).
      + intros Hall.
        destruct (Hall date_key fields (or_introl eq_refl)) as [parts ->].
        assert (Hrest : returns (md_parts repr rest)).
        { apply IH. intros d f Hin. apply (Hall d f). now right. }
        destruct Hrest as [tail ->]. cbn [bind]. now eexists. }
  rewrite <- H. split.
  - intros [doc Hdoc]. destruct (md_parts repr data); [now eexists | discriminate Hdoc].
  - intros [parts ->]. cbn [bind]. now eexists.
Qed.

(** X25: the export opens the Markdown file only once the whole text
    is there.  If the file is opened for writing, the log was a [dict]
    and every one of its snapshots rendered; so a missing JSON file, a
    log of another type and a snapshot on which [_state_to_md] raises
    leave the Markdown file untouched.  When the export returns, it
    returns the Markdown path, having made the directory, opened the
    file and written the text, in this order and nothing else. *)
Theorem export_opens_after_rendering
    (fs : file_system) (json_path : string) (md_path : option string) :
  (forall p,
      In (OpenForWriting p) (snd (full_states_json_to_md repr fs json_path md_path)) ->
      exists entries text,
        json_load fs (path_str fs json_path) = Ret (inl entries)
        /\ md_document repr entries = Ret text
        /\ forall date_key fields, In (date_key, JObj fields) entries ->
                                   returns (_state_to_md repr fields))
  /\ (forall p,
        fst (full_states_json_to_md repr fs json_path md_path) = Ret p ->
        exists entries text,
          json_load fs (path_str fs json_path) = Ret (inl entries)
          /\ md_document repr entries = Ret text
          /\ snd (full_states_json_to_md repr fs json_path md_path)
             = [Mkdir (parent fs p); OpenForWriting p; WriteText p text]).
Proof.
  unfold full_states_json_to_md. cbv zeta.
  set (source := path_str fs json_path).
  set (target := match md_path with
                 | Some p => Ret (path_str fs p)
                 | None => with_suffix fs source ".md"
                 end).
  unfold io_bind, pure, call.
  destruct (path_exists fs source) as [[|]|e]; cbn [negb fst snd app];
    try (split; [intros p [] | intros p H; discriminate H]).
  destruct (json_load fs source) as [data|e]; cbn [fst snd app];
    try (split; [intros p [] | intros p H; discriminate H]).
  destruct target as [goal|e]; cbn [fst snd app];
    try (split; [intros p [] | intros p H; discriminate H]).
  destruct (mkdir fs (parent fs goal)) as [[]|e]; cbn [fst snd app];
    try (split; [intros p [H | []]; discriminate H | intros p H; discriminate H]).
  destruct data as [entries|v]; cbn [items fst snd app];
    try (split; [intros p [H | []]; discriminate H | intros p H; discriminate H]).
  destruct (md_document repr entries) as [text|e] eqn:Htext; cbn [fst snd app];
    try (split; [intros p [H | []]; discriminate H | intros p H; discriminate H]).
  assert (Hall : forall date_key fields, In (date_key, JObj fields) entries ->
                                         returns (_state_to_md repr fields)).
  { apply md_document_returns. now exists text. }
  split.
  - intros p _. now exists entries, text.
  - intros p Hp. exists entries, text. split; [reflexivity |]. split; [exact Htext |].
    destruct (open_w fs goal) as [[]|e]; cbn [fst snd app] in *; [| discriminate Hp].
    destruct (write fs goal text) as [[]|e]; cbn [fst snd app] in *; [| discriminate Hp].
    now injection Hp as <-.
Qed.

End Order.

Lemma state_to_md_section_order_witness :
  in_order 0
    [ "**Company:** N/A | **Trade Date:** N/A" +:+ NL;
      NL +:+ "---" +:+ NL +:+ "## Market Report" +:+ NL +:+ NL +:+ "Uptrend." +:+ NL;
      NL +:+ "---" +:+ NL +:+ "## Final Trade Decision" +:+ NL +:+ NL +:+ "BUY" +:+ NL ]
  = true.
Proof.
  apply (state_to_md_section_order (fun _ => EmptyString)
           {[ "final_trade_decision" := JStr "BUY"; "market_report" := JStr "Uptrend." ]}).
  vm_compute. reflexivity.
Defined.

End LogUtilsFacts.
